(** * BMI calculator and health planner: a shallow embedding of [BMI/bmi.py]

    The development follows the methods of [BMICalculatorApp] that carry the
    program's logic: input validation, the BMI formula, categorisation, the
    history store, the hydration counter, the energy planner and the
    rule-based query engine.

    Modelling conventions.
    - A Python [float] is an exact rational ([Q]).  Rounding of binary
      floating point, infinities and NaN are outside the model; every
      formula is read over the rationals.  A division whose divisor is zero
      raises [ZeroDivisionError] in Python and is [None] here.
    - A Python [int] is a [Z]; a [str] is a [string] of bytes, so that
      [lower] and [strip] act on ASCII letters and ASCII white space.
    - The conversions [float(s)], [int(s)] and [str(x)] of a float depend on
      the binary representation; they are the operations of the class
      [PyBuiltins], and every theorem holds for all its instances.
    - The application object is the record [App]; a method that mutates
      [self] is a function [App -> App]; the clock and the outcome of file
      output are arguments of the methods that use them.
    - Widgets are kept as far as the methods below write to them (label text
      and colours, message boxes); geometry, focus and fonts are left out. *)

From Stdlib Require Import ZArith QArith Qround Qabs Qminmax String Ascii List Bool Lia Lqa.
From Stdlib Require Import DecimalString.
Import ListNotations.

Open Scope string_scope.

(** ** Numbers *)

Module PyNum.

Open Scope Q_scope.

(** [round(x)]: the nearest integer, a tie goes to the even neighbour. *)
Definition round (x : Q) : Z :=
  let f := Qfloor x in
  match Qcompare (x - inject_Z f) (1 # 2) with
  | Lt => f
  | Gt => (f + 1)%Z
  | Eq => if Z.even f then f else (f + 1)%Z
  end.

(** [round(x, 2)]. *)
Definition round2 (x : Q) : Q := inject_Z (round (x * 100)) / 100.

(** [x // y] and [x % y] on floats, for a divisor [y] other than zero. *)
Definition floordiv (x y : Q) : Q := inject_Z (Qfloor (x / y)).
Definition mod_ (x y : Q) : Q := x - y * inject_Z (Qfloor (x / y)).

(** [int(x)] of a float: truncation towards zero. *)
Definition int_of_float (x : Q) : Z := Z.quot (Qnum x) (Zpos (Qden x)).

(** [x / y], which raises [ZeroDivisionError] when [y] is zero. *)
Definition truediv (x y : Q) : option Q :=
  if Qeq_bool y 0 then None else Some (x / y).

(** [x <= y] and [x < y] as tests. *)
Definition leb (x y : Q) : bool := Qle_bool x y.
Definition ltb (x y : Q) : bool := negb (Qle_bool y x).

(** [str(n)] of an int. *)
Definition str_int (n : Z) : string := NilZero.string_of_int (Z.to_int n).

Fixpoint zfill (width : nat) (s : string) : string :=
  match (width - String.length s)%nat with
  | O => s
  | S _ =>
      match width with
      | O => s
      | S w => "0" ++ zfill w s
      end
  end.

(** [f"{x:.<prec>f}"]: fixed notation with [prec] digits after the point,
    the magnitude rounded to the nearest, ties to even. *)
Definition format_f (prec : nat) (x : Q) : string :=
  let scale := (10 ^ Z.of_nat prec)%Z in
  let n := round (Qabs x * inject_Z scale) in
  let sign := if Qlt_le_dec x 0 then "-" else "" in
  let ip := str_int (n / scale) in
  match prec with
  | O => sign ++ ip
  | S _ => sign ++ ip ++ "." ++ zfill prec (str_int (n mod scale))
  end.

End PyNum.

(** ** Strings *)

Module PyStr.

Definition nl : string := String (ascii_of_nat 10) EmptyString.

Definition lower_ascii (c : ascii) : ascii :=
  let n := nat_of_ascii c in
  if ((65 <=? n) && (n <=? 90))%nat then ascii_of_nat (n + 32) else c.

(** [s.lower()]. *)
Fixpoint lower (s : string) : string :=
  match s with
  | EmptyString => EmptyString
  | String c t => String (lower_ascii c) (lower t)
  end.

(** [sub in s]. *)
Fixpoint contains (sub s : string) : bool :=
  String.prefix sub s ||
  match s with
  | EmptyString => false
  | String _ t => contains sub t
  end.

Definition is_space (c : ascii) : bool :=
  let n := nat_of_ascii c in
  (((9 <=? n) && (n <=? 13)) || ((28 <=? n) && (n <=? 32)))%nat.

Fixpoint lstrip (s : string) : string :=
  match s with
  | EmptyString => EmptyString
  | String c t => if is_space c then lstrip t else s
  end.

Definition reverse (s : string) : string :=
  string_of_list_ascii (List.rev (list_ascii_of_string s)).

Definition rstrip (s : string) : string := reverse (lstrip (reverse s)).

(** [s.strip()]. *)
Definition strip (s : string) : string := rstrip (lstrip s).

End PyStr.

(** The conversions of the Python runtime that depend on binary floating
    point or on the full grammar of numeric literals. *)
Class PyBuiltins := {
  (** [float(s)]; [None] stands for [ValueError]. *)
  py_float : string -> option Q;
  (** [int(s)]; [None] stands for [ValueError]. *)
  py_int : string -> option Z;
  (** [str(x)] of a float, as an f-string field without a format prints it. *)
  float_str : Q -> string
}.

Import PyNum PyStr.

(** ** Styles and class constants *)

Module Style.
Definition BG_PRIMARY := "#F0F8FF".
Definition BG_CARD := "white".
Definition COLOR_ACCENT_GREEN := "#4CAF50".
Definition COLOR_ACCENT_BLUE := "#1E90FF".
Definition COLOR_DANGER := "#FF4500".
Definition COLOR_WARNING := "#FFD700".
Definition COLOR_BUTTON_HOVER := "#3e8e41".
Definition COLOR_WATER := "#81D4FA".
End Style.

Definition BMI_MIN_NORMAL : Q := 18.5.
Definition BMI_MAX_NORMAL : Q := 24.9.
Definition BMI_EXTREME_LOW : Q := 16.0.
Definition BMI_EXTREME_HIGH : Q := 35.0.
Definition WATER_GOAL_ML : Z := 2500.

(** [ACTIVITY_MULTIPLIERS], a dict read with [.get(activity, 1.55)]. *)
Definition ACTIVITY_MULTIPLIERS : list (string * Q) :=
  [ ("Sedentary", 1.2%Q); ("Lightly Active", 1.375%Q);
    ("Moderately Active", 1.55%Q); ("Very Active", 1.725%Q);
    ("Extra Active", 1.9%Q) ].

Fixpoint dict_get {V : Type} (d : list (string * V)) (k : string) (default : V) : V :=
  match d with
  | [] => default
  | (k', v) :: rest => if String.eqb k' k then v else dict_get rest k default
  end.

Definition ACTIVITY_OPTIONS : list string := List.map fst ACTIVITY_MULTIPLIERS.
Definition DIET_OPTIONS : list string := ["Omnivore"; "Vegetarian"; "Vegan"].
Definition goal_options : list string := ["Lose Weight"; "Maintain Weight"; "Gain Muscle"].

(** ** Data model *)

(** The dict returned by [validate_and_get_inputs] and kept in
    [current_inputs]; the keys ["category"] and ["bmi"] are added by
    [calculate_bmi_gui], so they are optional here. *)
Record Inputs := mkInputs {
  inp_name : string;
  inp_weight : Q;
  inp_height : Q;
  inp_age : Z;
  inp_gender : string;
  inp_activity : string;
  inp_goal : string;
  inp_diet : string;
  inp_unit : string;
  inp_category : option string;
  inp_bmi : option Q
}.

Definition with_result (i : Inputs) (category : string) (bmi : Q) : Inputs :=
  mkInputs (inp_name i) (inp_weight i) (inp_height i) (inp_age i) (inp_gender i)
           (inp_activity i) (inp_goal i) (inp_diet i) (inp_unit i)
           (Some category) (Some bmi).

(** One element of the history list and of the JSON array on disk. *)
Record HistoryRecord := mkRecord {
  rec_date : string;
  rec_bmi : Q;
  rec_category : string;
  rec_weight : string;
  rec_height : string
}.

(** What [HISTORY_FILE] holds: nothing, something [json.load] rejects, or an
    array of records. *)
Inductive FileState :=
| Missing
| Malformed
| Stored (records : list HistoryRecord).

Record Label := mkLabel { text : string; fg : string; bg : string }.

Inductive Dialog :=
| showerror (title message : string)
| showwarning (title message : string)
| showinfo (title message : string).

(** The six entry widgets of the calculator form. *)
Record Form := mkForm {
  name_entry : string;
  weight_entry : string;
  metric_height_entry : string;
  ft_entry : string;
  in_entry : string;
  age_entry : string
}.

(** The labels of the result card; [result_frame] holds its background and
    [static_bg] the background of the captions that also are children of the
    frame. *)
Record ResultCard := mkCard {
  bmi_value_label : Label;
  category_label : Label;
  ideal_weight_label : Label;
  goal_diff_label : Label;
  warning_label : Label;
  benefit_label : Label;
  result_frame : string;
  static_bg : string
}.

Record App := mkApp {
  form : Form;
  unit_system : string;
  gender : string;
  activity_level : string;
  health_goal : string;
  diet_preference : string;
  water_intake_ml : Z;
  water_add_ml : string;
  weight_label_text : string;
  height_label_text : string;
  current_inputs : option Inputs;
  history : list HistoryRecord;
  history_file : FileState;
  dynamic_feedback_label : Label;
  card : ResultCard;
  water_bar : option Q;
  water_status_label : option Label;
  dialogs : list Dialog
}.

Definition set_form v s := mkApp v (unit_system s) (gender s) (activity_level s) (health_goal s) (diet_preference s) (water_intake_ml s) (water_add_ml s) (weight_label_text s) (height_label_text s) (current_inputs s) (history s) (history_file s) (dynamic_feedback_label s) (card s) (water_bar s) (water_status_label s) (dialogs s).
Definition set_water_intake_ml v s := mkApp (form s) (unit_system s) (gender s) (activity_level s) (health_goal s) (diet_preference s) v (water_add_ml s) (weight_label_text s) (height_label_text s) (current_inputs s) (history s) (history_file s) (dynamic_feedback_label s) (card s) (water_bar s) (water_status_label s) (dialogs s).
Definition set_water_add_ml v s := mkApp (form s) (unit_system s) (gender s) (activity_level s) (health_goal s) (diet_preference s) (water_intake_ml s) v (weight_label_text s) (height_label_text s) (current_inputs s) (history s) (history_file s) (dynamic_feedback_label s) (card s) (water_bar s) (water_status_label s) (dialogs s).
Definition set_unit_labels w h s := mkApp (form s) (unit_system s) (gender s) (activity_level s) (health_goal s) (diet_preference s) (water_intake_ml s) (water_add_ml s) w h (current_inputs s) (history s) (history_file s) (dynamic_feedback_label s) (card s) (water_bar s) (water_status_label s) (dialogs s).
Definition set_current_inputs v s := mkApp (form s) (unit_system s) (gender s) (activity_level s) (health_goal s) (diet_preference s) (water_intake_ml s) (water_add_ml s) (weight_label_text s) (height_label_text s) v (history s) (history_file s) (dynamic_feedback_label s) (card s) (water_bar s) (water_status_label s) (dialogs s).
Definition set_history v s := mkApp (form s) (unit_system s) (gender s) (activity_level s) (health_goal s) (diet_preference s) (water_intake_ml s) (water_add_ml s) (weight_label_text s) (height_label_text s) (current_inputs s) v (history_file s) (dynamic_feedback_label s) (card s) (water_bar s) (water_status_label s) (dialogs s).
Definition set_history_file v s := mkApp (form s) (unit_system s) (gender s) (activity_level s) (health_goal s) (diet_preference s) (water_intake_ml s) (water_add_ml s) (weight_label_text s) (height_label_text s) (current_inputs s) (history s) v (dynamic_feedback_label s) (card s) (water_bar s) (water_status_label s) (dialogs s).
Definition set_dynamic_feedback_label v s := mkApp (form s) (unit_system s) (gender s) (activity_level s) (health_goal s) (diet_preference s) (water_intake_ml s) (water_add_ml s) (weight_label_text s) (height_label_text s) (current_inputs s) (history s) (history_file s) v (card s) (water_bar s) (water_status_label s) (dialogs s).
Definition set_card v s := mkApp (form s) (unit_system s) (gender s) (activity_level s) (health_goal s) (diet_preference s) (water_intake_ml s) (water_add_ml s) (weight_label_text s) (height_label_text s) (current_inputs s) (history s) (history_file s) (dynamic_feedback_label s) v (water_bar s) (water_status_label s) (dialogs s).
Definition set_hydration_widgets b l s := mkApp (form s) (unit_system s) (gender s) (activity_level s) (health_goal s) (diet_preference s) (water_intake_ml s) (water_add_ml s) (weight_label_text s) (height_label_text s) (current_inputs s) (history s) (history_file s) (dynamic_feedback_label s) (card s) b l (dialogs s).
Definition add_dialog d s := mkApp (form s) (unit_system s) (gender s) (activity_level s) (health_goal s) (diet_preference s) (water_intake_ml s) (water_add_ml s) (weight_label_text s) (height_label_text s) (current_inputs s) (history s) (history_file s) (dynamic_feedback_label s) (card s) (water_bar s) (water_status_label s) (dialogs s ++ [d]).

(** [label.config(text=..., fg=...)] and the like: the options not named
    keep their value. *)
Definition config_text_fg (t f : string) (l : Label) : Label := mkLabel t f (bg l).
Definition config_text_bg (t b : string) (l : Label) : Label := mkLabel t (fg l) b.
Definition config_text_fg_bg (t f b : string) (l : Label) : Label := mkLabel t f b.
Definition config_text (t : string) (l : Label) : Label := mkLabel t (fg l) (bg l).
Definition config_fg (f : string) (l : Label) : Label := mkLabel (text l) f (bg l).
Definition config_bg (b : string) (l : Label) : Label := mkLabel (text l) (fg l) b.

(** ** The methods of [BMICalculatorApp] *)

Section Methods.

Context {builtins : PyBuiltins}.

Open Scope Q_scope.

(** *** Hydration *)

Definition update_hydration_display (s : App) : App :=
  match water_bar s, water_status_label s with
  | Some _, Some l =>
      let current := water_intake_ml s in
      let progress := Qmin 100 (inject_Z current / inject_Z WATER_GOAL_ML * 100) in
      let l1 :=
        config_text
          (String.concat ""
             [str_int current; "ml / "; str_int WATER_GOAL_ML; "ml (";
              format_f 0 progress; "%)"]) l in
      let l2 :=
        if leb 100 progress
        then config_fg Style.COLOR_ACCENT_GREEN l1
        else config_fg Style.COLOR_WATER l1 in
      set_hydration_widgets (Some progress) (Some l2) s
  | _, _ => s
  end.

Definition water_input_error : Dialog :=
  showerror "Input Error"
            "Please enter a valid positive number for water intake (ml).".

Definition log_water_intake (s : App) : App :=
  match py_int (water_add_ml s) with
  | Some amount =>
      if (amount <=? 0)%Z then add_dialog water_input_error s
      else
        let current := water_intake_ml s in
        let s1 := set_water_intake_ml (current + amount)%Z s in
        let s2 := update_hydration_display s1 in
        set_water_add_ml "250" s2
  | None => add_dialog water_input_error s
  end.

(** *** History store *)

Definition load_history (s : App) : App :=
  match history_file s with
  | Stored records => set_history records s
  | Malformed =>
      add_dialog
        (showwarning "History Load Error"
                     "Could not load or parse BMI history file.")
        (set_history [] s)
  | Missing => set_history [] s
  end.

(** [l[-n:]] for [n > 0]. *)
Definition last_n {A : Type} (n : nat) (l : list A) : list A :=
  skipn (List.length l - n) l.

(** The height of an imperial profile, ["<feet> ft <inches> in"]. *)
Definition feet_inches_str (height_inches : Q) : string :=
  let feet := int_of_float (floordiv height_inches 12) in
  let inches := round (mod_ height_inches 12) in
  String.concat "" [str_int feet; " ft "; str_int inches; " in"].

(** The dict [new_record]; [now] is
    [datetime.now().strftime("%Y-%m-%d %H:%M")]. *)
Definition new_record (now : string) (inputs : Inputs) (bmi : Q)
           (category : string) : HistoryRecord :=
  let unit := inp_unit inputs in
  let '(weight_str, height_str) :=
    if String.eqb unit "metric"
    then (float_str (inp_weight inputs) ++ " kg",
          format_f 2 (inp_height inputs) ++ " m")
    else (float_str (inp_weight inputs) ++ " lbs",
          feet_inches_str (inp_height inputs)) in
  mkRecord now (round2 bmi) category weight_str height_str.

(** [io_ok] tells whether the file could be written; otherwise the
    [IOError] is caught and shown. *)
Definition save_history (now : string) (io_ok : bool)
           (inputs : Inputs) (bmi : Q) (category : string) (s : App) : App :=
  let s1 := set_history (history s ++ [new_record now inputs bmi category]) s in
  let s2 := set_history (last_n 20 (history s1)) s1 in
  if io_ok then set_history_file (Stored (history s2)) s2
  else add_dialog
         (showerror "History Save Error" "Could not save BMI history to file.")
         s2.

(** *** The calculator form *)

Definition empty_form : Form := mkForm "" "" "" "" "" "".

Definition clear_inputs (s : App) : App :=
  let s1 := set_form empty_form s in
  let s2 := set_current_inputs None s1 in
  let s3 := set_water_intake_ml 0%Z s2 in
  let s4 := update_hydration_display s3 in
  let c := card s4 in
  let reset t f l := config_bg Style.BG_CARD (config_text_fg t f l) in
  let c' :=
    mkCard
      (reset "---" "#333333" (bmi_value_label c))
      (reset "---" "#0000FF" (category_label c))
      (reset "---" Style.COLOR_ACCENT_GREEN (ideal_weight_label c))
      (config_bg Style.BG_CARD (config_text "" (goal_diff_label c)))
      (reset "---" Style.COLOR_DANGER (warning_label c))
      (reset "---" Style.COLOR_ACCENT_GREEN (benefit_label c))
      Style.BG_CARD
      Style.BG_CARD in
  let s5 := set_card c' s4 in
  set_dynamic_feedback_label
    (config_text_fg "💡 Enter your details to get started!"
                    Style.COLOR_ACCENT_BLUE (dynamic_feedback_label s5))
    s5.

Definition update_unit_labels (s : App) : App :=
  let unit := unit_system s in
  let s1 :=
    if String.eqb unit "metric"
    then set_unit_labels "Weight (kg):" "Height (m):" s
    else set_unit_labels "Weight (lbs):" "Height:" s in
  clear_inputs s1.

Definition feedback (t f : string) (s : App) : App :=
  set_dynamic_feedback_label (config_text_fg t f (dynamic_feedback_label s)) s.

Definition msg_name := "⚠️ Please enter your name to personalize the plan.".
Definition msg_positive := "⚠️ Weight and Height must be positive numbers.".
Definition msg_age := "⚠️ Age must be between 16 and 120 years.".
Definition msg_invalid :=
  "❌ Invalid input: Please ensure all fields contain valid numbers.".
Definition msg_ok := "✅ Inputs validated. Ready to calculate!".

(** [float(entry.get() or 0)]. *)
Definition float_or_zero (s : string) : option Q :=
  match s with
  | EmptyString => Some 0
  | _ => py_float s
  end.

(** The height read from the form: metres, or feet and inches turned into
    total inches.  [None] stands for the [ValueError] of a conversion. *)
Definition read_height (unit : string) (f : Form) : option Q :=
  if String.eqb unit "metric" then py_float (metric_height_entry f)
  else
    match float_or_zero (ft_entry f) with
    | None => None
    | Some feet =>
        match float_or_zero (in_entry f) with
        | None => None
        | Some inches => Some ((feet * 12) + inches)
        end
    end.

Definition validate_and_get_inputs (s : App) : App * option Inputs :=
  let name := strip (name_entry (form s)) in
  if String.eqb name "" then (feedback msg_name Style.COLOR_DANGER s, None)
  else
    let unit := unit_system s in
    let value_error := (feedback msg_invalid Style.COLOR_DANGER s, None) in
    match py_float (weight_entry (form s)) with
    | None => value_error
    | Some weight =>
        match py_int (age_entry (form s)) with
        | None => value_error
        | Some age =>
            match read_height unit (form s) with
            | None => value_error
            | Some height =>
                if leb weight 0 || leb height 0
                then (feedback msg_positive Style.COLOR_DANGER s, None)
                else if negb ((16 <=? age)%Z && (age <=? 120)%Z)
                then (feedback msg_age Style.COLOR_DANGER s, None)
                else
                  (feedback msg_ok Style.COLOR_ACCENT_GREEN s,
                   Some (mkInputs name weight height age (gender s)
                                  (activity_level s) (health_goal s)
                                  (diet_preference s) unit None None))
            end
        end
    end.

Definition calculate_ideal_weight (height : Q) (unit : string) : string :=
  let height_m := if String.eqb unit "imperial" then height * 0.0254 else height in
  let min_weight_kg := BMI_MIN_NORMAL * (height_m ^ 2) in
  let max_weight_kg := BMI_MAX_NORMAL * (height_m ^ 2) in
  let '(min_weight, max_weight, unit_display) :=
    if String.eqb unit "imperial"
    then (min_weight_kg * 2.20462, max_weight_kg * 2.20462, "lbs")
    else (min_weight_kg, max_weight_kg, "kg") in
  String.concat "" [format_f 1 min_weight; " - "; format_f 1 max_weight; " "; unit_display].

(** [None] stands for the [ZeroDivisionError] of a zero height. *)
Definition perform_calculation (weight height : Q) (unit : string) : option Q :=
  if String.eqb unit "metric"
  then truediv weight (height ^ 2)
  else option_map (fun r => r * 703) (truediv weight (height ^ 2)).

(** *** Categorisation *)

(** The tuple [(category, color, description, bg_color, warning, benefit)]
    that [categorize_bmi] returns. *)
Record Categorized := mkCategorized {
  cat_category : string;
  cat_color : string;
  cat_description : string;
  cat_bg_color : string;
  cat_warning : string;
  cat_benefit : string
}.

Definition alert_msg (bmi : Q) : string :=
  String.concat ""
    ["‼️ **SEVERE HEALTH RISK INDICATOR:** Your BMI is "; format_f 2 bmi;
     ". **This tool suggests your value is critically outside the norm.** Seek immediate medical guidance. "].

(** The test that raises the alert. *)
Definition severe (bmi : Q) : bool :=
  ltb bmi BMI_EXTREME_LOW || ltb BMI_EXTREME_HIGH bmi.

(** The first [if]/[elif] chain: label, colour and background. *)
Definition band (bmi : Q) : string * string * string :=
  if ltb bmi 18.5 then ("Underweight", Style.COLOR_ACCENT_BLUE, "#E3F2FD")
  else if leb 18.5 bmi && ltb bmi 25.0
  then ("Normal Weight", Style.COLOR_ACCENT_GREEN, "#E8F5E9")
  else if leb 25.0 bmi && ltb bmi 30.0
  then ("Overweight", Style.COLOR_WARNING, "#FFFDE7")
  else ("Obesity", Style.COLOR_DANGER, "#FFEBEE").

(** The second chain: the narrative of a category, without the prefix. *)
Definition narrative (category gender : string) (age : Z) : string * string :=
  if String.eqb category "Underweight" then
    ("Possible risks: Weakened immune system, anemia, osteoporosis, and fertility issues. Consult a professional.",
     "Benefits of reaching normal weight: Improved energy, stronger bones, and better immune function. Focus on nutrient-dense calories.")
  else if String.eqb category "Normal Weight" then
    (String.concat ""
       ["Maintain healthy habits. As a "; lower gender;
        ", ensure adequate protein intake, especially after age 40 (for ";
        str_int age; " year old)."],
     "Benefits: Lowest risk of major chronic diseases, better mobility, and higher life expectancy.")
  else if String.eqb category "Overweight" then
    ("Increased risk of: Type 2 diabetes, high blood pressure, and joint problems. Prioritize consistent calorie deficit and activity.",
     "Benefits of losing weight: Lower blood pressure, better sleep quality, improved energy levels, and reduced joint strain.")
  else
    ("High risk of: Severe cardiovascular disease, stroke, sleep apnea, and reduced mobility. Start with low-impact activity immediately.",
     "Benefits of weight management: Dramatic reduction in disease risk, increased mobility, and improved overall mental health.").

Definition categorize_bmi (bmi : Q) (gender unit : string) (age : Z) : Categorized :=
  let '(category, color0, bg_color0) := band bmi in
  let '(warning_prefix, color, bg_color) :=
    if severe bmi
    then (alert_msg bmi, Style.COLOR_DANGER, "#FFCDD2")
    else ("", color0, bg_color0) in
  let '(warning_body, benefit) := narrative category gender age in
  let warning := warning_prefix ++ warning_body in
  let description := "Check warnings for details." in
  mkCategorized category color description bg_color warning benefit.

(** *** The calculation flow *)

(** [flash_button] changes the colour of the button for 100 ms and is not
    modelled.  An exception of [perform_calculation] would leave the
    callback after [current_inputs] was assigned. *)
Definition calculate_bmi_gui (now : string) (io_ok : bool) (s : App) : App :=
  let '(s1, validated) := validate_and_get_inputs s in
  match validated with
  | None => s1
  | Some inputs =>
      let s2 := set_current_inputs (Some inputs) s1 in
      match perform_calculation (inp_weight inputs) (inp_height inputs) (inp_unit inputs) with
      | None => s2
      | Some bmi =>
          let r := categorize_bmi bmi (inp_gender inputs) (inp_unit inputs) (inp_age inputs) in
          let category := cat_category r in
          let bg_color := cat_bg_color r in
          let ideal_range := calculate_ideal_weight (inp_height inputs) (inp_unit inputs) in
          (* [inputs] and [current_inputs] are one dict: both get the keys. *)
          let inputs' := with_result inputs category bmi in
          let s3 := set_current_inputs (Some inputs') s2 in
          let s4 := save_history now io_ok inputs' bmi category s3 in
          let c := card s4 in
          let c' :=
            mkCard
              (config_text_bg (format_f 2 bmi) bg_color (bmi_value_label c))
              (config_text_fg_bg category (cat_color r) bg_color (category_label c))
              (config_text_bg ideal_range bg_color (ideal_weight_label c))
              (config_bg bg_color (config_text "" (goal_diff_label c)))
              (config_text_bg (cat_warning r) bg_color (warning_label c))
              (config_text_bg (cat_benefit r) bg_color (benefit_label c))
              bg_color
              bg_color in
          set_card c' s4
      end
  end.

(** *** Query engine *)

Definition or_default (o : option string) (d : string) : string :=
  match o with
  | Some v => v
  | None => d
  end.

(** [None] stands for the [ValueError] of formatting the default ['N/A']
    with [.2f], which happens when the profile has no ["bmi"] key. *)
Definition get_personalized_health_report (s : App) : option string :=
  match current_inputs s with
  | None =>
      Some "No recent health metrics are available. Please calculate your BMI first."
  | Some data =>
      let '(weight_str, height_str) :=
        if String.eqb (inp_unit data) "imperial"
        then (float_str (inp_weight data) ++ " lbs",
              feet_inches_str (inp_height data))
        else (float_str (inp_weight data) ++ " kg",
              float_str (inp_height data) ++ " m") in
      match inp_bmi data with
      | None => None
      | Some bmi =>
          Some (String.concat ""
            ["--- User Health Snapshot ---"; nl;
             "BMI: "; format_f 2 bmi; " ("; or_default (inp_category data) "N/A"; ")"; nl;
             "Goal: "; inp_goal data; nl;
             "Activity: "; inp_activity data; nl;
             "Diet: "; inp_diet data; nl;
             "Age/Gender: "; str_int (inp_age data); " / "; inp_gender data; nl;
             "Weight/Height: "; weight_str; " / "; height_str; nl;
             "Water Intake Today: "; str_int (water_intake_ml s); "ml"; nl;
             "--------------------------"; nl])
      end
  end.

Definition MEDICAL_DISCLAIMER : string :=
  "⚠️ Disclaimer: I am an AI assistant, not a doctor. **Always consult a qualified healthcare professional** for medical diagnosis or treatment.".

(** Rule 1, the water status. *)
Definition water_status (s : App) : string :=
  let current := water_intake_ml s in
  let goal := WATER_GOAL_ML in
  if (current >=? goal)%Z then
    String.concat ""
      ["Fantastic! You've logged **"; str_int current;
       "ml** which meets your daily goal of **"; str_int goal;
       "ml**! Stay consistent. You're doing great!"]
  else
    let remaining := (goal - current)%Z in
    String.concat ""
      ["You've logged **"; str_int current; "ml** so far against a goal of **";
       str_int goal; "ml**. That means you need about **"; str_int remaining;
       "ml** more today. Keep sipping!"].

(** Rule 2, the diet and plan advice. *)
Definition plan_advice (s : App) : string :=
  match current_inputs s with
  | None =>
      "I need your personal metrics first! Please go to the 'BMI Calculator' tab, calculate your BMI, and then check the 'Health Planner' tab. Once that's done, I can give you personalized advice!"
  | Some data =>
      let goal := inp_goal data in
      let diet := inp_diet data in
      let advice :=
        if String.eqb goal "Lose Weight" then
          String.concat ""
            ["Your current goal is **Weight Loss**. Focus on a calorie deficit and high-volume, satiating foods. With your **";
             diet;
             "** preference, ensure plenty of lean protein and fiber to manage hunger and preserve muscle."]
        else if String.eqb goal "Gain Muscle" then
          String.concat ""
            ["Your current goal is **Muscle Gain**. Focus on a slight calorie surplus and prioritize high-quality protein (aim for ~1.6g per kg of body weight). Make sure your **";
             diet; "** choice supports enough protein."]
        else
          String.concat ""
            ["Your current goal is to **Maintain Weight**. The key is balance and consistency. Continue following a diverse **";
             diet; "** diet and keeping up your current activity level."] in
      String.concat ""
        ["Based on your latest inputs:"; nl; "- Health Goal: **"; goal; "**"; nl;
         "- Diet Preference: **"; diet; "**"; nl; nl; advice]
  end.

(** Rule 11, the exercise guideline. *)
Definition exercise_answer : string :=
  "For general health, the CDC recommends at least 150 minutes of moderate-intensity activity (e.g., brisk walking) per week, plus muscle-strengthening activities two days a week. We can help you integrate that into your Planner!".

Definition get_rule_based_response (query : string) (s : App) : option string :=
  let q := lower query in
  if contains "water status" q || contains "my water" q
     || contains "hydration" q || contains "how much water" q
  then Some (water_status s)
  else if contains "diet plan" q || contains "my goals" q || contains "my plan" q
  then Some (plan_advice s)
  else if contains "my health report" q || contains "my metrics" q
  then option_map (fun report => "Here is your latest summary:" ++ nl ++ report)
                  (get_personalized_health_report s)
  else if contains "what is the medical disclaimer" q
  then Some (MEDICAL_DISCLAIMER ++ nl ++ nl ++
             "I repeat this for all sensitive health queries. Your safety is paramount. How else can I assist with general health information?")
  else if contains "medication" q || contains "drug" q || contains "supplements" q
  then Some (MEDICAL_DISCLAIMER ++ nl ++ nl ++
             "I can suggest general benefits of common vitamins, but for advice regarding specific **medication or supplements**, you must speak with your pharmacist or prescribing doctor. Do you want to know about general health benefits of Vitamin D?")
  else if contains "diabetes" q || contains "blood sugar" q
  then Some (MEDICAL_DISCLAIMER ++ nl ++ nl ++
             "Managing blood sugar requires a personalized approach. General tips include: prioritizing low-glycemic index foods, daily moderate exercise, and consistent meal timings. Speak to a doctor or dietitian for a custom plan.")
  else if contains "heart disease" q || contains "cardio" q || contains "blood pressure" q
  then Some (MEDICAL_DISCLAIMER ++ nl ++ nl ++
             "To promote cardiovascular health, focus on a diet low in sodium and saturated fats (like the DASH diet), engage in regular aerobic exercise, and quit smoking. If you have high blood pressure, consult your physician immediately.")
  else if contains "allergies" q || contains "intolerance" q
  then Some (String.concat ""
               [MEDICAL_DISCLAIMER; nl; nl;
                "If you suspect food allergies or intolerances, you should consult an allergist. In the meantime, strict avoidance of suspected triggers is necessary. Make sure to communicate your ";
                diet_preference s; " diet preference to me for safe meal suggestions."])
  else if contains "healthy bmi" q || contains "what is bmi" q
  then Some "A healthy BMI range is typically **18.5 to 24.9**. While BMI is a quick screening tool, it's essential to consider muscle mass and body fat percentage for a complete picture. Do you want to know the ideal weight range for your height?"
  else if contains "foods" q && (contains "weight loss" q || contains "lose weight" q)
  then Some "To achieve sustainable weight loss, prioritize **whole, unprocessed foods**. Focus on lean proteins (like chicken, beans, and fish), high-fiber vegetables, and whole grains. Avoid liquid calories and excessive sugar."
  else if contains "exercise" q || contains "workout" q
  then Some exercise_answer
  else if contains "balanced diet" q
  then Some "A truly balanced diet requires hitting your **macro-nutrient targets** (protein, carbs, fats) while consuming a wide variety of **micronutrients** (vitamins, minerals). Aim for a colorful plate to ensure diversity."
  else if contains "hello" q || contains "hi" q
  then Some "Hello! I'm your Smart Health Assistant, powered by AI. I can answer your wellness questions, but remember I am not a doctor. What health topic can I assist with?"
  else Some "I'm generating an informed response for your query. As an AI assistant, I can provide general health information, but please consult a healthcare professional for specific medical advice.".

(** *** Energy planner *)

(** The locals of [generate_diet_plan], each as a function of the profile. *)

Definition weight_kg (inputs : Inputs) : Q :=
  if String.eqb (inp_unit inputs) "imperial"
  then inp_weight inputs / 2.20462
  else inp_weight inputs.

Definition height_cm (inputs : Inputs) : Q :=
  if String.eqb (inp_unit inputs) "imperial"
  then inp_height inputs * 2.54
  else inp_height inputs * 100.

Definition bmr (inputs : Inputs) : Q :=
  let age := inject_Z (inp_age inputs) in
  if String.eqb (inp_gender inputs) "Male"
  then 88.362 + (13.397 * weight_kg inputs) + (4.799 * height_cm inputs) - (5.677 * age)
  else 447.593 + (9.247 * weight_kg inputs) + (3.098 * height_cm inputs) - (4.330 * age).

Definition activity_multiplier (inputs : Inputs) : Q :=
  dict_get ACTIVITY_MULTIPLIERS (inp_activity inputs) 1.55.

Definition tdee (inputs : Inputs) : Q := bmr inputs * activity_multiplier inputs.

(** The dict [macros], with keys ['P'], ['C'] and ['F']. *)
Record Macros := mkMacros { macro_P : Q; macro_C : Q; macro_F : Q }.

(** The branch on the goal: calorie target, advice and macro split. *)
Definition goal_branch (inputs : Inputs) : Q * string * Macros :=
  let goal := inp_goal inputs in
  if String.eqb goal "Lose Weight" then
    (tdee inputs - 500,
     "Targeting a calorie deficit of ~500 kcal/day for safe weight loss.",
     mkMacros 0.35 0.40 0.25)
  else if String.eqb goal "Gain Muscle" then
    (tdee inputs + 300,
     "Targeting a calorie surplus of ~300 kcal/day, focusing heavily on protein.",
     mkMacros 0.30 0.50 0.20)
  else
    (tdee inputs,
     "Targeting maintenance calories (TDEE) for a balanced lifestyle.",
     mkMacros 0.25 0.45 0.30).

Definition cal_target (inputs : Inputs) : Q := fst (fst (goal_branch inputs)).
Definition goal_advice (inputs : Inputs) : string := snd (fst (goal_branch inputs)).
Definition macros (inputs : Inputs) : Macros := snd (goal_branch inputs).

Definition prot_g (inputs : Inputs) : Z :=
  round ((cal_target inputs * macro_P (macros inputs)) / 4).
Definition carb_g (inputs : Inputs) : Z :=
  round ((cal_target inputs * macro_C (macros inputs)) / 4).
Definition fat_g (inputs : Inputs) : Z :=
  round ((cal_target inputs * macro_F (macros inputs)) / 9).

Definition reminder (inputs : Inputs) : string :=
  let category := or_default (inp_category inputs) "N/A" in
  if (inp_age inputs >? 50)%Z then
    "👵👴 Health Tip: Prioritize calcium and Vitamin D intake for bone health. Daily low-impact exercise is key!"
  else if String.eqb category "Overweight" || String.eqb category "Obesity" then
    "💧 Hydration Tip: Drink a large glass of water before every meal to aid digestion and satiety."
  else if String.eqb (inp_activity inputs) "Extra Active" then
    "💤 Recovery Tip: Ensure 7-9 hours of quality sleep nightly to repair muscle tissue."
  else
    "🧘 Wellness Tip: Manage stress through mindfulness or short breaks. Focus on whole foods, fiber, and consistency.".

Definition generate_diet_plan (inputs : Inputs) : string :=
  let name := inp_name inputs in
  let category := or_default (inp_category inputs) "N/A" in
  let age := inp_age inputs in
  let gender := inp_gender inputs in
  let activity := inp_activity inputs in
  let goal := inp_goal inputs in
  let bmi := match inp_bmi inputs with Some b => b | None => 0 end in
  let diet := inp_diet inputs in
  let header := String.concat "" ["**"; name; "'s Personalized Health Plan**"; nl; nl] in
  let details :=
    String.concat ""
      ["**Current Status Summary:**"; nl;
       "  - BMI: "; format_f 2 bmi; " ("; category; ")"; nl;
       "  - Age / Gender: "; str_int age; " / "; gender; nl;
       "  - Activity Level: "; activity; nl;
       "  - Diet Preference: **"; diet; "**"; nl;
       "  - Health Goal: **"; goal; "**"; nl; nl;
       "**DAILY NUTRITION TARGETS:**"; nl;
       "  - Calorie Intake: **"; format_f 0 (cal_target inputs); " kcal** (TDEE: ";
       format_f 0 (tdee inputs); ") | "; goal_advice inputs; nl;
       "  - Macros Breakdown:"; nl;
       "    - Protein: "; str_int (prot_g inputs); "g (";
       format_f 0 (macro_P (macros inputs) * 100); "%)"; nl;
       "    - Carbs: "; str_int (carb_g inputs); "g (";
       format_f 0 (macro_C (macros inputs) * 100); "%)"; nl;
       "    - Fats: "; str_int (fat_g inputs); "g (";
       format_f 0 (macro_F (macros inputs) * 100); "%)"; nl; nl;
       "*"; reminder inputs; "*"; nl;
       "----------------------------------------------"; nl] in
  let '(issue_header, plan_content) :=
    if String.eqb category "Underweight" then
      ("Addressing the **Underweight** Issue (Focus: Safe Gain)",
       String.concat ""
         ["**Diet Focus (Caloric Surplus):** Focus on maximizing nutrient density in every meal. Choose whole grains, healthy oils (avocado, coconut), nuts, and seeds. Liquid calories like smoothies with protein powder are excellent.";
          nl;
          "**Activity Focus:** Prioritize **Resistance Training** (Strength) 4 days/week to build muscle mass (muscle weighs more than fat). Limit excessive steady-state cardio to conserve energy."])
    else if String.eqb category "Overweight" || String.eqb category "Obesity" then
      (String.concat "" ["Addressing the **"; category; "** Issue (Focus: Sustainable Loss)"],
       String.concat ""
         ["**Diet Focus (Caloric Deficit):** Must adhere strictly to the calorie target. Prioritize high-fiber foods (vegetables, legumes) and lean protein sources to maximize satiety. Avoid all high-sugar drinks and refined carbohydrates.";
          nl;
          "**Activity Focus:** Start with daily **Low-Impact Cardio** (e.g., brisk walking, swimming) for 30-60 mins, 5 days/week. Add **Strength Training** (2 days/week) to boost metabolism and preserve muscle mass. "])
    else
      ("Addressing **Normal Weight** (Focus: Optimization)",
       String.concat ""
         ["**Diet Focus (Balanced Macros):** Rotate your protein and vegetable sources frequently for diverse micronutrients. Adjust ";
          lower goal;
          " calories weekly based on performance and scale trends. Stay consistent with your **";
          diet; "** preference."; nl;
          "**Activity Focus:** Ideal is a mix of **Cardio and Strength Training** (4-6 total sessions/week) to maintain health and ";
          lower goal; "."; nl;
          "Sample Meal Tip: Rotate your protein and vegetable sources to ensure a wide spectrum of essential vitamins and minerals. Plan your meals ahead."]) in
  String.concat "" [header; details; "**"; issue_header; "**"; nl; nl; plan_content].

(** *** The application as a whole *)

(** The widgets as the three [setup_*_frame] methods create them. *)
Definition new_app (file : FileState) : App :=
  mkApp empty_form "metric" "Male" "Moderately Active" "Maintain Weight" "Omnivore"
        0%Z "250" "Weight (kg):" "Height (m):" None [] file
        (mkLabel "💡 Enter your details to get started!" Style.COLOR_ACCENT_BLUE
                 Style.BG_PRIMARY)
        (mkCard (mkLabel "---" "#333333" Style.BG_CARD)
                (mkLabel "---" "#0000FF" Style.BG_CARD)
                (mkLabel "---" Style.COLOR_ACCENT_GREEN Style.BG_CARD)
                (mkLabel "" Style.COLOR_ACCENT_BLUE Style.BG_CARD)
                (mkLabel "---" Style.COLOR_DANGER Style.BG_CARD)
                (mkLabel "---" Style.COLOR_ACCENT_GREEN Style.BG_CARD)
                Style.BG_CARD Style.BG_CARD)
        (Some 0) (Some (mkLabel "0" Style.COLOR_WATER Style.BG_CARD)) [].

(** The state at the end of [__init__]: the planner frame refreshes the
    hydration display, the calculator frame ends with [update_unit_labels],
    and the history is loaded last. *)
Definition init_app (file : FileState) : App :=
  load_history (update_unit_labels (update_hydration_display (new_app file))).

(** What can happen to a running application: the user edits an entry or
    picks an option, or a callback runs.  The water counter is shown by a
    label only, so no edit reaches it. *)
Inductive Event :=
| EditForm (f : Form)
| EditWaterAdd (t : string)
| SelectUnit (unit : string)
| SelectGender (g : string)
| SelectActivity (a : string)
| SelectGoal (g : string)
| SelectDiet (d : string)
| CallLogWaterIntake
| CallUpdateHydrationDisplay
| CallLoadHistory
| CallClearInputs
| CallValidate
| CallCalculateBmiGui (now : string) (io_ok : bool)
| CallQuery (query : string).

Definition set_options (u g a h d : string) (s : App) : App :=
  mkApp (form s) u g a h d (water_intake_ml s) (water_add_ml s)
        (weight_label_text s) (height_label_text s) (current_inputs s)
        (history s) (history_file s) (dynamic_feedback_label s) (card s)
        (water_bar s) (water_status_label s) (dialogs s).

Definition handle (e : Event) (s : App) : App :=
  match e with
  | EditForm f => set_form f s
  | EditWaterAdd t => set_water_add_ml t s
  | SelectUnit u =>
      (* the radio button sets the variable, then runs its command *)
      update_unit_labels
        (set_options u (gender s) (activity_level s) (health_goal s) (diet_preference s) s)
  | SelectGender g =>
      set_options (unit_system s) g (activity_level s) (health_goal s) (diet_preference s) s
  | SelectActivity a =>
      set_options (unit_system s) (gender s) a (health_goal s) (diet_preference s) s
  | SelectGoal g =>
      set_options (unit_system s) (gender s) (activity_level s) g (diet_preference s) s
  | SelectDiet d =>
      set_options (unit_system s) (gender s) (activity_level s) (health_goal s) d s
  | CallLogWaterIntake => log_water_intake s
  | CallUpdateHydrationDisplay => update_hydration_display s
  | CallLoadHistory => load_history s
  | CallClearInputs => clear_inputs s
  | CallValidate => fst (validate_and_get_inputs s)
  | CallCalculateBmiGui now io_ok => calculate_bmi_gui now io_ok s
  | CallQuery _ => s
  end.

Fixpoint run (events : list Event) (s : App) : App :=
  match events with
  | [] => s
  | e :: rest => run rest (handle e s)
  end.

End Methods.

(** ** A decimal instance of the runtime conversions

    Plain decimal notation, enough to run the model on concrete forms:
    an optional sign, digits, and for a float an optional fraction. *)

Module Decimal10.

Open Scope Q_scope.

Fixpoint digits_value (acc : Z) (s : string) : option Z :=
  match s with
  | EmptyString => Some acc
  | String c t =>
      let n := nat_of_ascii c in
      if ((48 <=? n) && (n <=? 57))%nat
      then digits_value (acc * 10 + Z.of_nat (n - 48))%Z t
      else None
  end.

Definition unsigned_int (s : string) : option Z :=
  match s with
  | EmptyString => None
  | _ => digits_value 0 s
  end.

Definition signed {A : Type} (neg : A -> A) (body : string -> option A)
           (s : string) : option A :=
  match s with
  | String "-" r => option_map neg (body r)
  | String "+" r => body r
  | _ => body s
  end.

Definition int (s : string) : option Z := signed Z.opp unsigned_int (strip s).

(** Splits at the first point. *)
Fixpoint split_point (s : string) : string * option string :=
  match s with
  | EmptyString => (EmptyString, None)
  | String "." t => (EmptyString, Some t)
  | String c t => let '(a, b) := split_point t in (String c a, b)
  end.

Definition unsigned_float (s : string) : option Q :=
  match split_point s with
  | (ip, None) => option_map inject_Z (unsigned_int ip)
  | (ip, Some fp) =>
      match ip, fp with
      | EmptyString, EmptyString => None
      | _, _ =>
          match digits_value 0 ip, digits_value 0 fp with
          | Some i, Some f =>
              let scale := (10 ^ Z.of_nat (String.length fp))%Z in
              Some (Qred (inject_Z (i * scale + f) / inject_Z scale))
          | _, _ => None
          end
      end
  end.

Definition float (s : string) : option Q := signed Qopp unsigned_float (strip s).

(** The shortest fixed notation, with at least one digit after the point,
    that is exact; seventeen digits when there is none. *)
Fixpoint shortest (fuel prec : nat) (x : Q) : string :=
  match fuel with
  | O => format_f prec x
  | S fuel' =>
      if Z.eqb (Z.pos (Qden (Qred (x * inject_Z (10 ^ Z.of_nat prec))))) 1
      then format_f prec x
      else shortest fuel' (S prec) x
  end.

Definition str (x : Q) : string := shortest 16 1 x.

#[export] Instance builtins : PyBuiltins :=
  {| py_float := float; py_int := int; float_str := str |}.

End Decimal10.

(** ** The profile of the data model

    A profile as the form can produce it: positive weight and height, an age
    from 16 to 120, and each choice one of the options its widget offers. *)
Definition valid_profile (inputs : Inputs) : Prop :=
  inp_name inputs <> ""
  /\ (0 < inp_weight inputs)%Q
  /\ (0 < inp_height inputs)%Q
  /\ (16 <= inp_age inputs <= 120)%Z
  /\ In (inp_gender inputs) ["Male"; "Female"]
  /\ In (inp_activity inputs) ACTIVITY_OPTIONS
  /\ In (inp_goal inputs) goal_options
  /\ In (inp_diet inputs) DIET_OPTIONS
  /\ In (inp_unit inputs) ["metric"; "imperial"].

(** ** Keywords of the query rules

    The phrases that rule 1 (water status) and rule 11 (exercise) look for in
    the lower-cased query. *)
Definition water_keywords : list string :=
  ["water status"; "my water"; "hydration"; "how much water"].


Definition mentions (keywords : list string) (query : string) : bool :=
  existsb (fun k => contains k (lower query)) keywords.

(** ** Rejected submissions

    The reasons for which a submitted form fails validation: an empty name,
    a weight, age or height that is not a number, a weight or a height that
    is not positive, an age outside 16..120.  The height is the one read in
    the unit of the form. *)
Definition invalid_submission {builtins : PyBuiltins} (s : App) : Prop :=
  let f := form s in
  strip (name_entry f) = ""
  \/ py_float (weight_entry f) = None
  \/ py_int (age_entry f) = None
  \/ read_height (unit_system s) f = None
  \/ (exists w, py_float (weight_entry f) = Some w /\ (w <= 0)%Q)
  \/ (exists h, read_height (unit_system s) f = Some h /\ (h <= 0)%Q)
  \/ (exists a, py_int (age_entry f) = Some a /\ ~ (16 <= a <= 120)%Z).

(** The messages that report a rejected form. *)
Definition error_messages : list string :=
  [msg_name; msg_invalid; msg_positive; msg_age].

(** ** Sample forms and profiles

    Concrete inputs on which the model is run, with the decimal instance of
    the runtime conversions. *)

Module Samples.

#[local] Existing Instance Decimal10.builtins.

Open Scope Q_scope.

Definition metric_profile : Inputs :=
  mkInputs "Bob" 70 1.75 30 "Male" "Moderately Active" "Lose Weight" "Omnivore"
           "metric" None None.

(** The application after the user chose imperial units, filled the form
    with 150 lbs, 5 ft and 11.6 in, and pressed Calculate. *)
Definition imperial_form : Form := mkForm " Ann " "150" "" "5" "11.6" "30".

Definition imperial_session : App :=
  run [SelectUnit "imperial"; EditForm imperial_form;
       CallCalculateBmiGui "2026-01-01 10:00" true]
      (init_app Missing).

Definition imperial_profile : Inputs :=
  match current_inputs imperial_session with
  | Some inputs => inputs
  | None => metric_profile
  end.

Definition sample_record (n : Z) : HistoryRecord :=
  mkRecord (str_int n) 22 "Normal Weight" "70.0 kg" "1.75 m".

(** A history that is full: records 1 to 20, oldest first. *)
Definition full_history : list HistoryRecord :=
  List.map (fun n => sample_record (Z.of_nat n)) (seq 1 20).

Definition full_app : App := set_history full_history (init_app Missing).

Definition nameless_app : App :=
  handle (EditForm (mkForm "   " "70" "1.75" "" "" "30")) (init_app Missing).

End Samples.

(** * Further methods

    The methods that use the ones above: the ideal weight range as numbers,
    the meal suggestions, the two canvases, the history window, and the
    planner and chatbot views. *)

(** ** Ideal weight range *)

(** The locals [min_weight] and [max_weight] of [calculate_ideal_weight],
    in the unit of the profile. *)
Definition ideal_weight_bounds (height : Q) (unit : string) : Q * Q :=
  let height_m := if String.eqb unit "imperial" then (height * 0.0254)%Q else height in
  let min_weight_kg := (BMI_MIN_NORMAL * (height_m ^ 2))%Q in
  let max_weight_kg := (BMI_MAX_NORMAL * (height_m ^ 2))%Q in
  if String.eqb unit "imperial"
  then ((min_weight_kg * 2.20462)%Q, (max_weight_kg * 2.20462)%Q)
  else (min_weight_kg, max_weight_kg).

(** ** Meal suggestions *)

Section Meals.

(** The dict [base_meals]: diet, then meal, then the suggestions, in the
    order of insertion. *)
Definition base_meals : list (string * list (string * list string)) :=
  [ ("Omnivore",
     [ ("Breakfast", ["Scrambled Eggs with Spinach and Whole-Grain Toast.";
                      "Oatmeal with Berries and Nuts."]);
       ("Lunch", ["Grilled Chicken Salad with Olive Oil Vinaigrette.";
                  "Tuna sandwich on whole wheat."]);
       ("Dinner", ["Baked Salmon with Quinoa and Roasted Asparagus.";
                   "Lean Beef Stir-fry with Brown Rice."]) ]);
    ("Vegetarian",
     [ ("Breakfast", ["Greek Yogurt with Granola and Honey.";
                      "Tofu Scramble with Bell Peppers."]);
       ("Lunch", ["Lentil Soup and a Side Salad."; "Cheese and Veggie Wrap."]);
       ("Dinner", ["Black Bean Burgers on Whole Wheat Buns.";
                   "Chickpea Curry with Brown Rice."]) ]);
    ("Vegan",
     [ ("Breakfast", ["Tofu Scramble with Nutritional Yeast and Veggies.";
                      "Chia Seed Pudding with Fruit."]);
       ("Lunch", ["Large Quinoa Salad with Roasted Vegetables and Hummus.";
                  "Vegetable and Bean Chili."]);
       ("Dinner", ["Lentil Shepherd's Pie."; "Pad Thai with Peanut Sauce and Tofu."]) ]) ].

(** [base_meals.get(diet, base_meals['Omnivore'])]. *)
Definition meals_of_diet (diet : string) : list (string * list string) :=
  dict_get base_meals diet (dict_get base_meals "Omnivore" []).

(** The suggestion with the note of the goal. *)
Definition annotate (goal suggestion : string) : string :=
  if String.eqb goal "Lose Weight"
  then suggestion ++ " (Focus on smaller portion size)"
  else if String.eqb goal "Gain Muscle"
  then suggestion ++ " (Add a source of healthy fats/protein)"
  else suggestion.

(** What the inner loop appends for one suggestion. *)
Definition suggestion_line (goal suggestion : string) : string :=
  String.concat "" ["* "; annotate goal suggestion; nl].

(** What the outer loop appends for one meal, piece by piece. *)
Definition meal_pieces (goal : string) (meal : string * list string) : list string :=
  String.concat "" [nl; "-- "; fst meal; " --"; nl]
  :: List.map (suggestion_line goal) (snd meal).

Definition generate_meal_suggestions (inputs : Inputs) : string :=
  let diet := inp_diet inputs in
  let goal := inp_goal inputs in
  let meal_plan :=
    String.concat "" ["Meal Suggestions for: **"; diet; "** Diet ("; goal; ")"; nl] in
  String.concat "" (meal_plan :: List.flat_map (meal_pieces goal) (meals_of_diet diet)).

End Meals.

(** ** Canvases *)

(** An item drawn on a canvas, with its coordinates and the options [text],
    [fill], [outline] and [width] as given ([None] when the call leaves the
    option out); fonts, anchors, dashes and angles are not kept. *)
Inductive CanvasItem :=
| create_line (x1 y1 x2 y2 : Q) (fill : option string) (width : option Z)
| create_polyline (points : list (Q * Q)) (fill : option string) (width : option Z)
| create_rectangle (x1 y1 x2 y2 : Q) (fill outline : option string) (width : option Z)
| create_oval (x1 y1 x2 y2 : Q) (fill outline : option string) (width : option Z)
| create_text (x y : Q) (txt : string) (fill : option string).

Section Schedule.

Open Scope Q_scope.

(** The nested function [hour_to_x] of [draw_schedule_chart], with
    [start_hour = 8], [end_hour = 22], [line_start = 20], [line_end = 530]
    and [time_range = 14]. *)
Definition hour_to_x (hour : Q) : Q :=
  let start_hour := 8 in
  let end_hour := 22 in
  let time_range := end_hour - start_hour in
  let line_start := 20 in
  let line_end := 550 - 20 in
  let hour := if ltb hour start_hour then start_hour else hour in
  let hour := if ltb end_hour hour then end_hour else hour in
  line_start + (hour - start_hour) * (line_end - line_start) / time_range.

(** The activity focus: colour and text. *)
Definition activity_focus (category goal : string) : string * string :=
  if String.eqb category "Underweight" || String.eqb goal "Gain Muscle"
  then (Style.COLOR_ACCENT_BLUE, "Strength/Mass Training")
  else if String.eqb category "Normal Weight" || String.eqb goal "Maintain Weight"
  then (Style.COLOR_ACCENT_GREEN, "Mixed Cardio & Strength")
  else (Style.COLOR_DANGER, "Cardio/Walking Focus").

(** [range(start, stop, 2)] as integers. *)
Fixpoint range_step2 (start : Z) (count : nat) : list Z :=
  match count with
  | O => []
  | S n => start :: range_step2 (start + 2)%Z n
  end.

(** The items on the canvas after [draw_schedule_chart], in the order of
    their creation. *)
Definition draw_schedule_chart (inputs : Inputs) : list CanvasItem :=
  let width := 550 in
  let height := 150 in
  let padding := 20 in
  let category := or_default (inp_category inputs) "N/A" in
  let goal := inp_goal inputs in
  let '(activity_color, activity_text) := activity_focus category goal in
  let start_hour := 8 in
  let end_hour := 22 in
  let time_range := end_hour - start_hour in
  let y_axis := height / 2 in
  let line_start := padding in
  let line_end := width - padding in
  let meal_color := "#FFC107" in
  let meal_outline := "#FFA000" in
  let meal label h1 h2 :=
    let x1 := hour_to_x h1 in
    let x2 := hour_to_x h2 in
    [ create_rectangle x1 (y_axis - 40) x2 (y_axis - 5)
                       (Some meal_color) (Some meal_outline) (Some 2%Z);
      create_text ((x1 + x2) / 2) (y_axis - 22) label None ] in
  let activity_start := 17 in
  let activity_end := 18 in
  let water_times := [9.5; 11; 14.5; 16; 21] in
  [ create_line line_start y_axis line_end y_axis (Some "#BBBBBB") (Some 4%Z) ]
  ++ List.flat_map
       (fun hour : Z =>
          let x := line_start
                   + (inject_Z hour - start_hour) * (line_end - line_start) / time_range in
          [ create_line x (y_axis - 8) x (y_axis + 8) (Some "#999") (Some 2%Z);
            create_text x (y_axis + 25) (str_int hour ++ ":00") (Some "#555") ])
       (range_step2 8 8)
  ++ meal "Breakfast" 8 9
  ++ meal "Lunch" 12.5 13.5
  ++ meal "Dinner" 19 20
  ++ (let x1 := hour_to_x activity_start in
      let x2 := hour_to_x activity_end in
      [ create_rectangle x1 (y_axis + 5) x2 (y_axis + 40)
                         (Some activity_color) (Some activity_color) (Some 1%Z);
        create_text ((x1 + x2) / 2) (y_axis + 22) "Activity" (Some "white") ])
  ++ List.map (fun time_h => create_text (hour_to_x time_h) (y_axis + 55) "💧" None)
              water_times
  ++ [ create_text line_start (height - 5)
                   (String.concat "" ["Focus: "; activity_text; " | Water Cues: 5 times daily"])
                   (Some activity_color) ].

End Schedule.

Section Chart.

Open Scope Q_scope.

(** [min(values)] and [max(values)] of a list with first element [x]: the
    first of the smallest (largest) elements. *)
Definition list_min (x : Q) (rest : list Q) : Q :=
  fold_left (fun m v => if ltb v m then v else m) rest x.

Definition list_max (x : Q) (rest : list Q) : Q :=
  fold_left (fun m v => if ltb m v then v else m) rest x.

(** [min(a, b)] and [max(a, b)]: the second argument when it is smaller
    (larger), the first otherwise. *)
Definition min2 (a b : Q) : Q := if ltb b a then b else a.
Definition max2 (a b : Q) : Q := if ltb a b then b else a.

(** The colour of a point of the chart. *)
Definition point_color (bmi : Q) : string :=
  if ltb bmi 18.5 then Style.COLOR_ACCENT_BLUE
  else if ltb bmi 25.0 then Style.COLOR_ACCENT_GREEN
  else if ltb bmi 30.0 then Style.COLOR_WARNING
  else Style.COLOR_DANGER.

(** [s.split(' ')[0]]. *)
Fixpoint before_space (s : string) : string :=
  match s with
  | EmptyString => EmptyString
  | String c t => if Ascii.eqb c " " then EmptyString else String c (before_space t)
  end.

(** The scale of the chart for the values [first :: rest]: [min_bmi] and
    [max_bmi]. *)
Definition min_bmi (first : Q) (rest : list Q) : Z :=
  (Qfloor (min2 15 (list_min first rest) / 5) * 5)%Z.

Definition max_bmi (first : Q) (rest : list Q) : Z :=
  (Qceiling (max2 35 (list_max first rest) / 5) * 5)%Z.

(** The nested function [map_y], with [height = 250] and [padding = 30]. *)
Definition map_y (min_bmi bmi_range : Z) (bmi : Q) : Q :=
  let height := 250 in
  let padding := 30 in
  if Z.eqb bmi_range 0 then height / 2
  else height - padding
       - ((bmi - inject_Z min_bmi) / inject_Z bmi_range) * (height - 2 * padding).

(** [x_step] for [n] values, with [width = 480]. *)
Definition x_step (n : nat) : Q :=
  (480 - 2 * 30) / inject_Z (Z.max 1 (Z.of_nat n - 1)).

(** The list [points] at the end of the loop. *)
Definition chart_points (first : Q) (rest : list Q) : list (Q * Q) :=
  let values := first :: rest in
  let lo := min_bmi first rest in
  let bmi_range := (max_bmi first rest - lo)%Z in
  List.map (fun '(i, bmi) => (30 + inject_Z (Z.of_nat i) * x_step (List.length values),
                              map_y lo bmi_range bmi))
           (List.combine (seq 0 (List.length values)) values).

(** The items on the canvas after [draw_chart]. *)
Definition draw_chart (data : list HistoryRecord) : list CanvasItem :=
  match data with
  | [] => [ create_text 250 100 "No BMI history yet. Calculate your BMI!" (Some "gray") ]
  | first_item :: rest_items =>
      let width := 480 in
      let height := 250 in
      let padding := 30 in
      let first := rec_bmi first_item in
      let rest := List.map rec_bmi rest_items in
      let bmi_values := first :: rest in
      let dates := List.map (fun item => before_space (rec_date item)) data in
      let lo := min_bmi first rest in
      let hi := max_bmi first rest in
      let bmi_range := (hi - lo)%Z in
      let n := List.length bmi_values in
      let y_18_5 := map_y lo bmi_range BMI_MIN_NORMAL in
      let y_24_9 := map_y lo bmi_range BMI_MAX_NORMAL in
      let points := chart_points first rest in
      [ create_rectangle padding padding (width - padding) (height - padding)
                         None (Some "#AAA") (Some 1%Z) ]
      ++ List.flat_map
           (fun i : nat =>
              let bmi_val := inject_Z lo + (inject_Z bmi_range / 4) * inject_Z (Z.of_nat i) in
              let y := map_y lo bmi_range bmi_val in
              [ create_text (padding - 5) y (format_f 0 bmi_val) (Some "#555");
                create_line padding y (width - padding) y (Some "#EEE") None ])
           (seq 0 5)
      ++ [ create_rectangle padding y_24_9 (width - padding) y_18_5
                            (Some "#E8F5E9") (Some "") None;
           create_line padding y_18_5 (width - padding) y_18_5 (Some "#888") None;
           create_line padding y_24_9 (width - padding) y_24_9 (Some "#888") None ]
      ++ List.flat_map
           (fun '(i, (bmi, date)) =>
              let x := 30 + inject_Z (Z.of_nat i) * x_step n in
              let y := map_y lo bmi_range bmi in
              create_oval (x - 4) (y - 4) (x + 4) (y + 4)
                          (Some (point_color bmi)) (Some "white") (Some 1%Z)
              :: (if (Nat.eqb (i mod 2) 0 || (n <=? 5)%nat)%bool
                  then [ create_text x (height - padding + 10) date (Some "#555") ]
                  else []))
           (List.combine (seq 0 n) (List.combine bmi_values dates))
      ++ (if (1 <? List.length points)%nat
          then [ create_polyline points (Some Style.COLOR_ACCENT_BLUE) (Some 3%Z) ]
          else [])
  end.

End Chart.

(** ** History window *)

Section HistoryWindow.

Fixpoint spaces (n : nat) : string :=
  match n with
  | O => EmptyString
  | S m => String " " (spaces m)
  end.

(** [f"{s:<width}"]: padded with spaces on the right, never cut. *)
Definition ljust (width : nat) (s : string) : string :=
  s ++ spaces (width - String.length s).

(** One row of the list for a record. *)
Definition history_line (record : HistoryRecord) : string :=
  String.concat ""
    [before_space (rec_date record); " | "; format_f 2 (rec_bmi record); " | ";
     ljust 14 (rec_category record); " | ";
     ljust 6 (before_space (rec_weight record))].

(** What [show_history] puts into the list box: the newest record first. *)
Definition history_listbox (s : App) : list string :=
  match history s with
  | [] => ["No history recorded yet. Calculate your BMI to start tracking."]
  | _ =>
      "Date      | BMI  | Category      | Weight"
      :: "----------|------|---------------|--------"
      :: List.map history_line (List.rev (history s))
  end.

(** The window that [show_history] opens: its title, the chart and the
    list. *)
Record HistoryWindow := mkWindow {
  window_title : string;
  window_chart : list CanvasItem;
  window_listbox : list string
}.

Definition show_history (s : App) : HistoryWindow :=
  mkWindow
    (String.concat ""
       [match name_entry (form s) with
        | EmptyString => "User"
        | name => name
        end;
        "'s BMI History & Trend"])
    (draw_chart (history s))
    (history_listbox s).

End HistoryWindow.

(** ** Views: navigation, planner and chatbot *)

(** Two more constants of [Style]. *)
Definition BG_NAV := "#E0F7FA".
Definition COLOR_NAV_TEXT := "#333333".

(** What the key Return is bound to. *)
Inductive ReturnKey :=
| ReturnCalculates
| ReturnSends.

(** One element of [chat_history], the dict with the keys ['role'] and
    ['text']. *)
Record ChatTurn := mkTurn { role : string; turn_text : string }.

(** A thread started by [send_message]: inside [simulate_api_call] with its
    query, or past it, its callback with the answer handed to
    [master.after]. *)
Inductive Worker :=
| Sleeping (query : string)
| Scheduled (bot_response : string).

(** The application with its views.  [chatbot_display] holds what was
    inserted into the text widget, each piece with its tags;
    [chatbot_input_enabled] is the state of the entry; [files] holds what
    the exports wrote, the last one last. *)
Record Session := mkSession {
  core : App;
  active_frame : string;
  nav_buttons : list (string * (string * string));
  return_key : option ReturnKey;
  plan_text_widget : string;
  meal_suggestions_text : string;
  schedule_canvas : list CanvasItem;
  export_btn : bool;
  chatbot_input : string;
  chatbot_input_enabled : bool;
  chatbot_is_loading : bool;
  chatbot_loading_label : Label;
  chat_history : list ChatTurn;
  chatbot_display : list (string * list string);
  initial_message_sent : bool;
  workers : list Worker;
  files : list (string * string)
}.

Definition with_core v c := mkSession v (active_frame c) (nav_buttons c) (return_key c) (plan_text_widget c) (meal_suggestions_text c) (schedule_canvas c) (export_btn c) (chatbot_input c) (chatbot_input_enabled c) (chatbot_is_loading c) (chatbot_loading_label c) (chat_history c) (chatbot_display c) (initial_message_sent c) (workers c) (files c).
Definition with_active_frame v c := mkSession (core c) v (nav_buttons c) (return_key c) (plan_text_widget c) (meal_suggestions_text c) (schedule_canvas c) (export_btn c) (chatbot_input c) (chatbot_input_enabled c) (chatbot_is_loading c) (chatbot_loading_label c) (chat_history c) (chatbot_display c) (initial_message_sent c) (workers c) (files c).
Definition with_nav_buttons v c := mkSession (core c) (active_frame c) v (return_key c) (plan_text_widget c) (meal_suggestions_text c) (schedule_canvas c) (export_btn c) (chatbot_input c) (chatbot_input_enabled c) (chatbot_is_loading c) (chatbot_loading_label c) (chat_history c) (chatbot_display c) (initial_message_sent c) (workers c) (files c).
Definition with_return_key v c := mkSession (core c) (active_frame c) (nav_buttons c) v (plan_text_widget c) (meal_suggestions_text c) (schedule_canvas c) (export_btn c) (chatbot_input c) (chatbot_input_enabled c) (chatbot_is_loading c) (chatbot_loading_label c) (chat_history c) (chatbot_display c) (initial_message_sent c) (workers c) (files c).
Definition with_export_btn v c := mkSession (core c) (active_frame c) (nav_buttons c) (return_key c) (plan_text_widget c) (meal_suggestions_text c) (schedule_canvas c) v (chatbot_input c) (chatbot_input_enabled c) (chatbot_is_loading c) (chatbot_loading_label c) (chat_history c) (chatbot_display c) (initial_message_sent c) (workers c) (files c).
Definition with_chatbot_input v c := mkSession (core c) (active_frame c) (nav_buttons c) (return_key c) (plan_text_widget c) (meal_suggestions_text c) (schedule_canvas c) (export_btn c) v (chatbot_input_enabled c) (chatbot_is_loading c) (chatbot_loading_label c) (chat_history c) (chatbot_display c) (initial_message_sent c) (workers c) (files c).
Definition with_chat_history v c := mkSession (core c) (active_frame c) (nav_buttons c) (return_key c) (plan_text_widget c) (meal_suggestions_text c) (schedule_canvas c) (export_btn c) (chatbot_input c) (chatbot_input_enabled c) (chatbot_is_loading c) (chatbot_loading_label c) v (chatbot_display c) (initial_message_sent c) (workers c) (files c).
Definition with_chatbot_display v c := mkSession (core c) (active_frame c) (nav_buttons c) (return_key c) (plan_text_widget c) (meal_suggestions_text c) (schedule_canvas c) (export_btn c) (chatbot_input c) (chatbot_input_enabled c) (chatbot_is_loading c) (chatbot_loading_label c) (chat_history c) v (initial_message_sent c) (workers c) (files c).
Definition with_initial_message_sent v c := mkSession (core c) (active_frame c) (nav_buttons c) (return_key c) (plan_text_widget c) (meal_suggestions_text c) (schedule_canvas c) (export_btn c) (chatbot_input c) (chatbot_input_enabled c) (chatbot_is_loading c) (chatbot_loading_label c) (chat_history c) (chatbot_display c) v (workers c) (files c).
Definition with_workers v c := mkSession (core c) (active_frame c) (nav_buttons c) (return_key c) (plan_text_widget c) (meal_suggestions_text c) (schedule_canvas c) (export_btn c) (chatbot_input c) (chatbot_input_enabled c) (chatbot_is_loading c) (chatbot_loading_label c) (chat_history c) (chatbot_display c) (initial_message_sent c) v (files c).
Definition display_insert t tags c := mkSession (core c) (active_frame c) (nav_buttons c) (return_key c) (plan_text_widget c) (meal_suggestions_text c) (schedule_canvas c) (export_btn c) (chatbot_input c) (chatbot_input_enabled c) (chatbot_is_loading c) (chatbot_loading_label c) (chat_history c) (chatbot_display c ++ [(t, tags)]) (initial_message_sent c) (workers c) (files c).
Definition write_file path content c := mkSession (core c) (active_frame c) (nav_buttons c) (return_key c) (plan_text_widget c) (meal_suggestions_text c) (schedule_canvas c) (export_btn c) (chatbot_input c) (chatbot_input_enabled c) (chatbot_is_loading c) (chatbot_loading_label c) (chat_history c) (chatbot_display c) (initial_message_sent c) (workers c) (files c ++ [(path, content)]).

Definition with_dialog (d : Dialog) (c : Session) : Session :=
  with_core (add_dialog d (core c)) c.

(** *** Library functions on strings *)

(** [s.replace(sub, '')] for a [sub] that is not empty: the occurrences are
    taken from the left and do not overlap. *)
Fixpoint remove_all_from (skip : nat) (sub s : string) : string :=
  match s with
  | EmptyString => EmptyString
  | String c t =>
      match skip with
      | S k => remove_all_from k sub t
      | O =>
          if String.prefix sub s
          then remove_all_from (String.length sub - 1) sub t
          else String c (remove_all_from 0 sub t)
      end
  end.

Definition remove_all (sub s : string) : string := remove_all_from 0 sub s.

Definition hex_digit (n : nat) : ascii :=
  if (n <? 10)%nat then ascii_of_nat (48 + n) else ascii_of_nat (55 + n).

(** [urllib.parse.quote_plus] on the bytes of the string: letters, digits
    and [_.-~] stay, a space becomes [+], every other byte [%XX]. *)
Fixpoint quote_plus (s : string) : string :=
  match s with
  | EmptyString => EmptyString
  | String c t =>
      let n := nat_of_ascii c in
      if (((48 <=? n) && (n <=? 57)) || ((65 <=? n) && (n <=? 90))
          || ((97 <=? n) && (n <=? 122))
          || (n =? 95) || (n =? 46) || (n =? 45) || (n =? 126))%nat
      then String c (quote_plus t)
      else if (n =? 32)%nat then String "+" (quote_plus t)
      else String "%" (String (hex_digit (n / 16)) (String (hex_digit (n mod 16)) (quote_plus t)))
  end.

Section Views.

Context {builtins : PyBuiltins}.

(** *** Chatbot *)

Definition display_chatbot_message (message : string) (is_user : bool)
           (c : Session) : Session :=
  let tag := if is_user then "user" else "bot" in
  let prefix := if is_user then "User: " else "Bot: " in
  display_insert (String.concat "" [prefix; message; nl]) [tag] c.

Definition set_loading_state (is_loading : bool) (c : Session) : Session :=
  let label := chatbot_loading_label c in
  mkSession (core c) (active_frame c) (nav_buttons c) (return_key c)
            (plan_text_widget c) (meal_suggestions_text c) (schedule_canvas c)
            (export_btn c) (chatbot_input c)
            (negb is_loading)
            is_loading
            (if is_loading
             then config_text_fg "... Thinking ..." Style.COLOR_DANGER label
             else config_text "" label)
            (chat_history c) (chatbot_display c) (initial_message_sent c)
            (workers c) (files c).

(** The list [suggestions]: what the link shows and what it asks. *)
Definition suggestions : list (string * string) :=
  [ ("Water Status", "what is my water status");
    ("View My Plan", "tell me about my plan");
    ("My Health Report", "my health report");
    ("Medical Disclaimer", "what is the medical disclaimer");
    ("Cardio Health Risks", "what are the risks of high blood pressure?") ].

Definition insert_initial_suggestions (c : Session) : Session :=
  let welcome_text :=
    String.concat ""
      ["Hello! I'm your Smart Health Assistant. I can analyze your metrics. **Remember, I am not a doctor.**";
       nl; nl] in
  let c1 := display_insert ("Bot: " ++ remove_all "**" welcome_text) ["bot"] c in
  let c2 := display_insert ("Bot: Quick Links (Click to ask):" ++ nl) ["bot"] c1 in
  let c3 :=
    fold_left
      (fun acc '(display_text, query) =>
         let dynamic_tag := "query_" ++ quote_plus query in
         display_insert
           (" " ++ nl) ["bot"]
           (display_insert (String.concat "" ["  [ "; display_text; " ]  "])
                           ["suggestion_link"; dynamic_tag] acc))
      suggestions c2 in
  display_insert nl ["bot"] c3.

(** [show_frame]; the three frames are ['Calculator'], ['Planner'] and
    ['Chatbot'], for another name the lookup of the frame raises [KeyError]
    after the buttons were restyled.  The entry of the chatbot exists once
    [__init__] has run, so [self.chatbot_input] counts as true. *)
Definition show_frame (page_name : string) (c : Session) : Session :=
  let restyle '(name, style) :=
    if String.eqb name page_name
    then (name, (Style.COLOR_ACCENT_BLUE, "white"))
    else (name, (BG_NAV, COLOR_NAV_TEXT)) in
  let c1 := with_nav_buttons (List.map restyle (nav_buttons c)) c in
  let c2 :=
    if existsb (fun '(name, _) => String.eqb name page_name) (nav_buttons c)
    then with_active_frame page_name c1
    else c1 in
  if negb (existsb (String.eqb page_name) ["Planner"; "Chatbot"; "Calculator"])
  then c2
  else if String.eqb page_name "Calculator"
  then with_return_key (Some ReturnCalculates) c2
  else if String.eqb page_name "Chatbot"
  then
    let c3 := with_return_key (Some ReturnSends) c2 in
    if negb (initial_message_sent c3)
    then with_initial_message_sent true (insert_initial_suggestions c3)
    else c3
  else with_return_key None c2.

Definition clear_chatbot_history (c : Session) : Session :=
  let c1 := with_chat_history [] c in
  let c2 := with_initial_message_sent false c1 in
  let c3 := with_chatbot_display [] c2 in
  show_frame "Chatbot" c3.

(** [delete(0, END)] on the entry, which does nothing while the entry is
    disabled. *)
Definition clear_chatbot_input (c : Session) : Session :=
  if chatbot_input_enabled c then with_chatbot_input "" c else c.

Definition send_message (c : Session) : Session :=
  let user_query := strip (chatbot_input c) in
  if String.eqb user_query "" || chatbot_is_loading c then c
  else
    let c1 := display_chatbot_message user_query true c in
    let c2 := with_chat_history (chat_history c1 ++ [mkTurn "user" user_query]) c1 in
    let c3 := clear_chatbot_input c2 in
    let c4 := set_loading_state true c3 in
    with_workers (workers c4 ++ [Sleeping user_query]) c4.

(** [simulate_api_call] after its sleep; [None] when the rule engine
    raises. *)
Definition simulate_api_call (query : string) (c : Session) : option string :=
  get_rule_based_response query (core c).

(** The first half of [handle_api_response], run by the thread: the worker
    of index [k] gets its answer and hands its callback to the main loop.
    An exception ends the thread. *)
Definition worker_returns (k : nat) (c : Session) : Session :=
  match nth_error (workers c) k with
  | Some (Sleeping query) =>
      match simulate_api_call query c with
      | Some bot_response =>
          with_workers (firstn k (workers c) ++ Scheduled bot_response
                               :: skipn (S k) (workers c)) c
      | None => with_workers (firstn k (workers c) ++ skipn (S k) (workers c)) c
      end
  | _ => c
  end.

(** The second half, run by the main loop: the callback of the worker of
    index [k]. *)
Definition run_callback (k : nat) (c : Session) : Session :=
  match nth_error (workers c) k with
  | Some (Scheduled bot_response) =>
      let c1 := with_workers (firstn k (workers c) ++ skipn (S k) (workers c)) c in
      let c2 := set_loading_state false c1 in
      let c3 := display_chatbot_message bot_response false c2 in
      with_chat_history (chat_history c3 ++ [mkTurn "bot" bot_response]) c3
  | _ => c
  end.

(** The text that [save_chatbot_history] writes. *)
Definition formatted_conversation (turns : list ChatTurn) : string :=
  String.concat ""
    (List.map
       (fun message =>
          let r := if String.eqb (role message) "user" then "[USER]" else "[BOT]" in
          String.concat "" [r; ": "; strip (turn_text message); nl; nl])
       turns).

(** [file_path] is the answer of the file dialog, empty when the user
    cancels; [io_error] is the text of the exception of the output, if any.
    A failed output is taken to leave no file. *)
Definition save_chatbot_history (now file_path : string) (io_error : option string)
           (c : Session) : Session :=
  match chat_history c with
  | [] => with_dialog (showinfo "Save Chat" "The chat history is empty.") c
  | _ =>
      if String.eqb file_path "" then c
      else
        match io_error with
        | Some e => with_dialog (showerror "Export Error" ("Failed to save file: " ++ e)) c
        | None =>
            let content :=
              String.concat ""
                ["Health Chatbot Conversation History ("; now; ")"; nl;
                 "----------------------------------------------------------------"; nl; nl;
                 strip (formatted_conversation (chat_history c))] in
            with_dialog
              (showinfo "Export Successful"
                        (String.concat "" ["Chat history saved to:"; nl; file_path]))
              (write_file file_path content c)
        end
  end.

(** *** Planner *)

Definition export_plan (text_content file_path : string) (io_error : option string)
           (c : Session) : Session :=
  if String.eqb file_path "" then c
  else
    match io_error with
    | Some e => with_dialog (showerror "Export Error" ("Failed to save file: " ++ e)) c
    | None =>
        let cleaned_text := strip text_content in
        with_dialog
          (showinfo "Export Successful"
                    (String.concat ""
                       ["Your health plan has been saved to:"; nl; file_path]))
          (write_file file_path cleaned_text c)
    end.

Definition view_plan (c : Session) : Session :=
  match current_inputs (core c) with
  | None =>
      with_dialog
        (showinfo "Information" "Please calculate your BMI first in the Calculator tab.")
        c
  | Some inputs =>
      let c1 :=
        mkSession (core c) (active_frame c) (nav_buttons c) (return_key c)
                  (generate_diet_plan inputs)
                  (generate_meal_suggestions inputs)
                  (draw_schedule_chart inputs)
                  true
                  (chatbot_input c) (chatbot_input_enabled c) (chatbot_is_loading c)
                  (chatbot_loading_label c) (chat_history c) (chatbot_display c)
                  (initial_message_sent c) (workers c) (files c) in
      show_frame "Planner" c1
  end.

(** *** The session as a whole *)

(** The state at the end of [__init__], which ends with
    [show_frame('Calculator')]. *)
Definition init_session (file : FileState) : Session :=
  show_frame "Calculator"
    (mkSession (init_app file) "Calculator"
               [ ("Calculator", (BG_NAV, COLOR_NAV_TEXT));
                 ("Planner", (BG_NAV, COLOR_NAV_TEXT));
                 ("Chatbot", (BG_NAV, COLOR_NAV_TEXT)) ]
               None "" "" [] false "" true false
               (mkLabel "" Style.COLOR_DANGER Style.BG_PRIMARY)
               [] [] false [] []).

(** What can happen to the session: an event of the calculator, typing into
    the chat entry (which a disabled entry refuses), a button, or a step of
    a worker thread. *)
Inductive Action :=
| OnApp (e : Event)
| TypeChat (t : string)
| PressSend
| WorkerReturns (k : nat)
| RunCallback (k : nat)
| PressClearChat
| PressSaveChat (now file_path : string) (io_error : option string)
| PressNav (page_name : string)
| PressViewPlan
| PressExportPlan (file_path : string) (io_error : option string).

Definition act (a : Action) (c : Session) : Session :=
  match a with
  | OnApp e => with_core (handle e (core c)) c
  | TypeChat t => if chatbot_input_enabled c then with_chatbot_input t c else c
  | PressSend => send_message c
  | WorkerReturns k => worker_returns k c
  | RunCallback k => run_callback k c
  | PressClearChat => clear_chatbot_history c
  | PressSaveChat now file_path io_error => save_chatbot_history now file_path io_error c
  | PressNav page_name => show_frame page_name c
  | PressViewPlan => view_plan c
  | PressExportPlan file_path io_error =>
      (* the button passes the text of the widget, which ends with a newline *)
      if export_btn c
      then export_plan (plan_text_widget c ++ nl) file_path io_error c
      else c
  end.

Fixpoint play (actions : list Action) (c : Session) : Session :=
  match actions with
  | [] => c
  | a :: rest => play rest (act a c)
  end.

End Views.

(** ** Vocabulary of the further properties *)

(** The history file holds 20 records at most. *)
Definition file_within_cap (file : FileState) : Prop :=
  match file with
  | Stored records => (List.length records <= 20)%nat
  | _ => True
  end.

(** A stored profile with its results: the BMI is the one of its weight,
    height and unit, the category the label of that BMI, and the profile
    passed validation. *)
Definition profile_complete (inputs : Inputs) : Prop :=
  exists bmi,
    perform_calculation (inp_weight inputs) (inp_height inputs) (inp_unit inputs) = Some bmi
    /\ inp_bmi inputs = Some bmi
    /\ inp_category inputs = Some (fst (fst (band bmi)))
    /\ (0 < bmi)%Q
    /\ (0 < inp_weight inputs)%Q
    /\ (0 < inp_height inputs)%Q
    /\ (16 <= inp_age inputs <= 120)%Z
    /\ inp_name inputs <> "".

Definition stored_profile_complete (s : App) : Prop :=
  match current_inputs s with
  | None => True
  | Some inputs => profile_complete inputs
  end.

(** The keywords of rules 2 and 3, and of the rules that answer with the
    medical disclaimer. *)
Definition plan_keywords : list string := ["diet plan"; "my goals"; "my plan"].

Definition report_keywords : list string := ["my health report"; "my metrics"].

Definition sensitive_keywords : list string :=
  ["what is the medical disclaimer"; "medication"; "drug"; "supplements";
   "diabetes"; "blood sugar"; "heart disease"; "cardio"; "blood pressure";
   "allergies"; "intolerance"].



(** Parts of the session that the properties follow: the state of the
    chat request, what the planner shows, and the navigation. *)
Definition chat_control (c : Session) : list Worker * bool * bool :=
  (workers c, chatbot_is_loading c, chatbot_input_enabled c).

Definition planner_view (c : Session) : string * string * list CanvasItem * bool :=
  (plan_text_widget c, meal_suggestions_text c, schedule_canvas c, export_btn c).

Definition nav_view (c : Session) : string * option ReturnKey * list string :=
  (active_frame c, return_key c, List.map fst (nav_buttons c)).

(** At most one request is in flight, the loading flag is set exactly while
    there is one, and the entry is disabled exactly while the flag is set. *)
Definition single_flight (c : Session) : Prop :=
  (List.length (workers c) <= 1)%nat
  /\ (chatbot_is_loading c = true <-> workers c <> [])
  /\ chatbot_input_enabled c = negb (chatbot_is_loading c).


(** The key Return does what the visible frame is for. *)
Definition return_follows_frame (c : Session) : Prop :=
  List.map fst (nav_buttons c) = ["Calculator"; "Planner"; "Chatbot"]
  /\ ((active_frame c = "Calculator" /\ return_key c = Some ReturnCalculates)
      \/ (active_frame c = "Chatbot" /\ return_key c = Some ReturnSends)
      \/ (active_frame c = "Planner" /\ return_key c = None)).

(** Everything of the session but the chat display. *)
Definition beside_display (c : Session) :=
  (core c, chat_control c, planner_view c, nav_view c, chat_history c,
   chatbot_input c, initial_message_sent c, files c).


(** ** Further samples *)

Module FurtherSamples.

#[local] Existing Instance Decimal10.builtins.

Import Samples.

Open Scope Q_scope.

(** The imperial form of [Samples], filled in and not yet submitted. *)
Definition imperial_filled : App :=
  run [SelectUnit "imperial"; EditForm imperial_form] (init_app Missing).

Definition imperial_validated : App := fst (validate_and_get_inputs imperial_filled).

Definition imperial_accepted : Inputs :=
  mkInputs "Ann" 150 (358 # 5) 30 "Male" "Moderately Active" "Maintain Weight" "Omnivore"
           "imperial" None None.

(** [metric_profile] in pounds and inches. *)
Definition metric_in_imperial : Inputs :=
  mkInputs "Bob" (70 * 2.20462) (1.75 / 0.0254) 30 "Male" "Moderately Active"
           "Lose Weight" "Omnivore" "imperial" None None.

Definition metric_form : Form := mkForm "Bob" "70" "1.75" "" "" "30".

Definition two_records : list HistoryRecord :=
  [ sample_record 1;
    mkRecord "2026-01-02 10:00" 27.5 "Overweight" "80.0 kg" "1.75 m" ].




End FurtherSamples.

(** * Properties *)

(** ** Auxiliary facts *)

Section NumFacts.

Open Scope Q_scope.

Lemma leb_iff (x y : Q) : leb x y = true <-> x <= y.
Proof. unfold leb. apply Qle_bool_iff. Qed.

Lemma ltb_iff (x y : Q) : ltb x y = true <-> x < y.
Proof.
  unfold ltb. rewrite negb_true_iff.
  split; intro Hxy.
  - apply Qnot_le_lt. intro Hle. apply Qle_bool_iff in Hle. congruence.
  - destruct (Qle_bool y x) eqn:E; [|reflexivity].
    apply Qle_bool_iff in E. exfalso. apply (Qlt_not_le _ _ Hxy E).
Qed.

Lemma ltb_false_iff (x y : Q) : ltb x y = false <-> y <= x.
Proof.
  unfold ltb. rewrite negb_false_iff. apply Qle_bool_iff.
Qed.

Lemma leb_false_iff (x y : Q) : leb x y = false <-> y < x.
Proof.
  rewrite <- ltb_iff. unfold ltb, leb.
  destruct (Qle_bool x y); simpl; split; congruence.
Qed.

(** Rounding to the nearest integer moves a number by a half at most. *)
Lemma round_error (x : Q) :
  - (1 # 2) <= inject_Z (round x) - x /\ inject_Z (round x) - x <= 1 # 2.
Proof.
  pose proof (Qfloor_le x) as Hlo.
  pose proof (Qlt_floor x) as Hhi.
  rewrite inject_Z_plus in Hhi.
  change (inject_Z 1) with 1 in Hhi.
  unfold round.
  destruct (Qcompare_spec (x - inject_Z (Qfloor x)) (1 # 2)) as [He | Hl | Hg].
  - destruct (Z.even (Qfloor x)).
    + split; lra.
    + rewrite inject_Z_plus. change (inject_Z 1) with 1. split; lra.
  - split; lra.
  - rewrite inject_Z_plus. change (inject_Z 1) with 1. split; lra.
Qed.

Lemma truediv_nonzero (x y : Q) : ~ y == 0 -> truediv x y = Some (x / y).
Proof.
  intro Hy. unfold truediv.
  destruct (Qeq_bool y 0) eqn:E; [|reflexivity].
  apply Qeq_bool_eq in E. contradiction.
Qed.

Lemma square_nonzero (h : Q) : 0 < h -> ~ h ^ 2 == 0.
Proof.
  intros Hh He. simpl in He.
  assert (0 < h * h) by (apply Qmult_lt_0_compat; assumption).
  lra.
Qed.

End NumFacts.

Section StrFacts.

Lemma prefix_append (a b : string) : String.prefix a (a ++ b) = true.
Proof.
  induction a as [|c a IH]; simpl.
  - destruct b; reflexivity.
  - destruct (ascii_dec c c) as [_ | Hne]; [exact IH | congruence].
Qed.

Lemma prefix_head_differs (c d : ascii) (a b : string) :
  c <> d -> String.prefix (String c a) (String d b) = false.
Proof.
  intro Hcd. simpl. destruct (ascii_dec c d); [contradiction | reflexivity].
Qed.

End StrFacts.

(** ** Validation *)

Section ValidationFacts.

Context {builtins : PyBuiltins}.

Open Scope Q_scope.

(** What a successful validation tells about the form. *)
Lemma validate_success (s s' : App) (inputs : Inputs) :
  validate_and_get_inputs s = (s', Some inputs) ->
  strip (name_entry (form s)) <> ""
  /\ py_float (weight_entry (form s)) = Some (inp_weight inputs)
  /\ py_int (age_entry (form s)) = Some (inp_age inputs)
  /\ read_height (unit_system s) (form s) = Some (inp_height inputs)
  /\ 0 < inp_weight inputs /\ 0 < inp_height inputs
  /\ (16 <= inp_age inputs <= 120)%Z
  /\ inp_unit inputs = unit_system s
  /\ s' = feedback msg_ok Style.COLOR_ACCENT_GREEN s.
Proof.
  unfold validate_and_get_inputs.
  destruct (String.eqb (strip (name_entry (form s))) "") eqn:En; [discriminate|].
  destruct (py_float (weight_entry (form s))) as [w|]; [|discriminate].
  destruct (py_int (age_entry (form s))) as [a|]; [|discriminate].
  destruct (read_height (unit_system s) (form s)) as [h|]; [|discriminate].
  destruct (leb w 0 || leb h 0) eqn:Ep; [discriminate|].
  destruct (negb ((16 <=? a)%Z && (a <=? 120)%Z)) eqn:Ea; [discriminate|].
  intro Heq. injection Heq as Hs Hi. subst inputs s'. simpl.
  apply orb_false_iff in Ep. destruct Ep as [Hw Hh].
  apply leb_false_iff in Hw. apply leb_false_iff in Hh.
  apply negb_false_iff, andb_true_iff in Ea. destruct Ea as [Ha1 Ha2].
  apply Z.leb_le in Ha1. apply Z.leb_le in Ha2.
  apply String.eqb_neq in En.
  repeat split; auto.
Qed.


End ValidationFacts.

(** ** BMI formula *)

Section Formula.

Context {builtins : PyBuiltins}.

Open Scope Q_scope.


End Formula.

(** ** Categories *)

Section Categories.

Open Scope Q_scope.

Lemma band_label (bmi : Q) :
  (bmi < 18.5 -> fst (fst (band bmi)) = "Underweight")
  /\ (18.5 <= bmi -> bmi < 25.0 -> fst (fst (band bmi)) = "Normal Weight")
  /\ (25.0 <= bmi -> bmi < 30.0 -> fst (fst (band bmi)) = "Overweight")
  /\ (30.0 <= bmi -> fst (fst (band bmi)) = "Obesity").
Proof.
  unfold band.
  destruct (ltb bmi 18.5) eqn:E1;
    [apply ltb_iff in E1 | apply ltb_false_iff in E1].
  { simpl. repeat split; intros; try reflexivity; exfalso; lra. }
  destruct (leb 18.5 bmi) eqn:E2;
    [apply leb_iff in E2 | apply leb_false_iff in E2; exfalso; lra].
  destruct (ltb bmi 25.0) eqn:E3;
    [apply ltb_iff in E3 | apply ltb_false_iff in E3].
  { simpl. repeat split; intros; try reflexivity; exfalso; lra. }
  destruct (leb 25.0 bmi) eqn:E4;
    [apply leb_iff in E4 | apply leb_false_iff in E4; exfalso; lra].
  destruct (ltb bmi 30.0) eqn:E5;
    [apply ltb_iff in E5 | apply ltb_false_iff in E5].
  { simpl. repeat split; intros; try reflexivity; exfalso; lra. }
  simpl. repeat split; intros; try reflexivity; exfalso; lra.
Qed.

Lemma categorize_label (bmi : Q) (gender unit : string) (age : Z) :
  cat_category (categorize_bmi bmi gender unit age) = fst (fst (band bmi)).
Proof.
  unfold categorize_bmi.
  destruct (band bmi) as [[category color0] bg0].
  destruct (severe bmi); destruct (narrative category gender age); reflexivity.
Qed.

(** C2.  The category label follows the thresholds, each band closed below
    and open above: under 18.5 Underweight, from 18.5 to under 25 Normal
    Weight, from 25 to under 30 Overweight, from 30 on Obesity.  The
    boundary values 18.5, 24.9999, 25.0, 29.9999 and 30.0 fall in Normal
    Weight, Normal Weight, Overweight, Overweight and Obesity. *)
Theorem categorize_bmi_thresholds (bmi : Q) (gender unit : string) (age : Z) :
  let label x := cat_category (categorize_bmi x gender unit age) in
  (bmi < 18.5 -> label bmi = "Underweight")
  /\ (18.5 <= bmi -> bmi < 25.0 -> label bmi = "Normal Weight")
  /\ (25.0 <= bmi -> bmi < 30.0 -> label bmi = "Overweight")
  /\ (30.0 <= bmi -> label bmi = "Obesity")
  /\ label 18.5 = "Normal Weight"
  /\ label 24.9999 = "Normal Weight"
  /\ label 25.0 = "Overweight"
  /\ label 29.9999 = "Overweight"
  /\ label 30.0 = "Obesity".
Proof.
  intro label. subst label. cbv beta.
  rewrite !categorize_label.
  destruct (band_label bmi) as (H1 & H2 & H3 & H4).
  repeat split; auto.
Qed.

End Categories.

Section Severity.

Open Scope Q_scope.

Lemma severe_iff (bmi : Q) : severe bmi = true <-> bmi < 16.0 \/ 35.0 < bmi.
Proof.
  unfold severe, BMI_EXTREME_LOW, BMI_EXTREME_HIGH.
  rewrite orb_true_iff, !ltb_iff. reflexivity.
Qed.

(** No narrative starts as the alert does. *)
Lemma narrative_not_alert (bmi x : Q) (gender : string) (age : Z) :
  String.prefix (alert_msg bmi)
                (fst (narrative (fst (fst (band x))) gender age)) = false.
Proof.
  unfold alert_msg. cbn [String.concat]. cbn [append].
  unfold band.
  destruct (ltb x 18.5); [apply prefix_head_differs; discriminate|].
  destruct (leb 18.5 x && ltb x 25.0); [apply prefix_head_differs; discriminate|].
  destruct (leb 25.0 x && ltb x 30.0); apply prefix_head_differs; discriminate.
Qed.

(** C3.  The warning starts with the severe-risk alert exactly when the BMI
    is under 16 or over 35, whatever the category.  When the alert fires,
    the colour and the background are the danger values; the category label
    is the one the thresholds give in both cases. *)
Theorem severe_alert_iff (bmi : Q) (gender unit : string) (age : Z) :
  let r := categorize_bmi bmi gender unit age in
  let body := fst (narrative (cat_category r) gender age) in
  (String.prefix (alert_msg bmi) (cat_warning r) = true <-> bmi < 16.0 \/ 35.0 < bmi)
  /\ cat_category r = fst (fst (band bmi))
  /\ (bmi < 16.0 \/ 35.0 < bmi ->
      cat_warning r = alert_msg bmi ++ body
      /\ cat_color r = Style.COLOR_DANGER
      /\ cat_bg_color r = "#FFCDD2")
  /\ (~ (bmi < 16.0 \/ 35.0 < bmi) ->
      cat_warning r = body
      /\ cat_color r = snd (fst (band bmi))
      /\ cat_bg_color r = snd (band bmi)).
Proof.
  intros r body. subst body r.
  rewrite categorize_label.
  pose proof (narrative_not_alert bmi bmi gender age) as Hbody.
  pose proof (severe_iff bmi) as Hsev.
  unfold categorize_bmi.
  destruct (band bmi) as [[category color0] bg0]. cbn [fst snd] in *.
  destruct (narrative category gender age) as [warning_body benefit].
  cbn [fst] in *.
  destruct (severe bmi); cbn [cat_warning cat_category cat_color cat_bg_color].
  - assert (Hyes : bmi < 16.0 \/ 35.0 < bmi) by (apply Hsev; reflexivity).
    split; [|split; [|split]].
    + split; intros _; [exact Hyes | apply prefix_append].
    + reflexivity.
    + intros _. repeat split.
    + intro Hno. contradiction.
  - assert (Hno : ~ (bmi < 16.0 \/ 35.0 < bmi)).
    { intro Hyes. apply Hsev in Hyes. discriminate. }
    split; [|split; [|split]].
    + split; intro Hp; [|contradiction].
      simpl append in Hp. congruence.
    + reflexivity.
    + intro Hyes. contradiction.
    + intros _. repeat split.
Qed.

End Severity.

(** ** Energy planner *)

Section Planner.

Open Scope Q_scope.




Lemma macros_of_goal (inputs : Inputs) :
  (inp_goal inputs = "Lose Weight" -> macros inputs = mkMacros 0.35 0.40 0.25)
  /\ (inp_goal inputs = "Gain Muscle" -> macros inputs = mkMacros 0.30 0.50 0.20)
  /\ (inp_goal inputs = "Maintain Weight" -> macros inputs = mkMacros 0.25 0.45 0.30).
Proof.
  unfold macros, goal_branch.
  repeat split; intros ->; reflexivity.
Qed.

Lemma macros_cases (inputs : Inputs) :
  macros inputs = mkMacros 0.35 0.40 0.25
  \/ macros inputs = mkMacros 0.30 0.50 0.20
  \/ macros inputs = mkMacros 0.25 0.45 0.30.
Proof.
  unfold macros, goal_branch.
  destruct (String.eqb (inp_goal inputs) "Lose Weight"); [left; reflexivity|].
  destruct (String.eqb (inp_goal inputs) "Gain Muscle"); [right; left|right; right];
    reflexivity.
Qed.

(** C5.  For a valid profile, whatever its goal, the fractions of the macro
    split sum to 1, each gram count is within a half of its calorie share
    divided by 4 (protein, carbohydrate) or 9 (fat), and so the calories of
    the grams, [protein*4 + carb*4 + fat*9], differ from the calorie target
    by 8.5 at most. *)
Theorem macro_calories_within_rounding (inputs : Inputs) :
  valid_profile inputs ->
  let m := macros inputs in
  let target := cal_target inputs in
  macro_P m + macro_C m + macro_F m == 1
  /\ Qabs (inject_Z (prot_g inputs) - target * macro_P m / 4) <= 1 # 2
  /\ Qabs (inject_Z (carb_g inputs) - target * macro_C m / 4) <= 1 # 2
  /\ Qabs (inject_Z (fat_g inputs) - target * macro_F m / 9) <= 1 # 2
  /\ Qabs (inject_Z (prot_g inputs * 4 + carb_g inputs * 4 + fat_g inputs * 9) - target)
     <= 17 # 2.
Proof.
  intros _ m target. subst m target.
  unfold prot_g, carb_g, fat_g.
  set (c := cal_target inputs).
  pose proof (round_error (c * macro_P (macros inputs) / 4)) as [Hp1 Hp2].
  pose proof (round_error (c * macro_C (macros inputs) / 4)) as [Hc1 Hc2].
  pose proof (round_error (c * macro_F (macros inputs) / 9)) as [Hf1 Hf2].
  set (p := round (c * macro_P (macros inputs) / 4)) in *.
  set (k := round (c * macro_C (macros inputs) / 4)) in *.
  set (f := round (c * macro_F (macros inputs) / 9)) in *.
  rewrite !inject_Z_plus, !inject_Z_mult.
  change (inject_Z 4) with 4. change (inject_Z 9) with 9.
  clearbody p k f c.
  destruct (macros_cases inputs) as [E | [E | E]]; rewrite E in *;
    cbn [macro_P macro_C macro_F] in *;
    (split; [reflexivity|]);
    unfold Qdiv in *; change (/ 4) with (1 # 4) in *; change (/ 9) with (1 # 9) in *;
    repeat split; apply Qabs_Qle_condition; split; lra.
Qed.

End Planner.

(** ** History store *)

Section History.

Context {builtins : PyBuiltins}.

Local Open Scope list_scope.

Lemma save_history_list (now : string) (io_ok : bool) (inputs : Inputs)
      (bmi : Q) (category : string) (s : App) :
  history (save_history now io_ok inputs bmi category s)
  = last_n 20 (history s ++ [new_record now inputs bmi category]).
Proof.
  unfold save_history. destruct io_ok; reflexivity.
Qed.

Lemma last_n_length {A : Type} (n : nat) (l : list A) :
  (List.length (last_n n l) <= n)%nat.
Proof.
  unfold last_n. rewrite length_skipn. lia.
Qed.

Lemma last_n_suffix {A : Type} (n : nat) (l : list A) :
  exists dropped, l = dropped ++ last_n n l.
Proof.
  unfold last_n. exists (firstn (List.length l - n) l).
  symmetry. apply firstn_skipn.
Qed.

Lemma last_n_short {A : Type} (n : nat) (l : list A) :
  (List.length l <= n)%nat -> last_n n l = l.
Proof.
  intro Hlen. unfold last_n.
  replace (List.length l - n)%nat with 0%nat by lia. reflexivity.
Qed.

(** C6.  After [save_history] the history has 20 records at most.  When it
    held 20 records, the oldest one is dropped and the others follow in
    their order, the new record last.  In general the new history is what
    is left of the old one with the new record appended once some of its
    oldest records are dropped. *)
Theorem save_history_cap (now : string) (io_ok : bool) (inputs : Inputs)
        (bmi : Q) (category : string) (s : App) :
  let s' := save_history now io_ok inputs bmi category s in
  let r := new_record now inputs bmi category in
  (List.length (history s') <= 20)%nat
  /\ (forall oldest rest,
        history s = oldest :: rest -> List.length (history s) = 20%nat ->
        history s' = rest ++ [r])
  /\ ((List.length (history s) < 20)%nat -> history s' = history s ++ [r])
  /\ (exists dropped, history s ++ [r] = dropped ++ history s').
Proof.
  intros s' r. subst s' r. rewrite save_history_list.
  split; [apply last_n_length | split; [|split]].
  - intros oldest rest Hh Hlen. rewrite Hh in *.
    unfold last_n. rewrite length_app. simpl List.length in *.
    replace (S (List.length rest) + 1 - 20)%nat with 1%nat by lia.
    reflexivity.
  - intro Hlen. apply last_n_short. rewrite length_app. simpl. lia.
  - apply last_n_suffix.
Qed.

End History.

(** ** Query engine *)

Section Query.

Context {builtins : PyBuiltins}.



End Query.

(** ** Rejected forms *)

Section Rejection.

Context {builtins : PyBuiltins}.

Open Scope Q_scope.

Lemma validate_rejects (s : App) :
  invalid_submission s ->
  exists msg,
    In msg error_messages
    /\ validate_and_get_inputs s = (feedback msg Style.COLOR_DANGER s, None).
Proof.
  intro Hinv. unfold validate_and_get_inputs, error_messages.
  destruct (String.eqb (strip (name_entry (form s))) "") eqn:En.
  { exists msg_name. split; [simpl; auto | reflexivity]. }
  destruct (py_float (weight_entry (form s))) as [w|] eqn:Ew;
    [| exists msg_invalid; split; [simpl; auto | reflexivity]].
  destruct (py_int (age_entry (form s))) as [a|] eqn:Ea;
    [| exists msg_invalid; split; [simpl; auto | reflexivity]].
  destruct (read_height (unit_system s) (form s)) as [h|] eqn:Eh;
    [| exists msg_invalid; split; [simpl; auto | reflexivity]].
  destruct (leb w 0 || leb h 0) eqn:Ep.
  { exists msg_positive. split; [simpl; auto | reflexivity]. }
  destruct (negb ((16 <=? a)%Z && (a <=? 120)%Z)) eqn:Eage.
  { exists msg_age. split; [simpl; auto 6 | reflexivity]. }
  exfalso.
  apply String.eqb_neq in En.
  apply orb_false_iff in Ep. destruct Ep as [Hw Hh].
  apply leb_false_iff in Hw. apply leb_false_iff in Hh.
  apply negb_false_iff, andb_true_iff in Eage. destruct Eage as [Ha1 Ha2].
  apply Z.leb_le in Ha1. apply Z.leb_le in Ha2.
  unfold invalid_submission in Hinv. cbv zeta in Hinv.
  rewrite Ew, Ea, Eh in Hinv.
  destruct Hinv as [H | [H | [H | [H | [(w' & H1 & H2) | [(h' & H1 & H2) | (a' & H1 & H2)]]]]]];
    try contradiction; try discriminate.
  - injection H1 as <-. apply (Qlt_not_le _ _ Hw H2).
  - injection H1 as <-. apply (Qlt_not_le _ _ Hh H2).
  - injection H1 as <-. apply H2. split; assumption.
Qed.


(** C8.  When the submitted form is rejected (empty name, a weight, height
    or age that is not a number, a weight or height that is not positive,
    an age outside 16..120), [calculate_bmi_gui] ends after validation: the
    only change of the application is the feedback label, which shows one
    of the error messages in the danger colour.  The history, the history
    file, the stored profile and the result card are as they were. *)
Theorem invalid_submission_stops (now : string) (io_ok : bool) (s : App) :
  invalid_submission s ->
  let s' := calculate_bmi_gui now io_ok s in
  validate_and_get_inputs s = (s', None)
  /\ (exists msg, In msg error_messages /\ s' = feedback msg Style.COLOR_DANGER s)
  /\ history s' = history s
  /\ history_file s' = history_file s
  /\ current_inputs s' = current_inputs s
  /\ card s' = card s
  /\ dialogs s' = dialogs s
  /\ fg (dynamic_feedback_label s') = Style.COLOR_DANGER
  /\ In (text (dynamic_feedback_label s')) error_messages.
Proof.
  intros Hinv s'.
  destruct (validate_rejects s Hinv) as (msg & Hmsg & Hval).
  assert (Hs' : s' = feedback msg Style.COLOR_DANGER s).
  { subst s'. unfold calculate_bmi_gui. rewrite Hval. reflexivity. }
  rewrite Hs'.
  split; [exact Hval|].
  split; [exists msg; split; [exact Hmsg | reflexivity]|].
  repeat split; try reflexivity. exact Hmsg.
Qed.

End Rejection.

(** ** Hydration counter *)

Section Hydration.

Context {builtins : PyBuiltins}.

Open Scope Z_scope.

Lemma water_update_hydration_display (s : App) :
  water_intake_ml (update_hydration_display s) = water_intake_ml s.
Proof.
  unfold update_hydration_display.
  destruct (water_bar s); destruct (water_status_label s); reflexivity.
Qed.

Lemma water_clear_inputs (s : App) : water_intake_ml (clear_inputs s) = 0.
Proof.
  unfold clear_inputs. cbn [water_intake_ml set_dynamic_feedback_label set_card].
  rewrite water_update_hydration_display. reflexivity.
Qed.

Lemma water_update_unit_labels (s : App) :
  water_intake_ml (update_unit_labels s) = 0.
Proof.
  unfold update_unit_labels. apply water_clear_inputs.
Qed.

Lemma water_load_history (s : App) :
  water_intake_ml (load_history s) = water_intake_ml s.
Proof.
  unfold load_history. destruct (history_file s); reflexivity.
Qed.

Lemma water_validate (s : App) :
  water_intake_ml (fst (validate_and_get_inputs s)) = water_intake_ml s.
Proof.
  unfold validate_and_get_inputs.
  destruct (String.eqb (strip (name_entry (form s))) ""); [reflexivity|].
  destruct (py_float (weight_entry (form s))); [|reflexivity].
  destruct (py_int (age_entry (form s))); [|reflexivity].
  destruct (read_height (unit_system s) (form s)); [|reflexivity].
  destruct (leb _ _ || leb _ _)%bool; [reflexivity|].
  destruct (negb _); reflexivity.
Qed.

Lemma water_save_history (now : string) (io_ok : bool) (inputs : Inputs)
      (bmi : Q) (category : string) (s : App) :
  water_intake_ml (save_history now io_ok inputs bmi category s) = water_intake_ml s.
Proof.
  unfold save_history. destruct io_ok; reflexivity.
Qed.

Lemma water_calculate_bmi_gui (now : string) (io_ok : bool) (s : App) :
  water_intake_ml (calculate_bmi_gui now io_ok s) = water_intake_ml s.
Proof.
  unfold calculate_bmi_gui.
  pose proof (water_validate s) as Hv.
  destruct (validate_and_get_inputs s) as [s1 [inputs|]]; cbn [fst] in Hv;
    [|exact Hv].
  destruct (perform_calculation _ _ _) as [bmi|]; [|exact Hv].
  cbn [water_intake_ml set_card].
  rewrite water_save_history. exact Hv.
Qed.

(** What [log_water_intake] does to the counter. *)
Lemma water_log_water_intake (s : App) :
  (exists amount,
      py_int (water_add_ml s) = Some amount /\ 0 < amount
      /\ water_intake_ml (log_water_intake s) = water_intake_ml s + amount)
  \/ ((py_int (water_add_ml s) = None
       \/ exists amount, py_int (water_add_ml s) = Some amount /\ amount <= 0)
      /\ log_water_intake s = add_dialog water_input_error s).
Proof.
  unfold log_water_intake.
  destruct (py_int (water_add_ml s)) as [amount|]; [|right; auto].
  destruct (amount <=? 0) eqn:E.
  - apply Z.leb_le in E. right. split; [right; exists amount; auto | reflexivity].
  - apply Z.leb_gt in E. left. exists amount.
    repeat split; auto.
    cbn [water_intake_ml set_water_add_ml].
    rewrite water_update_hydration_display. reflexivity.
Qed.

Lemma handle_water_nonneg (e : Event) (s : App) :
  0 <= water_intake_ml s -> 0 <= water_intake_ml (handle e s).
Proof.
  intro Hs. destruct e; cbn [handle]; try exact Hs.
  - rewrite water_update_unit_labels. lia.
  - destruct (water_log_water_intake s) as [(amount & _ & Hpos & ->) | [_ ->]];
      [lia | exact Hs].
  - rewrite water_update_hydration_display. exact Hs.
  - rewrite water_load_history. exact Hs.
  - rewrite water_clear_inputs. lia.
  - rewrite water_validate. exact Hs.
  - rewrite water_calculate_bmi_gui. exact Hs.
Qed.

Lemma run_water_nonneg (events : list Event) (s : App) :
  0 <= water_intake_ml s -> 0 <= water_intake_ml (run events s).
Proof.
  revert s. induction events as [|e rest IH]; intros s Hs; simpl.
  - exact Hs.
  - apply IH, handle_water_nonneg, Hs.
Qed.

Lemma init_water (file : FileState) : water_intake_ml (init_app file) = 0.
Proof.
  unfold init_app. rewrite water_load_history. apply water_update_unit_labels.
Qed.

(** C9, as the code has it.  In every state the application reaches, the
    water counter is not negative.  [log_water_intake] adds the amount of
    the entry when that is a positive integer and leaves the counter alone
    otherwise; [clear_inputs], and with it the change of the unit system
    that ends in [clear_inputs], sets the counter to zero; every other
    event leaves it as it is. *)
Theorem hydration_counter (file : FileState) (events : list Event) (e : Event) :
  let s := run events (init_app file) in
  let s' := handle e s in
  0 <= water_intake_ml s
  /\ match e with
     | CallLogWaterIntake =>
         (exists amount,
             py_int (water_add_ml s) = Some amount /\ 0 < amount
             /\ water_intake_ml s' = water_intake_ml s + amount)
         \/ water_intake_ml s' = water_intake_ml s
     | CallClearInputs | SelectUnit _ => water_intake_ml s' = 0
     | _ => water_intake_ml s' = water_intake_ml s
     end.
Proof.
  intros s s'. subst s'.
  split.
  - subst s. apply run_water_nonneg. rewrite init_water. lia.
  - clearbody s. destruct e; cbn [handle]; try reflexivity.
    + apply water_update_unit_labels.
    + destruct (water_log_water_intake s) as [(amount & Hp & Hpos & Hw) | [_ ->]].
      * left. exists amount. auto.
      * right. reflexivity.
    + apply water_update_hydration_display.
    + apply water_load_history.
    + apply water_clear_inputs.
    + apply water_validate.
    + apply water_calculate_bmi_gui.
Qed.

End Hydration.

(** ** Feet and inches *)

Section FeetInches.

Context {builtins : PyBuiltins}.

Open Scope Q_scope.

Lemma round_comp (x y : Q) : x == y -> round x = round y.
Proof.
  intro Hxy. unfold round.
  rewrite (Qfloor_comp x y Hxy).
  assert (Hc : Qcompare (x - inject_Z (Qfloor y)) (1 # 2)
               = Qcompare (y - inject_Z (Qfloor y)) (1 # 2)).
  { apply Qcompare_comp; [rewrite Hxy|]; reflexivity. }
  rewrite Hc. reflexivity.
Qed.

Lemma feet_inches_str_comp (x y : Q) :
  x == y -> feet_inches_str x = feet_inches_str y.
Proof.
  intro Hxy. unfold feet_inches_str, floordiv, mod_.
  assert (Hf : Qfloor (x / 12) = Qfloor (y / 12)).
  { apply Qfloor_comp. rewrite Hxy. reflexivity. }
  rewrite Hf.
  rewrite (round_comp (x - 12 * inject_Z (Qfloor (y / 12)))
                      (y - 12 * inject_Z (Qfloor (y / 12))))
    by (rewrite Hxy; reflexivity).
  reflexivity.
Qed.

(** A remainder that rounds to 12 is printed as 12 inches; the feet are
    not raised. *)
Lemma feet_inches_twelve (h : Q) :
  round (mod_ h 12) = 12%Z ->
  feet_inches_str h
  = (str_int (int_of_float (floordiv h 12)) ++ " ft 12 in")%string.
Proof.
  intro Hr. unfold feet_inches_str. rewrite Hr. reflexivity.
Qed.

Lemma append_assoc (a b c : string) : ((a ++ b) ++ c = a ++ (b ++ c))%string.
Proof.
  induction a as [|x a IH]; simpl; [reflexivity | rewrite IH; reflexivity].
Qed.

Lemma append_empty_r (a : string) : (a ++ "")%string = a.
Proof.
  induction a as [|x a IH]; simpl; [reflexivity | rewrite IH; reflexivity].
Qed.

Lemma concat_cons (x : string) (l : list string) :
  String.concat "" (x :: l) = (x ++ String.concat "" l)%string.
Proof.
  destruct l as [|y l]; simpl; [symmetry; apply append_empty_r | reflexivity].
Qed.

Lemma concat_middle (l1 : list string) (x : string) (l2 : list string) :
  String.concat "" (l1 ++ x :: l2)%list
  = (String.concat "" l1 ++ x ++ String.concat "" l2)%string.
Proof.
  induction l1 as [|y l1 IH].
  - simpl app. rewrite concat_cons. reflexivity.
  - change ((y :: l1) ++ x :: l2)%list with (y :: (l1 ++ x :: l2))%list.
    rewrite !concat_cons, IH, append_assoc. reflexivity.
Qed.

Lemma last_n_snoc {A : Type} (n : nat) (l : list A) (x : A) :
  last_n (S n) (l ++ [x])%list = (last_n n l ++ [x])%list.
Proof.
  unfold last_n. rewrite length_app. simpl List.length.
  replace (List.length l + 1 - S n)%nat with (List.length l - n)%nat by lia.
  rewrite skipn_app.
  replace (List.length l - n - List.length l)%nat with 0%nat by lia.
  reflexivity.
Qed.

(** C10.  For the valid imperial height of 71.6 total inches (5 feet and
    11.6 inches) the height string of the history record and of the health
    report is "5 ft 12 in": the feet are the floor of the height over 12,
    the inches the rounded remainder, and an inches count of 12 is not
    carried into the feet. *)
Theorem twelve_inches_kept (now : string) (io_ok : bool) (s : App)
        (inputs : Inputs) (bmi : Q) (category : string) :
  valid_profile inputs ->
  inp_unit inputs = "imperial" ->
  inp_height inputs == 71.6 ->
  let r := new_record now inputs bmi category in
  int_of_float (floordiv (inp_height inputs) 12) = 5%Z
  /\ round (mod_ (inp_height inputs) 12) = 12%Z
  /\ rec_height r = "5 ft 12 in"
  /\ (exists older,
        history (save_history now io_ok inputs bmi category s) = (older ++ [r])%list)
  /\ (forall s0 : App,
        current_inputs s0 = Some inputs -> inp_bmi inputs <> None ->
        exists pre post,
          get_personalized_health_report s0
          = Some (pre ++ "5 ft 12 in" ++ post)%string).
Proof.
  intros _ Hunit Hh r.
  assert (Hstr : feet_inches_str (inp_height inputs) = "5 ft 12 in").
  { rewrite (feet_inches_str_comp _ _ Hh). reflexivity. }
  split; [|split; [|split; [|split]]].
  - unfold floordiv.
    rewrite (Qfloor_comp (inp_height inputs / 12) (71.6 / 12))
      by (rewrite Hh; reflexivity).
    reflexivity.
  - rewrite (round_comp (mod_ (inp_height inputs) 12) (mod_ 71.6 12)).
    + reflexivity.
    + unfold mod_.
      rewrite (Qfloor_comp (inp_height inputs / 12) (71.6 / 12))
        by (rewrite Hh; reflexivity).
      rewrite Hh. reflexivity.
  - subst r. unfold new_record. rewrite Hunit. simpl String.eqb. cbv iota.
    cbn [rec_height]. exact Hstr.
  - rewrite save_history_list.
    change 20%nat with (S 19). rewrite last_n_snoc.
    exists (last_n 19 (history s)). reflexivity.
  - intros s0 Hcur Hbmi.
    unfold get_personalized_health_report. rewrite Hcur, Hunit.
    simpl String.eqb. cbv iota.
    destruct (inp_bmi inputs) as [b|]; [|contradiction].
    rewrite Hstr.
    eexists. eexists.
    apply f_equal.
    refine (concat_middle
              ["--- User Health Snapshot ---"; nl;
               "BMI: "; format_f 2 b; " ("; or_default (inp_category inputs) "N/A"; ")"; nl;
               "Goal: "; inp_goal inputs; nl;
               "Activity: "; inp_activity inputs; nl;
               "Diet: "; inp_diet inputs; nl;
               "Age/Gender: "; str_int (inp_age inputs); " / "; inp_gender inputs; nl;
               "Weight/Height: "; (float_str (inp_weight inputs) ++ " lbs")%string; " / "]
              "5 ft 12 in"
              [nl; "Water Intake Today: "; str_int (water_intake_ml s0); "ml"; nl;
               "--------------------------"; nl]).
Qed.

End FeetInches.

(** * The model at work

    The properties above at concrete forms and profiles, with the decimal
    instance of the runtime conversions. *)

Section Instances.

#[local] Existing Instance Decimal10.builtins.

Import Samples.

Open Scope Q_scope.

Lemma metric_profile_valid : valid_profile metric_profile.
Proof.
  unfold valid_profile, metric_profile; cbn.
  repeat split; try discriminate; try reflexivity; auto 8.
Defined.

Lemma imperial_profile_valid : valid_profile imperial_profile.
Proof.
  unfold valid_profile; cbn.
  repeat split; try discriminate; try reflexivity; auto 8.
Defined.


Lemma categorize_bmi_thresholds_witness :
  (18.5 <= 22 /\ 22 < 25.0)
  /\ cat_category (categorize_bmi 22 "Male" "metric" 30) = "Normal Weight".
Proof.
  assert (Hlo : 18.5 <= 22) by discriminate.
  assert (Hhi : 22 < 25.0) by reflexivity.
  destruct (categorize_bmi_thresholds 22 "Male" "metric" 30) as (_ & Hn & _).
  split; [split; assumption | exact (Hn Hlo Hhi)].
Defined.

Lemma severe_alert_iff_witness :
  (15 < 16.0 \/ 35.0 < 15)
  /\ String.prefix (alert_msg 15)
                   (cat_warning (categorize_bmi 15 "Female" "metric" 40)) = true
  /\ cat_category (categorize_bmi 15 "Female" "metric" 40) = "Underweight"
  /\ cat_color (categorize_bmi 15 "Female" "metric" 40) = Style.COLOR_DANGER
  /\ cat_bg_color (categorize_bmi 15 "Female" "metric" 40) = "#FFCDD2".
Proof.
  assert (Hsev : 15 < 16.0 \/ 35.0 < 15) by (left; reflexivity).
  destruct (severe_alert_iff 15 "Female" "metric" 40) as (Hiff & Hlabel & Hyes & _).
  destruct (Hyes Hsev) as (_ & Hcolor & Hbg).
  split; [exact Hsev|].
  split; [apply Hiff; exact Hsev|].
  split; [exact Hlabel|].
  split; assumption.
Defined.


Lemma macro_calories_within_rounding_witness :
  valid_profile metric_profile
  /\ Qabs (inject_Z (prot_g metric_profile * 4 + carb_g metric_profile * 4
                     + fat_g metric_profile * 9)
           - cal_target metric_profile) <= 17 # 2.
Proof.
  destruct (macro_calories_within_rounding metric_profile metric_profile_valid)
    as (_ & _ & _ & _ & Hsum).
  split; [exact metric_profile_valid | exact Hsum].
Defined.

Lemma save_history_cap_witness :
  (List.length (history full_app) = 20%nat
   /\ history full_app = sample_record 1 :: List.tl full_history)
  /\ history (save_history "2026-01-01 10:00" true metric_profile 22.86
                           "Normal Weight" full_app)
     = (List.tl full_history
        ++ [new_record "2026-01-01 10:00" metric_profile 22.86 "Normal Weight"])%list.
Proof.
  assert (Hlen : List.length (history full_app) = 20%nat) by reflexivity.
  assert (Hcons : history full_app = sample_record 1 :: List.tl full_history)
    by reflexivity.
  destruct (save_history_cap "2026-01-01 10:00" true metric_profile 22.86
                             "Normal Weight" full_app) as (_ & Hfull & _).
  split; [split; assumption | exact (Hfull _ _ Hcons Hlen)].
Defined.


Lemma invalid_submission_stops_witness :
  invalid_submission nameless_app
  /\ history (calculate_bmi_gui "2026-01-01 10:00" true nameless_app)
     = history nameless_app
  /\ current_inputs (calculate_bmi_gui "2026-01-01 10:00" true nameless_app)
     = current_inputs nameless_app
  /\ fg (dynamic_feedback_label (calculate_bmi_gui "2026-01-01 10:00" true nameless_app))
     = Style.COLOR_DANGER.
Proof.
  assert (Hinv : invalid_submission nameless_app) by (left; reflexivity).
  destruct (invalid_submission_stops "2026-01-01 10:00" true nameless_app Hinv)
    as (_ & _ & Hh & _ & Hc & _ & _ & Hfg & _).
  split; [exact Hinv|].
  split; [exact Hh|].
  split; [exact Hc | exact Hfg].
Defined.

Lemma twelve_inches_kept_witness :
  (valid_profile imperial_profile
   /\ inp_unit imperial_profile = "imperial"
   /\ inp_height imperial_profile == 71.6)
  /\ rec_height (new_record "2026-01-02 09:00" imperial_profile 20.57 "Normal Weight")
     = "5 ft 12 in".
Proof.
  assert (Hu : inp_unit imperial_profile = "imperial") by reflexivity.
  assert (Hh : inp_height imperial_profile == 71.6) by reflexivity.
  destruct (twelve_inches_kept "2026-01-02 09:00" true imperial_session
                               imperial_profile 20.57 "Normal Weight"
                               imperial_profile_valid Hu Hh)
    as (_ & _ & Hrec & _).
  split; [split; [exact imperial_profile_valid | split; assumption] | exact Hrec].
Defined.

(** The form of [imperial_session] gives total inches, and both the stored
    record and the report show twelve inches. *)
Example imperial_session_height :
  option_map inp_height (current_inputs imperial_session) = Some (358 # 5)
  /\ List.map rec_height (history imperial_session) = ["5 ft 12 in"]
  /\ get_rule_based_response "show my metrics" imperial_session
     = Some (String.concat ""
               ["Here is your latest summary:"; nl;
                "--- User Health Snapshot ---"; nl;
                "BMI: 20.57 (Normal Weight)"; nl;
                "Goal: Maintain Weight"; nl;
                "Activity: Moderately Active"; nl;
                "Diet: Omnivore"; nl;
                "Age/Gender: 30 / Male"; nl;
                "Weight/Height: 150.0 lbs / 5 ft 12 in"; nl;
                "Water Intake Today: 0ml"; nl;
                "--------------------------"; nl]).
Proof. repeat split; reflexivity. Qed.

(** The bare word "water" is no keyword of rule 1: such a query goes on to
    the later rules. *)
Example bare_water_is_no_keyword :
  mentions water_keywords "water exercise" = false
  /\ get_rule_based_response "water exercise" imperial_session = Some exercise_answer.
Proof. split; reflexivity. Qed.

(** Against C9 as the specification words it: after 250 ml were logged,
    [clear_inputs], which is not [log_water_intake], sets the counter back
    to zero. *)
Lemma clear_inputs_resets_counter :
  let s := run [CallLogWaterIntake] (init_app Missing) in
  CallClearInputs <> CallLogWaterIntake
  /\ water_intake_ml s = 250%Z
  /\ water_intake_ml (handle CallClearInputs s) = 0%Z
  /\ ~ (forall (e : Event) (s0 : App),
          e <> CallLogWaterIntake ->
          water_intake_ml (handle e s0) = water_intake_ml s0).
Proof.
  intro s.
  split; [discriminate|].
  split; [reflexivity|].
  split; [reflexivity|].
  intro Hall.
  assert (Hne : CallClearInputs <> CallLogWaterIntake) by discriminate.
  specialize (Hall CallClearInputs s Hne).
  vm_compute in Hall. discriminate.
Qed.

End Instances.

(** * Further properties *)

(** ** Accepted forms *)

Section Accepted.

Context {builtins : PyBuiltins}.

Open Scope Q_scope.

Lemma validate_fields (s s' : App) (inputs : Inputs) :
  validate_and_get_inputs s = (s', Some inputs) ->
  inp_name inputs = strip (name_entry (form s))
  /\ inp_gender inputs = gender s
  /\ inp_activity inputs = activity_level s
  /\ inp_goal inputs = health_goal s
  /\ inp_diet inputs = diet_preference s
  /\ inp_unit inputs = unit_system s
  /\ inp_category inputs = None
  /\ inp_bmi inputs = None.
Proof.
  unfold validate_and_get_inputs.
  destruct (String.eqb (strip (name_entry (form s))) ""); [discriminate|].
  destruct (py_float (weight_entry (form s))); [|discriminate].
  destruct (py_int (age_entry (form s))); [|discriminate].
  destruct (read_height (unit_system s) (form s)); [|discriminate].
  destruct (leb _ _ || leb _ _)%bool; [discriminate|].
  destruct (negb _); [discriminate|].
  intro Heq. injection Heq as _ <-. repeat split.
Qed.


Lemma bmi_positive (weight height : Q) (unit : string) :
  0 < weight -> 0 < height ->
  exists bmi, perform_calculation weight height unit = Some bmi /\ 0 < bmi.
Proof.
  intros Hw Hh.
  assert (Hsq : 0 < height ^ 2).
  { simpl. apply Qmult_lt_0_compat; assumption. }
  assert (Hq : 0 < weight / height ^ 2).
  { apply Qlt_shift_div_l; [exact Hsq | rewrite Qmult_0_l; exact Hw]. }
  unfold perform_calculation.
  rewrite truediv_nonzero by (apply square_nonzero; exact Hh).
  destruct (String.eqb unit "metric"); cbn [option_map].
  - eexists. split; [reflexivity | exact Hq].
  - eexists. split; [reflexivity|].
    apply Qmult_lt_0_compat; [exact Hq | reflexivity].
Qed.

Lemma accepted_result (now : string) (io_ok : bool) (s s1 : App)
        (inputs : Inputs) :
  validate_and_get_inputs s = (s1, Some inputs) ->
  exists bmi,
    perform_calculation (inp_weight inputs) (inp_height inputs) (inp_unit inputs) = Some bmi
    /\ 0 < bmi
    /\ let r := categorize_bmi bmi (inp_gender inputs) (inp_unit inputs) (inp_age inputs) in
       let s' := calculate_bmi_gui now io_ok s in
       let stored := with_result inputs (cat_category r) bmi in
       current_inputs s' = Some stored
       /\ text (bmi_value_label (card s')) = format_f 2 bmi
       /\ text (category_label (card s')) = cat_category r
       /\ text (warning_label (card s')) = cat_warning r
       /\ text (ideal_weight_label (card s'))
          = calculate_ideal_weight (inp_height inputs) (inp_unit inputs)
       /\ history s' = last_n 20 (history s ++ [new_record now stored bmi (cat_category r)])%list
       /\ form s' = form s.
Proof.
  intro Hval.
  destruct (validate_success _ _ _ Hval) as (_ & _ & _ & _ & Hw & Hh & _ & _ & Hs1).
  destruct (bmi_positive _ _ (inp_unit inputs) Hw Hh) as (bmi & Hbmi & Hpos).
  exists bmi. split; [exact Hbmi|]. split; [exact Hpos|].
  cbv zeta. unfold calculate_bmi_gui. rewrite Hval, Hbmi.
  cbn [card set_card current_inputs form history
       bmi_value_label category_label warning_label ideal_weight_label
       text config_text_bg config_text_fg_bg].
  rewrite save_history_list.
  unfold save_history. subst s1.
  destruct io_ok; repeat split.
Qed.



End Accepted.

(** ** Invariants of the application *)

Section Reachable.

Context {builtins : PyBuiltins}.

Local Open Scope list_scope.

(** Unfolds the callbacks and splits their tests. *)
Ltac split_tests :=
  repeat match goal with
         | |- context [match ?x with _ => _ end] => destruct x
         end.

Lemma run_invariant (P : App -> Prop) :
  (forall e s, P s -> P (handle e s)) ->
  forall events s, P s -> P (run events s).
Proof.
  intros Hstep events. induction events as [|e rest IH]; intros s Hs; simpl.
  - exact Hs.
  - apply IH, Hstep, Hs.
Qed.

Lemma update_hydration_display_frame (s : App) :
  history (update_hydration_display s) = history s
  /\ history_file (update_hydration_display s) = history_file s
  /\ current_inputs (update_hydration_display s) = current_inputs s
  /\ dialogs (update_hydration_display s) = dialogs s.
Proof.
  unfold update_hydration_display.
  destruct (water_bar s); destruct (water_status_label s); repeat split.
Qed.

Lemma clear_inputs_frame (s : App) :
  history (clear_inputs s) = history s
  /\ history_file (clear_inputs s) = history_file s
  /\ current_inputs (clear_inputs s) = None.
Proof.
  unfold clear_inputs.
  cbn [history history_file current_inputs set_dynamic_feedback_label set_card].
  destruct (update_hydration_display_frame
              (set_water_intake_ml 0 (set_current_inputs None (set_form empty_form s))))
    as (Hh & Hf & Hc & _).
  rewrite Hh, Hf, Hc. repeat split.
Qed.

Lemma update_unit_labels_frame (s : App) :
  history (update_unit_labels s) = history s
  /\ history_file (update_unit_labels s) = history_file s
  /\ current_inputs (update_unit_labels s) = None.
Proof.
  unfold update_unit_labels.
  match goal with
  | |- context [clear_inputs ?t] =>
      destruct (clear_inputs_frame t) as (Hh & Hf & Hc); rewrite Hh, Hf, Hc
  end.
  destruct (String.eqb _ _); repeat split.
Qed.

Lemma log_water_intake_frame (s : App) :
  history (log_water_intake s) = history s
  /\ history_file (log_water_intake s) = history_file s
  /\ current_inputs (log_water_intake s) = current_inputs s.
Proof.
  unfold log_water_intake.
  destruct (py_int (water_add_ml s)) as [amount|]; [|repeat split].
  destruct (amount <=? 0)%Z; [repeat split|].
  cbn [history history_file current_inputs set_water_add_ml].
  destruct (update_hydration_display_frame
              (set_water_intake_ml (water_intake_ml s + amount) s))
    as (Hh & Hf & Hc & _).
  rewrite Hh, Hf, Hc. repeat split.
Qed.

Lemma validate_frame (s : App) :
  history (fst (validate_and_get_inputs s)) = history s
  /\ history_file (fst (validate_and_get_inputs s)) = history_file s
  /\ current_inputs (fst (validate_and_get_inputs s)) = current_inputs s.
Proof.
  unfold validate_and_get_inputs. split_tests; repeat split.
Qed.

(** What [calculate_bmi_gui] does to the profile and the history: nothing
    for a rejected form, the new result for an accepted one. *)
Lemma calculate_cases (now : string) (io_ok : bool) (s : App) :
  let s' := calculate_bmi_gui now io_ok s in
  (history s' = history s /\ history_file s' = history_file s
   /\ current_inputs s' = current_inputs s)
  \/ (exists inputs bmi category,
         profile_complete (with_result inputs category bmi)
         /\ current_inputs s' = Some (with_result inputs category bmi)
         /\ history s'
            = last_n 20 (history s
                         ++ [new_record now (with_result inputs category bmi) bmi category])
         /\ (history_file s' = history_file s
             \/ history_file s' = Stored (history s'))).
Proof.
  cbv zeta.
  destruct (validate_and_get_inputs s) as [s1 [inputs|]] eqn:Hval.
  - right.
    destruct (validate_success _ _ _ Hval)
      as (Hname & _ & _ & _ & Hw & Hh & Hage & _ & Hs1).
    destruct (validate_fields _ _ _ Hval) as (Hn & _).
    destruct (bmi_positive _ _ (inp_unit inputs) Hw Hh) as (bmi & Hbmi & Hpos).
    exists inputs, bmi,
      (cat_category (categorize_bmi bmi (inp_gender inputs) (inp_unit inputs)
                                    (inp_age inputs))).
    split.
    + exists bmi. cbn [with_result inp_weight inp_height inp_unit inp_bmi
                       inp_category inp_age inp_name].
      rewrite categorize_label, Hn.
      repeat split; auto; apply Hage.
    + unfold calculate_bmi_gui. rewrite Hval, Hbmi. subst s1.
      destruct io_ok; cbn; repeat split; auto.
  - left. unfold calculate_bmi_gui. rewrite Hval.
    pose proof (validate_frame s) as Hframe. rewrite Hval in Hframe.
    exact Hframe.
Qed.

Lemma load_history_cap (s : App) :
  file_within_cap (history_file s) ->
  (List.length (history (load_history s)) <= 20)%nat
  /\ file_within_cap (history_file (load_history s)).
Proof.
  intro Hfile. unfold load_history.
  destruct (history_file s) as [| |records] eqn:Ef;
    cbn [history history_file set_history add_dialog]; rewrite ?Ef;
    cbn [List.length file_within_cap].
  - split; [lia | exact I].
  - split; [lia | exact I].
  - split; exact Hfile.
Qed.

Lemma handle_history_cap (e : Event) (s : App) :
  (List.length (history s) <= 20)%nat /\ file_within_cap (history_file s) ->
  (List.length (history (handle e s)) <= 20)%nat
  /\ file_within_cap (history_file (handle e s)).
Proof.
  intros [Hlen Hfile].
  destruct e; cbn [handle]; try (split; assumption).
  - match goal with
    | |- context [update_unit_labels ?t] =>
        destruct (update_unit_labels_frame t) as (Hh & Hf & _); rewrite Hh, Hf
    end.
    split; assumption.
  - destruct (log_water_intake_frame s) as (Hh & Hf & _). rewrite Hh, Hf.
    split; assumption.
  - destruct (update_hydration_display_frame s) as (Hh & Hf & _). rewrite Hh, Hf.
    split; assumption.
  - apply load_history_cap. exact Hfile.
  - destruct (clear_inputs_frame s) as (Hh & Hf & _). rewrite Hh, Hf.
    split; assumption.
  - destruct (validate_frame s) as (Hh & Hf & _). rewrite Hh, Hf.
    split; assumption.
  - destruct (calculate_cases now io_ok s) as [(Hh & Hf & _) | (i & b & c & _ & _ & Hh & Hf)].
    + rewrite Hh, Hf. split; assumption.
    + assert (Hcap : (List.length (history (calculate_bmi_gui now io_ok s)) <= 20)%nat).
      { rewrite Hh. apply last_n_length. }
      split; [exact Hcap|].
      destruct Hf as [Hf | Hf]; rewrite Hf; [exact Hfile | exact Hcap].
Qed.

Lemma init_history_cap (file : FileState) :
  file_within_cap file ->
  (List.length (history (init_app file)) <= 20)%nat
  /\ file_within_cap (history_file (init_app file)).
Proof.
  intro Hfile. unfold init_app.
  apply load_history_cap.
  destruct (update_unit_labels_frame (update_hydration_display (new_app file)))
    as (_ & Hf & _).
  rewrite Hf.
  destruct (update_hydration_display_frame (new_app file)) as (_ & Hf' & _).
  rewrite Hf'. exact Hfile.
Qed.

(** X4.  What [save_history] writes is what [load_history] reads: after a
    successful save, loading the history changes nothing, and the file holds
    the history in memory, 20 records at most. *)
Theorem saved_history_reloads (now : string) (inputs : Inputs) (bmi : Q)
        (category : string) (s : App) :
  let s' := save_history now true inputs bmi category s in
  load_history s' = s'
  /\ history_file s' = Stored (history s')
  /\ file_within_cap (history_file s').
Proof.
  cbv zeta. unfold save_history.
  generalize (new_record now inputs bmi category). intro r.
  cbn [history set_history].
  set (kept := last_n 20 (history s ++ [r])).
  unfold load_history.
  cbn [history_file set_history_file history set_history file_within_cap].
  repeat split.
  apply (last_n_length 20).
Qed.

(** X5.  When the history file holds 20 records at most at the start, the
    history in memory and the file hold 20 records at most in every state
    the application reaches. *)
Theorem history_cap_is_invariant (file : FileState) (events : list Event) :
  file_within_cap file ->
  (List.length (history (run events (init_app file))) <= 20)%nat
  /\ file_within_cap (history_file (run events (init_app file))).
Proof.
  intro Hfile.
  apply (run_invariant
           (fun s => (List.length (history s) <= 20)%nat
                     /\ file_within_cap (history_file s))).
  - intros e s. apply handle_history_cap.
  - apply init_history_cap, Hfile.
Qed.

Lemma handle_profile_complete (e : Event) (s : App) :
  stored_profile_complete s -> stored_profile_complete (handle e s).
Proof.
  unfold stored_profile_complete. intro Hs.
  destruct e; cbn [handle]; try exact Hs.
  - match goal with
    | |- context [update_unit_labels ?t] =>
        destruct (update_unit_labels_frame t) as (_ & _ & Hc); rewrite Hc
    end.
    exact I.
  - destruct (log_water_intake_frame s) as (_ & _ & Hc). rewrite Hc. exact Hs.
  - destruct (update_hydration_display_frame s) as (_ & _ & Hc & _). rewrite Hc.
    exact Hs.
  - unfold load_history. destruct (history_file s); exact Hs.
  - destruct (clear_inputs_frame s) as (_ & _ & Hc). rewrite Hc. exact I.
  - destruct (validate_frame s) as (_ & _ & Hc). rewrite Hc. exact Hs.
  - destruct (calculate_cases now io_ok s)
      as [(_ & _ & Hc) | (i & b & c & Hcomplete & Hc & _)]; rewrite Hc.
    + exact Hs.
    + exact Hcomplete.
Qed.

Lemma load_history_frame (s : App) :
  current_inputs (load_history s) = current_inputs s
  /\ water_bar (load_history s) = water_bar s
  /\ water_status_label (load_history s) = water_status_label s.
Proof.
  unfold load_history. destruct (history_file s); repeat split.
Qed.

Lemma init_profile_complete (file : FileState) :
  stored_profile_complete (init_app file).
Proof.
  unfold stored_profile_complete, init_app.
  destruct (load_history_frame
              (update_unit_labels (update_hydration_display (new_app file))))
    as (Hc & _).
  rewrite Hc.
  destruct (update_unit_labels_frame (update_hydration_display (new_app file)))
    as (_ & _ & Hnone).
  rewrite Hnone. exact I.
Qed.

Lemma complete_profile_answers (query : string) (s : App) :
  stored_profile_complete s -> get_rule_based_response query s <> None.
Proof.
  unfold stored_profile_complete. intro Hs.
  unfold get_rule_based_response.
  repeat match goal with
         | |- (if ?b then _ else _) <> None => destruct b; try discriminate
         end.
  unfold get_personalized_health_report.
  destruct (current_inputs s) as [data|]; [|discriminate].
  destruct Hs as (bmi & _ & Hbmi & _). rewrite Hbmi.
  destruct (String.eqb (inp_unit data) "imperial"); discriminate.
Qed.



End Reachable.

(** ** Categories, colours and ranges *)

Section CategoryFacts.

Open Scope Q_scope.




(** X9.  The severe alert goes with the two outer categories only: a BMI
    under 16 is Underweight and a BMI over 35 is Obesity, so a Normal Weight
    or Overweight result never carries the alert and keeps its own colours. *)
Theorem alert_only_in_outer_categories (bmi : Q) (gender unit : string) (age : Z) :
  let r := categorize_bmi bmi gender unit age in
  (bmi < 16.0 -> cat_category r = "Underweight")
  /\ (35.0 < bmi -> cat_category r = "Obesity")
  /\ (cat_category r = "Normal Weight" \/ cat_category r = "Overweight" ->
      severe bmi = false
      /\ cat_warning r = fst (narrative (cat_category r) gender age)
      /\ cat_color r = snd (fst (band bmi))
      /\ cat_bg_color r = snd (band bmi)).
Proof.
  cbv zeta.
  destruct (band_label bmi) as (Hu & Hn & Ho & Hb).
  pose proof (categorize_label bmi gender unit age) as Hlabel.
  split; [|split].
  - intro H. rewrite Hlabel. apply Hu. lra.
  - intro H. rewrite Hlabel. apply Hb. lra.
  - intro Hmid.
    assert (Hns : severe bmi = false).
    { destruct (severe bmi) eqn:Es; [|reflexivity].
      apply severe_iff in Es. rewrite Hlabel in Hmid.
      destruct Es as [Hlow | Hhigh].
      - rewrite Hu in Hmid by lra. destruct Hmid; discriminate.
      - rewrite Hb in Hmid by lra. destruct Hmid; discriminate. }
    split; [exact Hns|].
    clear Hmid Hlabel. unfold categorize_bmi. rewrite Hns.
    destruct (band bmi) as [[category color0] bg0].
    destruct (narrative category gender age) as [warning_body benefit] eqn:En.
    cbn [cat_category cat_warning cat_color cat_bg_color fst snd append].
    rewrite En. repeat split.
Qed.

Lemma square_positive (h : Q) : 0 < h -> 0 < h ^ 2.
Proof.
  intro Hh. simpl. apply Qmult_lt_0_compat; assumption.
Qed.

Lemma ideal_weight_text (height : Q) (unit : string) :
  calculate_ideal_weight height unit
  = String.concat ""
      [format_f 1 (fst (ideal_weight_bounds height unit)); " - ";
       format_f 1 (snd (ideal_weight_bounds height unit)); " ";
       if String.eqb unit "imperial" then "lbs" else "kg"].
Proof.
  unfold calculate_ideal_weight, ideal_weight_bounds.
  destruct (String.eqb unit "imperial"); reflexivity.
Qed.


End CategoryFacts.

(** ** Units *)

Section Units.

Open Scope Q_scope.

(** X11.  The imperial formula gives a little less than the metric formula
    for the same body: with the pounds turned into kg by 2.20462 and the
    inches into metres by 0.0254, as the planner and the ideal weight do,
    the imperial BMI is the metric BMI times 703 * 2.20462 * 0.0254^2, which
    lies between 0.9998 and 1. *)
Theorem imperial_bmi_scale (weight height : Q) :
  0 < weight -> 0 < height ->
  exists imperial metric,
    perform_calculation weight height "imperial" = Some imperial
    /\ perform_calculation (weight / 2.20462) (height * 0.0254) "metric" = Some metric
    /\ imperial == metric * (703 * 2.20462 * (0.0254 * 0.0254))
    /\ metric * 0.9998 < imperial
    /\ imperial < metric.
Proof.
  intros Hw Hh.
  assert (Hm : 0 < height * 0.0254) by (apply Qmult_lt_0_compat; [exact Hh | reflexivity]).
  assert (Hwk : 0 < weight / 2.20462)
    by (apply Qlt_shift_div_l; [reflexivity | rewrite Qmult_0_l; exact Hw]).
  exists (weight / height ^ 2 * 703), ((weight / 2.20462) / (height * 0.0254) ^ 2).
  assert (Hpos : 0 < (weight / 2.20462) / (height * 0.0254) ^ 2).
  { apply Qlt_shift_div_l; [apply square_positive, Hm | rewrite Qmult_0_l; exact Hwk]. }
  assert (Heq : weight / height ^ 2 * 703
                == (weight / 2.20462) / (height * 0.0254) ^ 2
                   * (703 * 2.20462 * (0.0254 * 0.0254))).
  { simpl Qpower. field. intro H0. rewrite H0 in Hh. discriminate. }
  split.
  { unfold perform_calculation. cbn [String.eqb Ascii.eqb Bool.eqb].
    rewrite truediv_nonzero by (apply square_nonzero, Hh). reflexivity. }
  split.
  { unfold perform_calculation. cbn [String.eqb Ascii.eqb Bool.eqb].
    apply truediv_nonzero, square_nonzero, Hm. }
  split; [exact Heq|].
  set (metric := (weight / 2.20462) / (height * 0.0254) ^ 2) in *.
  set (imperial := weight / height ^ 2 * 703) in *.
  clearbody metric imperial.
  split; lra.
Qed.


(** X13.  The energy planner does not depend on the unit system: an
    imperial profile whose pounds and total inches describe the body of a
    metric profile (kg times 2.20462, metres over 0.0254), with the same age,
    gender, activity and goal, gets the same BMR, TDEE and calorie target
    and the same gram counts. *)
Theorem planner_unit_invariance (metric imperial : Inputs) :
  inp_unit metric = "metric" ->
  inp_unit imperial = "imperial" ->
  inp_weight imperial == inp_weight metric * 2.20462 ->
  inp_height imperial == inp_height metric / 0.0254 ->
  inp_age imperial = inp_age metric ->
  inp_gender imperial = inp_gender metric ->
  inp_activity imperial = inp_activity metric ->
  inp_goal imperial = inp_goal metric ->
  bmr imperial == bmr metric
  /\ tdee imperial == tdee metric
  /\ cal_target imperial == cal_target metric
  /\ prot_g imperial = prot_g metric
  /\ carb_g imperial = carb_g metric
  /\ fat_g imperial = fat_g metric.
Proof.
  intros Hum Hui Hw Hh Hage Hgender Hact Hgoal.
  assert (Hwk : weight_kg imperial == weight_kg metric).
  { unfold weight_kg. rewrite Hum, Hui. cbn [String.eqb Ascii.eqb Bool.eqb].
    rewrite Hw. field. }
  assert (Hhc : height_cm imperial == height_cm metric).
  { unfold height_cm. rewrite Hum, Hui. cbn [String.eqb Ascii.eqb Bool.eqb].
    rewrite Hh. field. }
  assert (Hbmr : bmr imperial == bmr metric).
  { unfold bmr. rewrite Hgender, Hage.
    destruct (String.eqb (inp_gender metric) "Male"); rewrite Hwk, Hhc; reflexivity. }
  assert (Htdee : tdee imperial == tdee metric).
  { unfold tdee, activity_multiplier. rewrite Hact, Hbmr. reflexivity. }
  assert (Hmac : macros imperial = macros metric).
  { unfold macros, goal_branch. rewrite Hgoal.
    destruct (String.eqb (inp_goal metric) "Lose Weight"); [reflexivity|].
    destruct (String.eqb (inp_goal metric) "Gain Muscle"); reflexivity. }
  assert (Hcal : cal_target imperial == cal_target metric).
  { unfold cal_target, goal_branch. rewrite Hgoal.
    destruct (String.eqb (inp_goal metric) "Lose Weight");
      [cbn [fst]; rewrite Htdee; reflexivity|].
    destruct (String.eqb (inp_goal metric) "Gain Muscle");
      cbn [fst]; rewrite Htdee; reflexivity. }
  split; [exact Hbmr|]. split; [exact Htdee|]. split; [exact Hcal|].
  unfold prot_g, carb_g, fat_g. rewrite Hmac.
  repeat split; apply round_comp; rewrite Hcal; reflexivity.
Qed.

End Units.

(** ** Schedule *)

Section ScheduleFacts.

Open Scope Q_scope.

(** The hour that [hour_to_x] uses after its two tests. *)
Lemma hour_to_x_clamped (hour : Q) :
  exists c,
    hour_to_x hour == 20 + (c - 8) * (255 # 7)
    /\ 8 <= c /\ c <= 22
    /\ (hour <= 8 -> c == 8)
    /\ (22 <= hour -> c == 22)
    /\ (8 <= hour -> hour <= 22 -> c == hour).
Proof.
  unfold hour_to_x. cbv zeta.
  destruct (ltb hour 8) eqn:E1; [apply ltb_iff in E1 | apply ltb_false_iff in E1].
  - destruct (ltb 22 8) eqn:E2; [apply ltb_iff in E2; exfalso; lra|].
    exists 8. split; [field|]. repeat split; intros; lra.
  - destruct (ltb 22 hour) eqn:E2;
      [apply ltb_iff in E2 | apply ltb_false_iff in E2].
    + exists 22. split; [field|]. repeat split; intros; lra.
    + exists hour. split; [field|]. repeat split; intros; lra.
Qed.

(** X14.  Every hour is drawn on the time line of the schedule: [hour_to_x]
    gives a position from 20 to 530, hours before 8:00 are put at the left
    end and hours after 22:00 at the right end, and a later hour is never
    drawn to the left of an earlier one. *)
Theorem hour_to_x_stays_on_the_line (hour later : Q) :
  hour <= later ->
  20 <= hour_to_x hour
  /\ hour_to_x hour <= 530
  /\ hour_to_x hour <= hour_to_x later
  /\ (hour <= 8 -> hour_to_x hour == 20)
  /\ (22 <= hour -> hour_to_x hour == 530)
  /\ (8 <= hour -> hour <= 22 -> hour_to_x hour == 20 + (hour - 8) * 510 / 14).
Proof.
  intro Hle.
  destruct (hour_to_x_clamped hour) as (c & Hx & Hc1 & Hc2 & Hlow & Hhigh & Hin).
  destruct (hour_to_x_clamped later) as (d & Hy & Hd1 & Hd2 & Hlow' & Hhigh' & Hin').
  rewrite Hx, Hy.
  assert (Hcd : c <= d).
  { destruct (Qlt_le_dec hour 8) as [H8 | H8].
    - rewrite (Hlow (Qlt_le_weak _ _ H8)). exact Hd1.
    - destruct (Qlt_le_dec 22 later) as [H22 | H22].
      + rewrite (Hhigh' (Qlt_le_weak _ _ H22)). exact Hc2.
      + rewrite (Hin H8 (Qle_trans _ _ _ Hle H22)).
        rewrite (Hin' (Qle_trans _ _ _ H8 Hle) H22). exact Hle. }
  split; [lra|]. split; [lra|]. split; [lra|].
  split; [|split].
  - intro H. rewrite (Hlow H). reflexivity.
  - intro H. rewrite (Hhigh H). reflexivity.
  - intros H1 H2. rewrite (Hin H1 H2). field.
Qed.

End ScheduleFacts.

(** ** Hydration display *)

Section HydrationDisplay.

Context {builtins : PyBuiltins}.

Open Scope Q_scope.





Lemma widgets_update_hydration_display (s : App) :
  water_bar s <> None -> water_bar (update_hydration_display s) <> None.
Proof.
  intro Hb. unfold update_hydration_display.
  destruct (water_bar s) as [b|] eqn:Eb; [|contradiction].
  destruct (water_status_label s); [discriminate | rewrite Eb; discriminate].
Qed.














End HydrationDisplay.

(** ** Query engine *)

Section QueryFacts.

Context {builtins : PyBuiltins}.

Lemma lower_ascii_idempotent (c : ascii) : lower_ascii (lower_ascii c) = lower_ascii c.
Proof.
  destruct c as [[] [] [] [] [] [] [] []]; reflexivity.
Qed.

Lemma lower_idempotent (s : string) : lower (lower s) = lower s.
Proof.
  induction s as [|c s IH]; simpl; [reflexivity|].
  rewrite lower_ascii_idempotent, IH. reflexivity.
Qed.

(** X17.  The query engine does not look at the case of ASCII letters: a
    query and its lower-case form get the same answer, and so do any two
    queries with the same lower-case form. *)
Theorem query_ignores_case (query : string) (s : App) :
  get_rule_based_response (lower query) s = get_rule_based_response query s
  /\ (forall other,
        lower other = lower query ->
        get_rule_based_response other s = get_rule_based_response query s).
Proof.
  split.
  - unfold get_rule_based_response. rewrite lower_idempotent. reflexivity.
  - intros other Hsame. unfold get_rule_based_response. rewrite Hsame. reflexivity.
Qed.

(** Splits a disjunction of tests that is false into its tests. *)
Ltac split_false H :=
  repeat match type of H with
         | (_ || _)%bool = false =>
             let H1 := fresh "Hno" in
             apply orb_false_iff in H; destruct H as [H1 H];
             try split_false H1
         end.

(** X18.  Every answer of the rules on sensitive topics starts with the
    same medical disclaimer: a query with a keyword on the disclaimer,
    medication, diabetes, the heart or allergies, and with no keyword of
    the three rules before them, is answered by the disclaimer, an empty
    line and the advice. *)
Theorem sensitive_answers_carry_disclaimer (query : string) (s : App) :
  mentions water_keywords query = false ->
  mentions plan_keywords query = false ->
  mentions report_keywords query = false ->
  mentions sensitive_keywords query = true ->
  exists advice,
    get_rule_based_response query s
    = Some (MEDICAL_DISCLAIMER ++ nl ++ nl ++ advice).
Proof.
  unfold mentions, water_keywords, plan_keywords, report_keywords, sensitive_keywords.
  cbn [existsb]. intros Hw Hp Hr Hs.
  unfold get_rule_based_response.
  set (q := lower query) in *. clearbody q.
  split_false Hw. split_false Hp. split_false Hr.
  repeat match goal with
         | H : contains _ q = false |- _ => rewrite H; clear H
         end.
  cbn [orb].
  destruct (contains "what is the medical disclaimer" q); [eexists; reflexivity|].
  destruct (contains "medication" q); [eexists; reflexivity|].
  destruct (contains "drug" q); [eexists; reflexivity|].
  destruct (contains "supplements" q); [eexists; reflexivity|].
  destruct (contains "diabetes" q); [eexists; reflexivity|].
  destruct (contains "blood sugar" q); [eexists; reflexivity|].
  destruct (contains "heart disease" q); [eexists; reflexivity|].
  destruct (contains "cardio" q); [eexists; reflexivity|].
  destruct (contains "blood pressure" q); [eexists; reflexivity|].
  destruct (contains "allergies" q); [eexists; reflexivity|].
  destruct (contains "intolerance" q); [eexists; reflexivity|].
  discriminate.
Qed.

(** X19.  [clear_inputs] makes the chatbot forget the profile and the water:
    after it, a plan query is answered by the request to calculate the BMI
    first, a report query by the notice that no metrics are available, and
    the water status reports 0 ml with the whole goal left. *)
Theorem cleared_profile_is_forgotten (query : string) (s : App) :
  mentions water_keywords query = false ->
  let s' := clear_inputs s in
  (mentions plan_keywords query = true ->
   get_rule_based_response query s'
   = Some "I need your personal metrics first! Please go to the 'BMI Calculator' tab, calculate your BMI, and then check the 'Health Planner' tab. Once that's done, I can give you personalized advice!")
  /\ (mentions plan_keywords query = false ->
      mentions report_keywords query = true ->
      get_rule_based_response query s'
      = Some ("Here is your latest summary:" ++ nl
              ++ "No recent health metrics are available. Please calculate your BMI first."))
  /\ water_status s'
     = "You've logged **0ml** so far against a goal of **2500ml**. That means you need about **2500ml** more today. Keep sipping!".
Proof.
  unfold mentions, water_keywords, plan_keywords, report_keywords.
  cbn [existsb]. intros Hw. cbv zeta.
  destruct (clear_inputs_frame s) as (_ & _ & Hnone).
  pose proof (water_clear_inputs s) as Hzero.
  set (s' := clear_inputs s) in *. clearbody s'.
  set (q := lower query) in *.
  assert (Hresp : get_rule_based_response query s'
                  = if (contains "diet plan" q || contains "my goals" q
                        || contains "my plan" q)%bool
                    then Some (plan_advice s')
                    else if (contains "my health report" q || contains "my metrics" q)%bool
                         then option_map
                                (fun report => "Here is your latest summary:" ++ nl ++ report)
                                (get_personalized_health_report s')
                         else get_rule_based_response query s').
  { unfold get_rule_based_response. fold q.
    split_false Hw.
    repeat match goal with
           | H : contains _ q = false |- _ => rewrite H; clear H
           end.
    cbn [orb].
    destruct (contains "diet plan" q || contains "my goals" q || contains "my plan" q)%bool;
      [reflexivity|].
    destruct (contains "my health report" q || contains "my metrics" q)%bool;
      reflexivity. }
  clearbody q.
  split; [|split].
  - intro Hp. rewrite orb_false_r in Hp. rewrite !orb_assoc in Hp.
    rewrite Hresp, Hp. unfold plan_advice. rewrite Hnone. reflexivity.
  - intros Hp Hr. rewrite orb_false_r in Hp, Hr. rewrite !orb_assoc in Hp.
    rewrite Hresp, Hp, Hr. unfold get_personalized_health_report.
    rewrite Hnone. reflexivity.
  - unfold water_status. rewrite Hzero. reflexivity.
Qed.

End QueryFacts.

(** ** Meal suggestions *)

Section MealFacts.

Lemma not_in_options (diet : string) :
  ~ In diet DIET_OPTIONS ->
  String.eqb "Omnivore" diet = false
  /\ String.eqb "Vegetarian" diet = false
  /\ String.eqb "Vegan" diet = false.
Proof.
  unfold DIET_OPTIONS. simpl In. intro Hnot.
  repeat split; apply String.eqb_neq; intro Heq; apply Hnot; auto.
Qed.

(** X20.  A diet that is none of the three options gets the suggestions of
    Omnivore under a heading that names the diet as given; and whatever the
    diet, the plan has the meals Breakfast, Lunch and Dinner, in this order,
    with two suggestions each. *)
Theorem meal_plan_shape (inputs : Inputs) :
  let diet := inp_diet inputs in
  let goal := inp_goal inputs in
  (~ In diet DIET_OPTIONS ->
   meals_of_diet diet = meals_of_diet "Omnivore"
   /\ generate_meal_suggestions inputs
      = String.concat ""
          (String.concat "" ["Meal Suggestions for: **"; diet; "** Diet ("; goal; ")"; nl]
           :: List.flat_map (meal_pieces goal) (meals_of_diet "Omnivore")))
  /\ List.map fst (meals_of_diet diet) = ["Breakfast"; "Lunch"; "Dinner"]
  /\ List.map (fun meal => List.length (snd meal)) (meals_of_diet diet)
     = [2; 2; 2]%nat
  /\ List.length (List.flat_map (meal_pieces goal) (meals_of_diet diet)) = 9%nat.
Proof.
  cbv zeta. split.
  - intro Hnot. destruct (not_in_options _ Hnot) as (H1 & H2 & H3).
    assert (Hmeals : meals_of_diet (inp_diet inputs) = meals_of_diet "Omnivore").
    { unfold meals_of_diet, base_meals. cbn [dict_get]. rewrite H1, H2, H3.
      reflexivity. }
    split; [exact Hmeals|].
    unfold generate_meal_suggestions. rewrite Hmeals. reflexivity.
  - unfold meals_of_diet, base_meals. cbn [dict_get].
    destruct (String.eqb "Omnivore" (inp_diet inputs)); [repeat split|].
    destruct (String.eqb "Vegetarian" (inp_diet inputs)); [repeat split|].
    destruct (String.eqb "Vegan" (inp_diet inputs)); repeat split.
Qed.

End MealFacts.

(** ** History chart *)

Section ChartFacts.

Open Scope Q_scope.

Lemma list_min_le (rest : list Q) (x : Q) :
  list_min x rest <= x /\ forall v, In v rest -> list_min x rest <= v.
Proof.
  revert x. induction rest as [|a rest IH]; intro x; unfold list_min; simpl.
  - split; [apply Qle_refl | intros v []].
  - fold (list_min (if ltb a x then a else x) rest).
    destruct (IH (if ltb a x then a else x)) as [Hacc Hrest].
    assert (Hstep : (if ltb a x then a else x) <= x /\ (if ltb a x then a else x) <= a).
    { destruct (ltb a x) eqn:E; [apply ltb_iff in E | apply ltb_false_iff in E];
        split; lra. }
    destruct Hstep as [Hx Ha].
    split; [lra|].
    intros v [<- | Hin]; [lra | apply Hrest, Hin].
Qed.

Lemma list_max_ge (rest : list Q) (x : Q) :
  x <= list_max x rest /\ forall v, In v rest -> v <= list_max x rest.
Proof.
  revert x. induction rest as [|a rest IH]; intro x; unfold list_max; simpl.
  - split; [apply Qle_refl | intros v []].
  - fold (list_max (if ltb x a then a else x) rest).
    destruct (IH (if ltb x a then a else x)) as [Hacc Hrest].
    assert (Hstep : x <= (if ltb x a then a else x) /\ a <= (if ltb x a then a else x)).
    { destruct (ltb x a) eqn:E; [apply ltb_iff in E | apply ltb_false_iff in E];
        split; lra. }
    destruct Hstep as [Hx Ha].
    split; [lra|].
    intros v [<- | Hin]; [lra | apply Hrest, Hin].
Qed.

Lemma min2_le (a b : Q) : min2 a b <= a /\ min2 a b <= b.
Proof.
  unfold min2.
  destruct (ltb b a) eqn:E; [apply ltb_iff in E | apply ltb_false_iff in E];
    split; lra.
Qed.

Lemma max2_ge (a b : Q) : a <= max2 a b /\ b <= max2 a b.
Proof.
  unfold max2.
  destruct (ltb a b) eqn:E; [apply ltb_iff in E | apply ltb_false_iff in E];
    split; lra.
Qed.

Lemma fifth (x : Q) : x / 5 == x * (1 # 5).
Proof. unfold Qdiv. reflexivity. Qed.

(** The scale covers the values and the band from 15 to 35. *)
Lemma scale_covers (first : Q) (rest : list Q) :
  (min_bmi first rest <= 15)%Z
  /\ (35 <= max_bmi first rest)%Z
  /\ forall v, In v (first :: rest) ->
               inject_Z (min_bmi first rest) <= v /\ v <= inject_Z (max_bmi first rest).
Proof.
  unfold min_bmi, max_bmi.
  destruct (list_min_le rest first) as [Hm1 Hm2].
  destruct (list_max_ge rest first) as [HM1 HM2].
  destruct (min2_le 15 (list_min first rest)) as [Hlo1 Hlo2].
  destruct (max2_ge 35 (list_max first rest)) as [Hhi1 Hhi2].
  set (lo := min2 15 (list_min first rest)) in *.
  set (hi := max2 35 (list_max first rest)) in *.
  pose proof (Qfloor_le (lo / 5)) as Hfloor.
  pose proof (Qle_ceiling (hi / 5)) as Hceil.
  pose proof (fifth lo) as Hlo5. pose proof (fifth hi) as Hhi5.
  assert (Hf3 : (Qfloor (lo / 5) <= 3)%Z).
  { rewrite <- (Qfloor_Z 3). apply Qfloor_resp_le.
    change (inject_Z 3) with 3. lra. }
  assert (Hc7 : (7 <= Qceiling (hi / 5))%Z).
  { rewrite <- (Qceiling_Z 7). apply Qceiling_resp_le.
    change (inject_Z 7) with 7. lra. }
  split; [lia|]. split; [lia|].
  intros v Hin.
  rewrite !inject_Z_mult. change (inject_Z 5) with 5.
  assert (Hv : list_min first rest <= v /\ v <= list_max first rest).
  { destruct Hin as [<- | Hin]; split; auto. }
  destruct Hv as [Hv1 Hv2].
  set (f := inject_Z (Qfloor (lo / 5))) in *.
  set (c := inject_Z (Qceiling (hi / 5))) in *.
  set (lo5 := lo / 5) in *. set (hi5 := hi / 5) in *.
  clearbody f c lo5 hi5. split; lra.
Qed.

Lemma map_y_inside (lo hi : Z) (v : Q) :
  (lo + 20 <= hi)%Z ->
  inject_Z lo <= v -> v <= inject_Z hi ->
  30 <= map_y lo (hi - lo) v /\ map_y lo (hi - lo) v <= 220.
Proof.
  intros Hrange Hlo Hhi. unfold map_y.
  destruct (Z.eqb_spec (hi - lo) 0) as [Hz | _]; [exfalso; lia|].
  assert (Hpos : 0 < inject_Z (hi - lo)).
  { change 0 with (inject_Z 0). rewrite <- Zlt_Qlt. lia. }
  assert (Hsub : inject_Z (hi - lo) == inject_Z hi - inject_Z lo).
  { unfold Z.sub. rewrite inject_Z_plus, inject_Z_opp. ring. }
  assert (H0 : 0 <= (v - inject_Z lo) / inject_Z (hi - lo)).
  { apply Qle_shift_div_l; [exact Hpos | lra]. }
  assert (H1 : (v - inject_Z lo) / inject_Z (hi - lo) <= 1).
  { apply Qle_shift_div_r; [exact Hpos | lra]. }
  set (t := (v - inject_Z lo) / inject_Z (hi - lo)) in *. clearbody t.
  split; lra.
Qed.

Lemma x_inside (i n : nat) :
  (i < n)%nat ->
  30 <= 30 + inject_Z (Z.of_nat i) * x_step n
  /\ 30 + inject_Z (Z.of_nat i) * x_step n <= 450.
Proof.
  intro Hi. unfold x_step.
  set (k := Z.max 1 (Z.of_nat n - 1)).
  assert (Hk : (1 <= k)%Z) by (subst k; lia).
  assert (Hik : (Z.of_nat i <= k)%Z) by (subst k; lia).
  assert (Hi0 : (0 <= Z.of_nat i)%Z) by lia.
  rewrite Zle_Qle in Hk, Hik, Hi0.
  change (inject_Z 1) with 1 in Hk. change (inject_Z 0) with 0 in Hi0.
  set (a := inject_Z (Z.of_nat i)) in *. set (b := inject_Z k) in *.
  clearbody a b.
  assert (Hb : 0 < b) by lra.
  assert (Heq : a * ((480 - 2 * 30) / b) == (a * 420) / b) by (field; lra).
  rewrite Heq.
  assert (H0 : 0 <= a * 420 / b) by (apply Qle_shift_div_l; [exact Hb | lra]).
  assert (H1 : a * 420 / b <= 420) by (apply Qle_shift_div_r; [exact Hb | lra]).
  set (t := a * 420 / b) in *. clearbody t.
  split; lra.
Qed.

(** Where the ovals of [draw_chart] come from. *)
Lemma chart_ovals (data : list HistoryRecord) (x1 y1 x2 y2 : Q)
      (fill outline : option string) (width : option Z) :
  In (create_oval x1 y1 x2 y2 fill outline width) (draw_chart data) ->
  exists first_item rest_items i bmi,
    data = first_item :: rest_items
    /\ (i < List.length data)%nat
    /\ In bmi (List.map rec_bmi data)
    /\ let lo := min_bmi (rec_bmi first_item) (List.map rec_bmi rest_items) in
       let hi := max_bmi (rec_bmi first_item) (List.map rec_bmi rest_items) in
       let x := 30 + inject_Z (Z.of_nat i) * x_step (List.length data) in
       let y := map_y lo (hi - lo) bmi in
       x1 = x - 4 /\ y1 = y - 4 /\ x2 = x + 4 /\ y2 = y + 4
       /\ fill = Some (point_color bmi).
Proof.
  destruct data as [|first_item rest_items].
  { simpl. intros [H | []]. discriminate. }
  unfold draw_chart. cbv zeta. intro Hin.
  rewrite !in_app_iff in Hin.
  destruct Hin as [Hin | [Hin | [Hin | [Hin | Hin]]]].
  - simpl in Hin. destruct Hin as [H | []]. discriminate.
  - apply in_flat_map in Hin. destruct Hin as (i & _ & Hin).
    simpl in Hin. destruct Hin as [H | [H | []]]; discriminate.
  - simpl in Hin. destruct Hin as [H | [H | [H | []]]]; discriminate.
  - apply in_flat_map in Hin. destruct Hin as ([i [bmi date]] & Hcomb & Hin).
    pose proof (in_combine_l _ _ _ _ Hcomb) as Hi.
    pose proof (in_combine_r _ _ _ _ Hcomb) as Hpair.
    pose proof (in_combine_l _ _ _ _ Hpair) as Hbmi.
    apply in_seq in Hi. cbn [List.length] in Hi. rewrite length_map in Hi.
    destruct Hin as [Heq | Hin].
    + injection Heq as <- <- <- <- <-.
      exists first_item, rest_items, i, bmi.
      split; [reflexivity|].
      split; [cbn [List.length]; lia|].
      split; [exact Hbmi|].
      cbv zeta. cbn [List.length]. rewrite length_map.
      repeat split.
    + destruct (Nat.eqb (i mod 2) 0 || _)%bool; simpl in Hin;
        [destruct Hin as [H | []]; discriminate | destruct Hin].
  - destruct (1 <? _)%nat; simpl in Hin; [destruct Hin as [H | []]; discriminate|].
    destruct Hin.
Qed.

(** X21. The chart of the history never draws a point outside its frame:
    every oval it draws has radius 4, its centre lies in the frame from
    (30, 30) to (450, 220), and it is filled with the colour of the BMI of
    a record of the history.  (The scale spans 20 BMI units or more, so the
    division by its width is defined.) *)
Theorem chart_points_inside_frame (data : list HistoryRecord) (x1 y1 x2 y2 : Q)
        (fill outline : option string) (width : option Z) :
  In (create_oval x1 y1 x2 y2 fill outline width) (draw_chart data) ->
  exists x y bmi,
    In bmi (List.map rec_bmi data)
    /\ x1 = x - 4 /\ y1 = y - 4 /\ x2 = x + 4 /\ y2 = y + 4
    /\ 30 <= x /\ x <= 450 /\ 30 <= y /\ y <= 220
    /\ fill = Some (point_color bmi).
Proof.
  intro Hin.
  destruct (chart_ovals _ _ _ _ _ _ _ _ Hin)
    as (first_item & rest_items & i & bmi & Hdata & Hi & Hbmi & Hx1 & Hy1 & Hx2 & Hy2 & Hfill).
  destruct (scale_covers (rec_bmi first_item) (List.map rec_bmi rest_items))
    as (Hlo & Hhi & Hcover).
  assert (Hv : In bmi (rec_bmi first_item :: List.map rec_bmi rest_items)).
  { rewrite Hdata in Hbmi. exact Hbmi. }
  destruct (Hcover bmi Hv) as [Hge Hle].
  destruct (x_inside i (List.length data) Hi) as [Hxa Hxb].
  assert (Hrange : (min_bmi (rec_bmi first_item) (List.map rec_bmi rest_items) + 20
                    <= max_bmi (rec_bmi first_item) (List.map rec_bmi rest_items))%Z)
    by lia.
  destruct (map_y_inside _ _ bmi Hrange Hge Hle) as [Hya Hyb].
  eexists _, _, bmi.
  split; [exact Hbmi|].
  split; [exact Hx1|]. split; [exact Hy1|]. split; [exact Hx2|]. split; [exact Hy2|].
  split; [exact Hxa|]. split; [exact Hxb|]. split; [exact Hya|]. split; [exact Hyb|].
  exact Hfill.
Qed.

End ChartFacts.

(** ** History window *)

Section HistoryWindowFacts.

Context {builtins : PyBuiltins}.

Open Scope Q_scope.

Lemma round_of_integer (m : Z) : round (inject_Z m) = m.
Proof.
  unfold round. rewrite Qfloor_Z.
  destruct (Qcompare_spec (inject_Z m - inject_Z m) (1 # 2)) as [H | H | H];
    [exfalso; lra | reflexivity | exfalso; lra].
Qed.

Lemma round_nonneg (x : Q) : 0 <= x -> (0 <= round x)%Z.
Proof.
  intro Hx. destruct (round_error x) as [Hlo _].
  assert (Hgt : inject_Z (-1) < inject_Z (round x)).
  { change (inject_Z (-1)) with (-1). lra. }
  rewrite <- Zlt_Qlt in Hgt. lia.
Qed.

(** The history list and the result card print the same BMI. *)
Lemma format_round2 (b : Q) : 0 <= b -> format_f 2 (round2 b) = format_f 2 b.
Proof.
  intro Hb.
  assert (Hm : (0 <= round (b * 100))%Z).
  { apply round_nonneg. lra. }
  assert (Hr : 0 <= round2 b).
  { unfold round2. rewrite Zle_Qle in Hm. change (inject_Z 0) with 0 in Hm.
    apply Qle_shift_div_l; [reflexivity | lra]. }
  unfold format_f.
  change (10 ^ Z.of_nat 2)%Z with 100%Z. change (inject_Z 100) with 100.
  assert (H1 : round (Qabs (round2 b) * 100) = round (b * 100)).
  { transitivity (round (inject_Z (round (b * 100)))); [|apply round_of_integer].
    apply round_comp. rewrite (Qabs_pos _ Hr). unfold round2. field. }
  assert (H2 : round (Qabs b * 100) = round (b * 100)).
  { apply round_comp. rewrite (Qabs_pos _ Hb). reflexivity. }
  rewrite H1, H2.
  destruct (Qlt_le_dec (round2 b) 0) as [Hneg | _];
    [exfalso; apply (Qlt_not_le _ _ Hneg Hr)|].
  destruct (Qlt_le_dec b 0) as [Hneg | _];
    [exfalso; apply (Qlt_not_le _ _ Hneg Hb)|].
  reflexivity.
Qed.

Lemma history_listbox_snoc (s : App) (older : list HistoryRecord) (record : HistoryRecord) :
  history s = (older ++ [record])%list ->
  history_listbox s
  = "Date      | BMI  | Category      | Weight"
    :: "----------|------|---------------|--------"
    :: history_line record :: List.map history_line (List.rev older).
Proof.
  intro Hh. unfold history_listbox. rewrite Hh.
  destruct (older ++ [record])%list as [|h t] eqn:E.
  - apply app_eq_nil in E. destruct E as [_ E]. discriminate.
  - rewrite <- E, rev_unit. reflexivity.
Qed.

(** X22.  The history window lists the newest record first: after an
    accepted form was calculated, the list has the two heading rows, then
    the row of the new record, then the older records from new to old; and
    the new row shows the date of the calculation and the same BMI and
    category as the result card. *)
Theorem history_window_newest_first (now : string) (io_ok : bool) (s s1 : App)
        (inputs : Inputs) :
  validate_and_get_inputs s = (s1, Some inputs) ->
  let s' := calculate_bmi_gui now io_ok s in
  exists record older,
    history s' = (older ++ [record])%list
    /\ window_listbox (show_history s')
       = "Date      | BMI  | Category      | Weight"
         :: "----------|------|---------------|--------"
         :: history_line record :: List.map history_line (List.rev older)
    /\ history_line record
       = String.concat ""
           [before_space now; " | "; text (bmi_value_label (card s')); " | ";
            ljust 14 (text (category_label (card s'))); " | ";
            ljust 6 (before_space (rec_weight record))]
    /\ List.length (window_listbox (show_history s'))
       = (List.length (history s') + 2)%nat.
Proof.
  intro Hval. cbv zeta.
  destruct (accepted_result now io_ok s s1 inputs Hval)
    as (bmi & _ & Hpos & _ & Hbmi_text & Hcat_text & _ & _ & Hhist & _).
  set (s' := calculate_bmi_gui now io_ok s) in *. clearbody s'.
  change 20%nat with (S 19) in Hhist. rewrite last_n_snoc in Hhist.
  eexists _, (last_n 19 (history s)).
  split; [exact Hhist|].
  assert (Hbox := history_listbox_snoc s' _ _ Hhist).
  split; [exact Hbox|].
  split.
  - unfold history_line, new_record.
    rewrite Hbmi_text, Hcat_text.
    destruct (String.eqb _ "metric"); cbn [rec_date rec_bmi rec_category rec_weight];
      rewrite (format_round2 bmi (Qlt_le_weak _ _ Hpos)); reflexivity.
  - cbn [window_listbox show_history]. rewrite Hbox, Hhist.
    cbn [List.length]. rewrite length_map, length_rev, length_app.
    cbn [List.length]. lia.
Qed.

End HistoryWindowFacts.


(** ** Views *)

Section ViewFacts.

Context {builtins : PyBuiltins}.

Local Open Scope list_scope.

Lemma play_invariant (P : Session -> Prop) :
  (forall a c, P c -> P (act a c)) ->
  forall actions c, P c -> P (play actions c).
Proof.
  intros Hstep actions. induction actions as [|a rest IH]; intros c Hc; simpl.
  - exact Hc.
  - apply IH, Hstep, Hc.
Qed.

Lemma play_app (xs ys : list Action) (c : Session) :
  play (xs ++ ys) c = play ys (play xs c).
Proof.
  revert c. induction xs as [|a xs IH]; intro c; simpl; [reflexivity|apply IH].
Qed.

(** *** What each method leaves alone *)

Lemma beside_parts (c' c : Session) :
  beside_display c' = beside_display c ->
  core c' = core c
  /\ chat_control c' = chat_control c
  /\ planner_view c' = planner_view c
  /\ nav_view c' = nav_view c
  /\ chat_history c' = chat_history c
  /\ chatbot_input c' = chatbot_input c
  /\ initial_message_sent c' = initial_message_sent c
  /\ files c' = files c.
Proof. unfold beside_display. intro H. repeat split; congruence. Qed.

Lemma display_insert_beside (t : string) (tags : list string) (c : Session) :
  beside_display (display_insert t tags c) = beside_display c.
Proof. reflexivity. Qed.

Lemma insert_initial_suggestions_beside (c : Session) :
  beside_display (insert_initial_suggestions c) = beside_display c.
Proof.
  unfold insert_initial_suggestions. cbv zeta.
  rewrite display_insert_beside.
  match goal with
  | |- beside_display (fold_left ?f ?l ?acc) = _ =>
      assert (Hfold : forall xs a, beside_display (fold_left f xs a) = beside_display a)
  end.
  { induction xs as [|[d q] xs IH]; intro a; [reflexivity|].
    cbn [fold_left]. rewrite IH, !display_insert_beside. reflexivity. }
  rewrite Hfold, !display_insert_beside. reflexivity.
Qed.

Lemma show_frame_frame (page_name : string) (c : Session) :
  core (show_frame page_name c) = core c
  /\ chat_control (show_frame page_name c) = chat_control c
  /\ planner_view (show_frame page_name c) = planner_view c
  /\ chat_history (show_frame page_name c) = chat_history c
  /\ chatbot_input (show_frame page_name c) = chatbot_input c
  /\ files (show_frame page_name c) = files c.
Proof.
  unfold show_frame. cbv zeta.
  repeat match goal with
         | |- context [if ?b then _ else _] => destruct b
         end;
    try (match goal with
         | |- context [insert_initial_suggestions ?x] =>
             destruct (beside_parts _ _ (insert_initial_suggestions_beside x))
               as (H1 & H2 & H3 & _ & H5 & H6 & _ & H8)
         end;
         repeat split;
         first [exact H1 | exact H2 | exact H3 | exact H5 | exact H6 | exact H8]);
    repeat split.
Qed.

Lemma send_message_frame (c : Session) :
  core (send_message c) = core c
  /\ planner_view (send_message c) = planner_view c
  /\ nav_view (send_message c) = nav_view c
  /\ files (send_message c) = files c.
Proof.
  unfold send_message, clear_chatbot_input. cbv zeta.
  repeat match goal with
         | |- context [if ?b then _ else _] => destruct b
         end;
    repeat split.
Qed.

Lemma worker_returns_frame (k : nat) (c : Session) :
  core (worker_returns k c) = core c
  /\ planner_view (worker_returns k c) = planner_view c
  /\ nav_view (worker_returns k c) = nav_view c
  /\ files (worker_returns k c) = files c
  /\ chat_history (worker_returns k c) = chat_history c
  /\ chatbot_display (worker_returns k c) = chatbot_display c
  /\ chatbot_input (worker_returns k c) = chatbot_input c
  /\ chatbot_is_loading (worker_returns k c) = chatbot_is_loading c
  /\ chatbot_input_enabled (worker_returns k c) = chatbot_input_enabled c.
Proof.
  unfold worker_returns.
  destruct (nth_error (workers c) k) as [[query|bot_response]|]; [|repeat split..].
  destruct (simulate_api_call query c); repeat split.
Qed.

Lemma run_callback_frame (k : nat) (c : Session) :
  core (run_callback k c) = core c
  /\ planner_view (run_callback k c) = planner_view c
  /\ nav_view (run_callback k c) = nav_view c
  /\ files (run_callback k c) = files c
  /\ chatbot_input (run_callback k c) = chatbot_input c.
Proof.
  unfold run_callback.
  destruct (nth_error (workers c) k) as [[query|bot_response]|]; repeat split.
Qed.

Lemma save_chatbot_history_frame (now file_path : string) (io_error : option string)
      (c : Session) :
  chat_control (save_chatbot_history now file_path io_error c) = chat_control c
  /\ planner_view (save_chatbot_history now file_path io_error c) = planner_view c
  /\ nav_view (save_chatbot_history now file_path io_error c) = nav_view c
  /\ chat_history (save_chatbot_history now file_path io_error c) = chat_history c
  /\ chatbot_display (save_chatbot_history now file_path io_error c) = chatbot_display c
  /\ chatbot_input (save_chatbot_history now file_path io_error c) = chatbot_input c
  /\ current_inputs (core (save_chatbot_history now file_path io_error c))
     = current_inputs (core c).
Proof.
  unfold save_chatbot_history.
  destruct (chat_history c) eqn:Hh; [repeat split; exact Hh|].
  destruct (String.eqb file_path ""); [repeat split; exact Hh|].
  destruct io_error; repeat split; exact Hh.
Qed.

Lemma export_plan_frame (text_content file_path : string) (io_error : option string)
      (c : Session) :
  chat_control (export_plan text_content file_path io_error c) = chat_control c
  /\ planner_view (export_plan text_content file_path io_error c) = planner_view c
  /\ nav_view (export_plan text_content file_path io_error c) = nav_view c
  /\ chat_history (export_plan text_content file_path io_error c) = chat_history c
  /\ chatbot_display (export_plan text_content file_path io_error c) = chatbot_display c
  /\ chatbot_input (export_plan text_content file_path io_error c) = chatbot_input c
  /\ current_inputs (core (export_plan text_content file_path io_error c))
     = current_inputs (core c).
Proof.
  unfold export_plan.
  destruct (String.eqb file_path ""); [repeat split|].
  destruct io_error; repeat split.
Qed.

Lemma view_plan_frame (c : Session) :
  chat_control (view_plan c) = chat_control c
  /\ chat_history (view_plan c) = chat_history c
  /\ chatbot_input (view_plan c) = chatbot_input c
  /\ files (view_plan c) = files c
  /\ current_inputs (core (view_plan c)) = current_inputs (core c).
Proof.
  unfold view_plan.
  destruct (current_inputs (core c)) as [inputs|] eqn:Hin; [|repeat split; exact Hin].
  match goal with
  | |- context [show_frame ?p ?x] =>
      destruct (show_frame_frame p x) as (H1 & H2 & _ & H4 & H5 & H6)
  end.
  rewrite H1, H2, H4, H5, H6. repeat split. exact Hin.
Qed.

Lemma clear_chatbot_history_frame (c : Session) :
  core (clear_chatbot_history c) = core c
  /\ chat_control (clear_chatbot_history c) = chat_control c
  /\ planner_view (clear_chatbot_history c) = planner_view c
  /\ chatbot_input (clear_chatbot_history c) = chatbot_input c
  /\ files (clear_chatbot_history c) = files c
  /\ chat_history (clear_chatbot_history c) = [].
Proof.
  unfold clear_chatbot_history. cbv zeta.
  match goal with
  | |- context [show_frame ?p ?x] =>
      destruct (show_frame_frame p x) as (H1 & H2 & H3 & H4 & H5 & H6)
  end.
  rewrite H1, H2, H3, H4, H5, H6. repeat split.
Qed.

(** The profile of the calculator after an action is the one before, or
    the one an event of the calculator leaves. *)
Lemma act_profile_complete (a : Action) (c : Session) :
  stored_profile_complete (core c) -> stored_profile_complete (core (act a c)).
Proof.
  intro Hc. destruct a as [e|t| | k | k | |now path err|page| |path err]; cbn [act].
  - cbn [core with_core]. apply handle_profile_complete, Hc.
  - destruct (chatbot_input_enabled c); exact Hc.
  - destruct (send_message_frame c) as (H & _). rewrite H. exact Hc.
  - destruct (worker_returns_frame k c) as (H & _). rewrite H. exact Hc.
  - destruct (run_callback_frame k c) as (H & _). rewrite H. exact Hc.
  - destruct (clear_chatbot_history_frame c) as (H & _). rewrite H. exact Hc.
  - destruct (save_chatbot_history_frame now path err c) as (_ & _ & _ & _ & _ & _ & H).
    unfold stored_profile_complete in *. rewrite H. exact Hc.
  - destruct (show_frame_frame page c) as (H & _). rewrite H. exact Hc.
  - destruct (view_plan_frame c) as (_ & _ & _ & _ & H).
    unfold stored_profile_complete in *. rewrite H. exact Hc.
  - destruct (export_btn c); [|exact Hc].
    destruct (export_plan_frame (plan_text_widget c ++ nl) path err c)
      as (_ & _ & _ & _ & _ & _ & H).
    unfold stored_profile_complete in *. rewrite H. exact Hc.
Qed.

Lemma init_session_frame (file : FileState) :
  core (init_session file) = init_app file
  /\ chat_control (init_session file) = ([], false, true)
  /\ planner_view (init_session file) = (""%string, ""%string, [], false)
  /\ chat_history (init_session file) = []
  /\ chatbot_input (init_session file) = ""%string
  /\ files (init_session file) = [].
Proof.
  unfold init_session.
  match goal with
  | |- context [show_frame ?p ?x] =>
      destruct (show_frame_frame p x) as (H1 & H2 & H3 & H4 & H5 & H6)
  end.
  rewrite H1, H2, H3, H4, H5, H6. repeat split.
Qed.


(** *** One request at a time *)

Lemma single_flight_control (c' c : Session) :
  chat_control c' = chat_control c -> single_flight c -> single_flight c'.
Proof.
  unfold chat_control, single_flight. intros H Hc.
  assert (Hw : workers c' = workers c) by congruence.
  assert (Hl : chatbot_is_loading c' = chatbot_is_loading c) by congruence.
  assert (He : chatbot_input_enabled c' = chatbot_input_enabled c) by congruence.
  rewrite Hw, Hl, He. exact Hc.
Qed.

Lemma send_message_control (c : Session) :
  chat_control (send_message c)
  = if String.eqb (strip (chatbot_input c)) "" || chatbot_is_loading c
    then chat_control c
    else (workers c ++ [Sleeping (strip (chatbot_input c))], true, false).
Proof.
  unfold send_message, clear_chatbot_input. cbv zeta.
  destruct (String.eqb (strip (chatbot_input c)) "" || chatbot_is_loading c);
    [reflexivity|].
  match goal with
  | |- context [if ?b then _ else _] => destruct b
  end; reflexivity.
Qed.

Lemma short_list {A : Type} (l : list A) :
  (List.length l <= 1)%nat -> l = [] \/ exists x, l = [x].
Proof.
  destruct l as [|x [|y l]]; cbn [List.length]; intro H.
  - left. reflexivity.
  - right. exists x. reflexivity.
  - lia.
Qed.

Lemma nth_error_single {A : Type} (x y : A) (k : nat) :
  nth_error [x] k = Some y -> k = 0%nat /\ y = x.
Proof.
  destruct k as [|[|k]]; cbn [nth_error]; intro H; [|discriminate..].
  injection H as H. split; [reflexivity|symmetry; exact H].
Qed.

(** The steps of the one worker there can be. *)
Lemma worker_returns_workers (k : nat) (c : Session) :
  stored_profile_complete (core c) ->
  (List.length (workers c) <= 1)%nat ->
  workers (worker_returns k c) = workers c
  \/ exists query answer,
      k = 0%nat
      /\ workers c = [Sleeping query]
      /\ get_rule_based_response query (core c) = Some answer
      /\ workers (worker_returns k c) = [Scheduled answer].
Proof.
  intros Hp Hlen. unfold worker_returns.
  destruct (nth_error (workers c) k) as [[query|bot_response]|] eqn:Hk;
    [|left; reflexivity..].
  destruct (short_list _ Hlen) as [Hw|(w & Hw)].
  { rewrite Hw in Hk. destruct k; discriminate. }
  rewrite Hw in Hk. apply nth_error_single in Hk. destruct Hk as (-> & Hq).
  rewrite <- Hq in Hw.
  unfold simulate_api_call.
  pose proof (complete_profile_answers query (core c) Hp) as Hne.
  destruct (get_rule_based_response query (core c)) as [answer|] eqn:Ha;
    [|contradiction].
  right. exists query, answer.
  split; [reflexivity|]. split; [exact Hw|]. split; [exact Ha|].
  cbn [workers with_workers]. rewrite Hw. reflexivity.
Qed.

Lemma run_callback_control (k : nat) (c : Session) :
  (List.length (workers c) <= 1)%nat ->
  chat_control (run_callback k c) = chat_control c
  \/ exists answer,
      k = 0%nat
      /\ workers c = [Scheduled answer]
      /\ chat_control (run_callback k c) = ([], false, true).
Proof.
  intro Hlen. unfold run_callback.
  destruct (nth_error (workers c) k) as [[query|bot_response]|] eqn:Hk;
    [left; reflexivity| |left; reflexivity].
  destruct (short_list _ Hlen) as [Hw|(w & Hw)].
  { rewrite Hw in Hk. destruct k; discriminate. }
  rewrite Hw in Hk. apply nth_error_single in Hk. destruct Hk as (-> & Hq).
  rewrite <- Hq in Hw.
  right. exists bot_response.
  split; [reflexivity|]. split; [exact Hw|].
  unfold chat_control.
  cbn [workers chatbot_is_loading chatbot_input_enabled with_chat_history
       display_chatbot_message display_insert set_loading_state with_workers].
  rewrite Hw. reflexivity.
Qed.

Lemma act_single_flight (a : Action) (c : Session) :
  stored_profile_complete (core c) -> single_flight c -> single_flight (act a c).
Proof.
  intros Hp Hc.
  destruct a as [e|t| | k | k | |now path err|page| |path err]; cbn [act].
  - exact Hc.
  - destruct (chatbot_input_enabled c); exact Hc.
  - pose proof (send_message_control c) as Hs.
    destruct (String.eqb (strip (chatbot_input c)) "" || chatbot_is_loading c) eqn:Hb.
    + apply (single_flight_control _ c Hs Hc).
    + apply Bool.orb_false_iff in Hb. destruct Hb as (_ & Hl).
      destruct Hc as (Hlen & Hiff & Hen).
      assert (Hw : workers c = []).
      { destruct (workers c) as [|w ws] eqn:Ew; [reflexivity|].
        assert (Ht : chatbot_is_loading c = true) by (apply Hiff; discriminate).
        congruence. }
      rewrite Hw in Hs. cbn [app] in Hs.
      unfold single_flight, chat_control in *.
      assert (H1 : workers (send_message c) = [Sleeping (strip (chatbot_input c))])
        by congruence.
      assert (H2 : chatbot_is_loading (send_message c) = true) by congruence.
      assert (H3 : chatbot_input_enabled (send_message c) = false) by congruence.
      rewrite H1, H2, H3. cbn [List.length negb].
      split; [lia|]. split; [|reflexivity].
      split; [discriminate|reflexivity].
  - destruct (worker_returns_frame k c) as (_ & _ & _ & _ & _ & _ & _ & Hl & He).
    destruct Hc as (Hlen & Hiff & Hen).
    unfold single_flight. rewrite Hl, He.
    destruct (worker_returns_workers k c Hp Hlen)
      as [Hw|(query & answer & _ & Hw & _ & Hw')].
    + rewrite Hw. repeat split; try assumption; apply Hiff.
    + rewrite Hw'. rewrite Hw in Hiff. cbn [List.length].
      split; [lia|]. split; [|exact Hen].
      split; [discriminate|]. intros _. apply Hiff. discriminate.
  - destruct Hc as (Hlen & Hiff & Hen).
    destruct (run_callback_control k c Hlen) as [H|(answer & _ & _ & H)].
    + apply (single_flight_control _ c H). repeat split; try assumption; apply Hiff.
    + unfold single_flight, chat_control in *.
      assert (H1 : workers (run_callback k c) = []) by congruence.
      assert (H2 : chatbot_is_loading (run_callback k c) = false) by congruence.
      assert (H3 : chatbot_input_enabled (run_callback k c) = true) by congruence.
      rewrite H1, H2, H3. cbn [List.length negb].
      split; [lia|]. split; [|reflexivity].
      split; [discriminate|]. intro Hn. exfalso. apply Hn. reflexivity.
  - destruct (clear_chatbot_history_frame c) as (_ & H & _).
    apply (single_flight_control _ c H Hc).
  - destruct (save_chatbot_history_frame now path err c) as (H & _).
    apply (single_flight_control _ c H Hc).
  - destruct (show_frame_frame page c) as (_ & H & _).
    apply (single_flight_control _ c H Hc).
  - destruct (view_plan_frame c) as (H & _).
    apply (single_flight_control _ c H Hc).
  - destruct (export_btn c); [|exact Hc].
    destruct (export_plan_frame (plan_text_widget c ++ nl) path err c) as (H & _).
    apply (single_flight_control _ c H Hc).
Qed.

Lemma reachable_single_flight (file : FileState) (actions : list Action) :
  single_flight (play actions (init_session file)).
Proof.
  apply (play_invariant
           (fun c => stored_profile_complete (core c) /\ single_flight c)).
  - intros a c (Hp & Hc). split.
    + apply act_profile_complete, Hp.
    + apply act_single_flight; assumption.
  - split.
    + destruct (init_session_frame file) as (H & _). rewrite H.
      apply init_profile_complete.
    + destruct (init_session_frame file) as (_ & H & _).
      unfold single_flight, chat_control in *.
      assert (H1 : workers (init_session file) = []) by congruence.
      assert (H2 : chatbot_is_loading (init_session file) = false) by congruence.
      assert (H3 : chatbot_input_enabled (init_session file) = true) by congruence.
      rewrite H1, H2, H3. cbn [List.length negb].
      split; [lia|]. split; [|reflexivity].
      split; [discriminate|]. intro Hn. exfalso. apply Hn. reflexivity.
Qed.


(** *** One exchange *)







(** X25. While a request is in flight the chat takes no input: typing
    changes nothing, and neither does Send; Send does nothing either
    when the entry holds only blanks. *)
Theorem busy_chat_takes_no_input (file : FileState) (actions : list Action)
        (t : string) :
  let c := play actions (init_session file) in
  (workers c <> [] -> act (TypeChat t) c = c /\ act PressSend c = c)
  /\ (strip (chatbot_input c) = ""%string -> act PressSend c = c).
Proof.
  intro c.
  pose proof (reachable_single_flight file actions) as (Hlen & Hiff & Hen).
  fold c in Hlen, Hiff, Hen.
  split.
  - intro Hw. apply Hiff in Hw. rewrite Hw in Hen. cbn [negb] in Hen.
    cbn [act]. rewrite Hen. split; [reflexivity|].
    unfold send_message. rewrite Hw, Bool.orb_true_r. reflexivity.
  - intro Hb. cbn [act]. unfold send_message. rewrite Hb. reflexivity.
Qed.


(** *** Planner *)





(** *** Navigation *)

Lemma existsb_names (p : string) (l : list (string * (string * string))) :
  existsb (fun '(name, _) => String.eqb name p) l
  = existsb (fun name => String.eqb name p) (List.map fst l).
Proof.
  induction l as [|[name style] l IH]; [reflexivity|].
  cbn [existsb List.map fst]. rewrite IH. reflexivity.
Qed.

Lemma map_fst_kept {A B : Type} (f : A * B -> A * B) (l : list (A * B)) :
  (forall x, fst (f x) = fst x) -> List.map fst (List.map f l) = List.map fst l.
Proof.
  intro Hf. induction l as [|x l IH]; [reflexivity|].
  cbn [List.map]. rewrite Hf, IH. reflexivity.
Qed.

Lemma with_initial_message_sent_nav (b : bool) (c : Session) :
  nav_view (with_initial_message_sent b c) = nav_view c.
Proof. reflexivity. Qed.

Lemma show_frame_nav_view (page_name : string) (c : Session) :
  List.map fst (nav_buttons c) = ["Calculator"; "Planner"; "Chatbot"]%string ->
  nav_view (show_frame page_name c)
  = if String.eqb page_name "Calculator"
    then ("Calculator"%string, Some ReturnCalculates,
          ["Calculator"; "Planner"; "Chatbot"]%string)
    else if String.eqb page_name "Chatbot"
    then ("Chatbot"%string, Some ReturnSends,
          ["Calculator"; "Planner"; "Chatbot"]%string)
    else if String.eqb page_name "Planner"
    then ("Planner"%string, None, ["Calculator"; "Planner"; "Chatbot"]%string)
    else nav_view c.
Proof.
  intro Hn. unfold show_frame. cbv zeta.
  rewrite existsb_names, Hn. cbn [existsb].
  rewrite (String.eqb_sym "Calculator" page_name),
          (String.eqb_sym "Planner" page_name),
          (String.eqb_sym "Chatbot" page_name).
  match goal with
  | |- context [List.map ?f (nav_buttons c)] =>
      assert (Hm : List.map fst (List.map f (nav_buttons c))
                   = ["Calculator"; "Planner"; "Chatbot"]%string)
  end.
  { rewrite map_fst_kept; [exact Hn|].
    intros [name style]. destruct (String.eqb name page_name); reflexivity. }
  destruct (String.eqb_spec page_name "Calculator") as [E1|N1].
  { cbn [orb negb]. rewrite ?Bool.orb_true_r. cbn [orb negb]. unfold nav_view.
    cbn [active_frame return_key nav_buttons with_return_key with_active_frame
         with_nav_buttons].
    rewrite Hm, E1. reflexivity. }
  destruct (String.eqb_spec page_name "Chatbot") as [E2|N2].
  { cbn [orb negb]. rewrite ?Bool.orb_true_r. cbn [orb negb].
    match goal with
    | |- context [if ?b then _ else _] => destruct b
    end.
    - match goal with
      | |- context [insert_initial_suggestions ?x] =>
          destruct (beside_parts _ _ (insert_initial_suggestions_beside x))
            as (_ & _ & _ & H4 & _)
      end.
      rewrite with_initial_message_sent_nav, H4.
      unfold nav_view.
      cbn [active_frame return_key nav_buttons with_return_key with_active_frame
           with_nav_buttons].
      rewrite Hm, E2. reflexivity.
    - unfold nav_view.
      cbn [active_frame return_key nav_buttons with_return_key with_active_frame
           with_nav_buttons].
      rewrite Hm, E2. reflexivity. }
  destruct (String.eqb_spec page_name "Planner") as [E3|N3].
  { cbn [orb negb]. rewrite ?Bool.orb_true_r. cbn [orb negb]. unfold nav_view.
    cbn [active_frame return_key nav_buttons with_return_key with_active_frame
         with_nav_buttons].
    rewrite Hm, E3. reflexivity. }
  cbn [orb negb]. unfold nav_view.
  cbn [active_frame return_key nav_buttons with_nav_buttons].
  rewrite Hm, Hn. reflexivity.
Qed.

Lemma nav_view_keeps (c' c : Session) :
  nav_view c' = nav_view c -> return_follows_frame c -> return_follows_frame c'.
Proof.
  unfold nav_view, return_follows_frame. intros H Hc.
  assert (H1 : active_frame c' = active_frame c) by congruence.
  assert (H2 : return_key c' = return_key c) by congruence.
  assert (H3 : List.map fst (nav_buttons c') = List.map fst (nav_buttons c))
    by congruence.
  rewrite H1, H2, H3. exact Hc.
Qed.

Lemma show_frame_follows (page_name : string) (c : Session) :
  return_follows_frame c -> return_follows_frame (show_frame page_name c).
Proof.
  intro Hc. pose proof Hc as (Hn & _).
  pose proof (show_frame_nav_view page_name c Hn) as H.
  destruct (String.eqb page_name "Calculator");
    [|destruct (String.eqb page_name "Chatbot");
      [|destruct (String.eqb page_name "Planner")]].
  4: exact (nav_view_keeps _ c H Hc).
  all: unfold nav_view, return_follows_frame in *.
  all: match type of H with
       | (?a, ?b, ?d) = (?a', ?b', ?d') =>
           assert (H1 : a = a') by congruence;
           assert (H2 : b = b') by congruence;
           assert (H3 : d = d') by congruence
       end.
  all: rewrite H1, H2, H3; split; [reflexivity|].
  - left. split; reflexivity.
  - right. left. split; reflexivity.
  - right. right. split; reflexivity.
Qed.

Lemma act_follows (a : Action) (c : Session) :
  return_follows_frame c -> return_follows_frame (act a c).
Proof.
  intro Hc.
  destruct a as [e|t| | k | k | |now path err|page| |path err]; cbn [act].
  - exact Hc.
  - destruct (chatbot_input_enabled c); exact Hc.
  - destruct (send_message_frame c) as (_ & _ & H & _).
    apply (nav_view_keeps _ c H Hc).
  - destruct (worker_returns_frame k c) as (_ & _ & H & _).
    apply (nav_view_keeps _ c H Hc).
  - destruct (run_callback_frame k c) as (_ & _ & H & _).
    apply (nav_view_keeps _ c H Hc).
  - unfold clear_chatbot_history. cbv zeta. apply show_frame_follows. exact Hc.
  - destruct (save_chatbot_history_frame now path err c) as (_ & _ & H & _).
    apply (nav_view_keeps _ c H Hc).
  - apply show_frame_follows, Hc.
  - unfold view_plan.
    destruct (current_inputs (core c)); [|exact Hc].
    apply show_frame_follows. exact Hc.
  - destruct (export_btn c); [|exact Hc].
    destruct (export_plan_frame (plan_text_widget c ++ nl) path err c)
      as (_ & _ & H & _).
    apply (nav_view_keeps _ c H Hc).
Qed.

Lemma reachable_follows (file : FileState) (actions : list Action) :
  return_follows_frame (play actions (init_session file)).
Proof.
  apply (play_invariant return_follows_frame act_follows).
  unfold init_session.
  match goal with
  | |- return_follows_frame (show_frame ?p ?x) =>
      pose proof (show_frame_nav_view p x eq_refl) as H
  end.
  change (String.eqb "Calculator" "Calculator") with true in H. cbv iota in H.
  unfold nav_view, return_follows_frame in *.
  match type of H with
  | (?a, ?b, ?d) = (?a', ?b', ?d') =>
      assert (H1 : a = a') by congruence;
      assert (H2 : b = b') by congruence;
      assert (H3 : d = d') by congruence
  end.
  rewrite H1, H2, H3. split; [reflexivity|]. left. split; reflexivity.
Qed.

(** X28. The key Return always does what the visible frame is for: it
    calculates on the calculator, sends on the chatbot and is unbound on
    the planner; and the navigation bar keeps its three buttons. *)
Theorem return_key_follows_frame (file : FileState) (actions : list Action) :
  let c := play actions (init_session file) in
  List.map fst (nav_buttons c) = ["Calculator"; "Planner"; "Chatbot"]%string
  /\ ((active_frame c = "Calculator"%string /\ return_key c = Some ReturnCalculates)
      \/ (active_frame c = "Chatbot"%string /\ return_key c = Some ReturnSends)
      \/ (active_frame c = "Planner"%string /\ return_key c = None)).
Proof. exact (reachable_follows file actions). Qed.

(** *** Files *)





End ViewFacts.

(** * The further properties at work *)

Section FurtherInstances.

#[local] Existing Instance Decimal10.builtins.

Import Samples FurtherSamples.

Open Scope Q_scope.

Lemma imperial_filled_accepted :
  validate_and_get_inputs imperial_filled = (imperial_validated, Some imperial_accepted).
Proof. vm_compute. reflexivity. Defined.



Lemma history_cap_is_invariant_witness :
  file_within_cap (Stored full_history)
  /\ (List.length
        (history (run [EditForm metric_form; CallCalculateBmiGui "2026-01-01 10:00" true]
                      (init_app (Stored full_history)))) <= 20)%nat.
Proof.
  assert (Hcap : file_within_cap (Stored full_history)) by (vm_compute; lia).
  destruct (history_cap_is_invariant
              (Stored full_history)
              [EditForm metric_form; CallCalculateBmiGui "2026-01-01 10:00" true] Hcap)
    as (Hlen & _).
  split; [exact Hcap | exact Hlen].
Defined.


Lemma imperial_bmi_scale_witness :
  (0 < 150 /\ 0 < 71.6)
  /\ exists imperial metric,
      perform_calculation 150 71.6 "imperial" = Some imperial
      /\ perform_calculation (150 / 2.20462) (71.6 * 0.0254) "metric" = Some metric
      /\ imperial < metric.
Proof.
  assert (Hw : 0 < 150) by reflexivity.
  assert (Hh : 0 < 71.6) by reflexivity.
  destruct (imperial_bmi_scale 150 71.6 Hw Hh) as (imperial & metric & Hi & Hm & _ & _ & Hlt).
  split; [split; assumption|].
  exists imperial, metric. split; [exact Hi|]. split; assumption.
Defined.


Lemma planner_unit_invariance_witness :
  (inp_unit metric_profile = "metric"
   /\ inp_unit metric_in_imperial = "imperial"
   /\ inp_weight metric_in_imperial == inp_weight metric_profile * 2.20462
   /\ inp_height metric_in_imperial == inp_height metric_profile / 0.0254)
  /\ tdee metric_in_imperial == tdee metric_profile
  /\ prot_g metric_in_imperial = prot_g metric_profile
  /\ carb_g metric_in_imperial = carb_g metric_profile
  /\ fat_g metric_in_imperial = fat_g metric_profile.
Proof.
  assert (Hw : inp_weight metric_in_imperial == inp_weight metric_profile * 2.20462)
    by reflexivity.
  assert (Hh : inp_height metric_in_imperial == inp_height metric_profile / 0.0254)
    by reflexivity.
  destruct (planner_unit_invariance metric_profile metric_in_imperial
              eq_refl eq_refl Hw Hh eq_refl eq_refl eq_refl eq_refl)
    as (_ & Ht & _ & Hp & Hc & Hf).
  split; [split; [reflexivity | split; [reflexivity | split; assumption]]|].
  split; [exact Ht|]. split; [exact Hp|]. split; assumption.
Defined.

Lemma hour_to_x_stays_on_the_line_witness :
  9 <= 12
  /\ 20 <= hour_to_x 9
  /\ hour_to_x 9 <= hour_to_x 12
  /\ hour_to_x 12 <= 530.
Proof.
  assert (H : 9 <= 12) by discriminate.
  destruct (hour_to_x_stays_on_the_line 9 12 H) as (Hlo & _ & Hmono & _).
  assert (H' : 12 <= 12) by discriminate.
  destruct (hour_to_x_stays_on_the_line 12 12 H') as (_ & Hhi & _).
  split; [exact H|]. split; [exact Hlo|]. split; assumption.
Defined.

Lemma sensitive_answers_carry_disclaimer_witness :
  (mentions water_keywords "tell me about diabetes" = false
   /\ mentions plan_keywords "tell me about diabetes" = false
   /\ mentions report_keywords "tell me about diabetes" = false
   /\ mentions sensitive_keywords "tell me about diabetes" = true)
  /\ exists advice,
      get_rule_based_response "tell me about diabetes" imperial_session
      = Some (MEDICAL_DISCLAIMER ++ nl ++ nl ++ advice)%string.
Proof.
  assert (H1 : mentions water_keywords "tell me about diabetes" = false) by reflexivity.
  assert (H2 : mentions plan_keywords "tell me about diabetes" = false) by reflexivity.
  assert (H3 : mentions report_keywords "tell me about diabetes" = false) by reflexivity.
  assert (H4 : mentions sensitive_keywords "tell me about diabetes" = true) by reflexivity.
  split; [split; [exact H1 | split; [exact H2 | split; assumption]]|].
  exact (sensitive_answers_carry_disclaimer "tell me about diabetes" imperial_session
           H1 H2 H3 H4).
Defined.

Lemma cleared_profile_is_forgotten_witness :
  (mentions water_keywords "show my plan" = false
   /\ mentions plan_keywords "show my plan" = true)
  /\ get_rule_based_response "show my plan" (clear_inputs imperial_session)
     = Some "I need your personal metrics first! Please go to the 'BMI Calculator' tab, calculate your BMI, and then check the 'Health Planner' tab. Once that's done, I can give you personalized advice!"%string.
Proof.
  assert (H1 : mentions water_keywords "show my plan" = false) by reflexivity.
  assert (H2 : mentions plan_keywords "show my plan" = true) by reflexivity.
  pose proof (cleared_profile_is_forgotten "show my plan" imperial_session H1) as W.
  cbv zeta in W. destruct W as (Hplan & _).
  split; [split; assumption | exact (Hplan H2)].
Defined.

Lemma chart_points_inside_frame_witness :
  In (create_oval 26 (2990 # 20) 34 (3150 # 20)
                  (Some "#4CAF50"%string) (Some "white"%string) (Some 1%Z))
     (draw_chart two_records)
  /\ exists x y bmi,
      In bmi (List.map rec_bmi two_records)
      /\ 26 = x - 4 /\ (2990 # 20) = y - 4
      /\ 30 <= x /\ x <= 450 /\ 30 <= y /\ y <= 220
      /\ Some "#4CAF50"%string = Some (point_color bmi).
Proof.
  assert (Hin : In (create_oval 26 (2990 # 20) 34 (3150 # 20)
                                (Some "#4CAF50"%string) (Some "white"%string)
                                (Some 1%Z))
                   (draw_chart two_records)).
  { vm_compute. repeat (first [left; reflexivity | right]). }
  destruct (chart_points_inside_frame two_records _ _ _ _ _ _ _ Hin)
    as (x & y & bmi & Hb & Hx1 & Hy1 & _ & _ & H1 & H2 & H3 & H4 & Hfill).
  split; [exact Hin|].
  exists x, y, bmi.
  split; [exact Hb|]. split; [exact Hx1|]. split; [exact Hy1|].
  split; [exact H1|]. split; [exact H2|]. split; [exact H3|].
  split; [exact H4 | exact Hfill].
Defined.

Lemma history_window_newest_first_witness :
  validate_and_get_inputs imperial_filled = (imperial_validated, Some imperial_accepted)
  /\ exists record older,
      history (calculate_bmi_gui "2026-01-01 10:00" true imperial_filled)
      = (older ++ [record])%list
      /\ window_listbox
           (show_history (calculate_bmi_gui "2026-01-01 10:00" true imperial_filled))
         = ("Date      | BMI  | Category      | Weight"
            :: "----------|------|---------------|--------"
            :: history_line record :: List.map history_line (List.rev older))%string.
Proof.
  pose proof (history_window_newest_first "2026-01-01 10:00" true imperial_filled
                imperial_validated imperial_accepted imperial_filled_accepted) as W.
  cbv zeta in W. destruct W as (record & older & Hh & Hw & _).
  split; [exact imperial_filled_accepted|].
  exists record, older. split; assumption.
Defined.




End FurtherInstances.
